(** * Conway's Game of Life ([life.py]): simulation engine and pattern codec

    A shallow embedding of the helper functions of [life.py]
    ([create_board], [count_live_neighbors], [next_board_state],
    [random_fill_board], [save_pattern], [load_pattern]) and the properties
    of the rule engine, the randomizer and the pattern codec.

    Python lists are mutable objects: a board is a list of row objects and
    [board[r][c] = v] updates a row in place.  Rows therefore live in a
    store, a board being the sequence of the addresses of its rows; no
    function of [life.py] ever assigns to the outer list.  The functions
    run in a state-and-exception monad over a [world] made of that store,
    the stream of values [random.random()] is going to return, the file
    system and the text printed so far. *)

From Stdlib Require Import ZArith QArith Ascii String Lia.
From stdpp Require Import gmap strings list fin_maps numbers.

Open Scope Z_scope.

(** ** Text *)

(** A Python [str] whose code points are below 256. *)
Abbreviation str := (list ascii).

Definition lit (s : string) : str := list_ascii_of_string s.

Definition code (c : ascii) : Z := Z.of_N (N_of_ascii c).

Definition LF : ascii := ascii_of_N 10.
Definition CR : ascii := ascii_of_N 13.

(** [str.isspace] on one character, as [str.strip] uses it. *)
Definition is_space (c : ascii) : bool :=
  let n := code c in
  ((9 <=? n) && (n <=? 13)) || ((28 <=? n) && (n <=? 32))
  || (n =? 133) || (n =? 160).

(** The white space [int] accepts around a literal: the C [isspace]
    characters, and the two other white space characters below 256. *)
Definition is_space_int (c : ascii) : bool :=
  let n := code c in
  ((9 <=? n) && (n <=? 13)) || (n =? 32) || (n =? 133) || (n =? 160).

Fixpoint lstrip_with (sp : ascii -> bool) (s : str) : str :=
  match s with
  | [] => []
  | c :: s' => if sp c then lstrip_with sp s' else s
  end.

Definition strip_with (sp : ascii -> bool) (s : str) : str :=
  rev (lstrip_with sp (rev (lstrip_with sp s))).

(** [s.strip()] *)
Definition strip (s : str) : str := strip_with is_space s.

(** [s.split(sep)] for a one-character separator. *)
Fixpoint split (sep : ascii) (s : str) : list str :=
  match s with
  | [] => [[]]
  | c :: s' =>
      if Ascii.eqb c sep then [] :: split sep s'
      else match split sep s' with
           | [] => [[c]]
           | p :: ps => (c :: p) :: ps
           end
  end.

(** [s.startswith(c)] for a one-character prefix. *)
Definition startswith (c : ascii) (s : str) : bool :=
  match s with
  | [] => false
  | c' :: _ => Ascii.eqb c' c
  end.

Definition digit_val (c : ascii) : option Z :=
  let n := code c in
  if (48 <=? n) && (n <=? 57) then Some (n - 48) else None.

(** The digits of a literal after its first digit: a single underscore may
    separate two digits. *)
Fixpoint digits_acc (acc : Z) (s : str) : option Z :=
  match s with
  | [] => Some acc
  | c :: s' =>
      match digit_val c with
      | Some d => digits_acc (10 * acc + d) s'
      | None =>
          if Ascii.eqb c "_"%char then
            match s' with
            | c2 :: s'' =>
                match digit_val c2 with
                | Some d => digits_acc (10 * acc + d) s''
                | None => None
                end
            | [] => None
            end
          else None
      end
  end.

Definition parse_digits (s : str) : option Z :=
  match s with
  | c :: s' =>
      match digit_val c with
      | Some d => digits_acc d s'
      | None => None
      end
  | [] => None
  end.

(** [int(s)]: [None] stands for [ValueError].  The literal is an optional
    sign and decimal digits, with white space allowed around it.  An
    interpreter may also refuse a literal for its number of digits alone
    (more than [sys.get_int_max_str_digits()], 4300 unless it is set
    otherwise, and never settable below 640): that limit is not part of
    this function, which is [int] on the literals of at most
    [int_digits_taken] digits.  A statement that depends on what [int] does
    with a longer literal has to leave such literals out. *)
Definition parse_int (s : str) : option Z :=
  let t := strip_with is_space_int s in
  match t with
  | c :: t' =>
      if Ascii.eqb c "-"%char then Z.opp <$> parse_digits t'
      else if Ascii.eqb c "+"%char then parse_digits t'
      else parse_digits t
  | [] => None
  end.

Definition digit_char (d : Z) : ascii := ascii_of_N (Z.to_N (48 + d)).

Fixpoint digits_fuel (fuel : nat) (n : Z) : str :=
  match fuel with
  | O => []
  | S fuel' =>
      if n <? 10 then [digit_char n]
      else digits_fuel fuel' (n / 10) ++ [digit_char (n mod 10)]
  end.

(** [str(n)], which is what [f"{n}"] formats an integer to. *)
Definition str_of_int (n : Z) : str :=
  if n <? 0 then "-"%char :: digits_fuel (S (Z.to_nat (- n))) (- n)
  else digits_fuel (S (Z.to_nat n)) n.

(** Reading a text file opened with the default [newline=None]: the line
    ends ["\r\n"] and ["\r"] are read as ["\n"]. *)
Fixpoint universal_newlines (s : str) : str :=
  match s with
  | [] => []
  | c :: s' =>
      if Ascii.eqb c CR then
        LF :: match s' with
              | c2 :: s'' =>
                  if Ascii.eqb c2 LF then universal_newlines s''
                  else universal_newlines s'
              | [] => []
              end
      else c :: universal_newlines s'
  end.

(** The lines of a text, each with its line end, as iterating over a file
    yields them. *)
Fixpoint keepends (s : str) : list str :=
  match s with
  | [] => []
  | c :: s' =>
      if Ascii.eqb c LF then [c] :: keepends s'
      else match keepends s' with
           | [] => [[c]]
           | l :: ls => (c :: l) :: ls
           end
  end.

Definition readlines (content : str) : list str :=
  keepends (universal_newlines content).

(** [os.path.dirname] (POSIX). *)
Fixpoint dirname_head (p : str) : str :=
  match p with
  | [] => []
  | c :: p' =>
      match dirname_head p' with
      | [] => if Ascii.eqb c "/"%char then [c] else []
      | h => c :: h
      end
  end.

Definition is_slash (c : ascii) : bool := Ascii.eqb c "/"%char.

Definition dirname (p : str) : str :=
  let head := dirname_head p in
  if forallb is_slash head then head
  else rev (lstrip_with is_slash (rev head)).

(** ** Numbers compared by the randomizer *)

(** A Python [float] (or [int]) as far as [<] is concerned: a rational, an
    infinity or a NaN. *)
Inductive pyfloat : Type :=
  | Fin (q : Q)
  | PInf
  | NInf
  | NaN.

Definition Qltb (x y : Q) : bool := negb (Qle_bool y x).

(** [x < d] for a finite [x]. *)
Definition float_lt (x : Q) (d : pyfloat) : bool :=
  match d with
  | Fin q => Qltb x q
  | PInf => true
  | NInf => false
  | NaN => false
  end.

(** ** The world and the monad *)

Abbreviation loc := positive.

Inductive exn : Type :=
  | IndexError
  | ValueError
  | FileNotFoundError
  | DanglingRow.  (* no Python counterpart: an address without a row *)

Global Instance exn_eq_dec : EqDecision exn.
Proof. solve_decision. Defined.

Record world : Type := World {
  heap : gmap loc (list Z);        (* the row objects *)
  rng_seq : nat -> Q;              (* what random.random() returns, in order *)
  rng_idx : nat;                   (* how many values were drawn *)
  files : gmap str str;            (* the text of the files, by path *)
  stdout : list str                (* the lines printed *)
}.

Definition set_heap (h : gmap loc (list Z)) (w : world) : world :=
  World h (rng_seq w) (rng_idx w) (files w) (stdout w).
Definition set_rng_idx (n : nat) (w : world) : world :=
  World (heap w) (rng_seq w) n (files w) (stdout w).
Definition set_files (fs : gmap str str) (w : world) : world :=
  World (heap w) (rng_seq w) (rng_idx w) fs (stdout w).
Definition set_stdout (out : list str) (w : world) : world :=
  World (heap w) (rng_seq w) (rng_idx w) (files w) out.

Inductive outcome (A : Type) : Type :=
  | Ok (a : A) (w : world)
  | Raise (e : exn) (w : world).
Arguments Ok {A} a w.
Arguments Raise {A} e w.

Definition M (A : Type) : Type := world -> outcome A.

Definition ret {A} (a : A) : M A := fun w => Ok a w.

Definition bind {A B} (m : M A) (f : A -> M B) : M B :=
  fun w => match m w with
           | Ok a w' => f a w'
           | Raise e w' => Raise e w'
           end.

Definition raise {A} (e : exn) : M A := fun w => Raise e w.

(** [try: m  except e: handler] *)
Definition try_except {A} (m : M A) (e : exn) (handler : M A) : M A :=
  fun w => match m w with
           | Ok a w' => Ok a w'
           | Raise e' w' => if decide (e' = e) then handler w' else Raise e' w'
           end.

Global Instance M_ret : MRet M := @ret.
Global Instance M_bind : MBind M := fun A B f m => bind m f.

(** [for x in xs: body x] *)
Fixpoint for_each {A} (xs : list A) (body : A -> M unit) : M unit :=
  match xs with
  | [] => ret tt
  | x :: xs' => body x ;; for_each xs' body
  end.

(** A [for] loop that updates one local variable. *)
Fixpoint for_fold {A S} (xs : list A) (s : S) (body : S -> A -> M S) : M S :=
  match xs with
  | [] => ret s
  | x :: xs' => s' ← body s x; for_fold xs' s' body
  end.

(** [[f x for x in xs]] *)
Fixpoint list_comp {A B} (xs : list A) (f : A -> M B) : M (list B) :=
  match xs with
  | [] => ret []
  | x :: xs' => y ← f x; ys ← list_comp xs' f; ret (y :: ys)
  end.

(** [range(n)] and [range(a, b)] *)
Definition range (n : Z) : list Z := seqZ 0 n.
Definition range2 (a b : Z) : list Z := seqZ a (b - a).

Definition len {A} (l : list A) : Z := Z.of_nat (length l).

(** The position a Python index denotes in a list: negative indices count
    from the end. *)
Definition py_index {A} (l : list A) (i : Z) : option nat :=
  if decide (0 <= i < len l) then Some (Z.to_nat i)
  else if decide (- len l <= i < 0) then Some (Z.to_nat (len l + i))
  else None.

(** [l[i]] *)
Definition getitem {A} (l : list A) (i : Z) : M A :=
  match py_index l i ≫= (l !!.) with
  | Some x => ret x
  | None => raise IndexError
  end.

(** A new list object. *)
Definition alloc (row : list Z) : M loc :=
  fun w => let l := fresh (dom (heap w)) in
           Ok l (set_heap (<[l := row]> (heap w)) w).

Definition load_row (l : loc) : M (list Z) :=
  fun w => match heap w !! l with
           | Some row => Ok row w
           | None => Raise DanglingRow w
           end.

Definition store_row (l : loc) (row : list Z) : M unit :=
  fun w => Ok tt (set_heap (<[l := row]> (heap w)) w).

(** [board[r][c]] *)
Definition get_cell (board : list loc) (r c : Z) : M Z :=
  l ← getitem board r;
  row ← load_row l;
  getitem row c.

(** [board[r][c] = v] *)
Definition set_cell (board : list loc) (r c v : Z) : M unit :=
  l ← getitem board r;
  row ← load_row l;
  match py_index row c with
  | Some k => store_row l (<[k := v]> row)
  | None => raise IndexError
  end.

(** [len(board[0])] *)
Definition len_row0 (board : list loc) : M Z :=
  l ← getitem board 0;
  row ← load_row l;
  ret (len row).

(** [random.random()] *)
Definition random : M Q :=
  fun w => Ok (rng_seq w (rng_idx w)) (set_rng_idx (S (rng_idx w)) w).

(** [print(s)] *)
Definition print (s : str) : M unit :=
  fun w => Ok tt (set_stdout (stdout w ++ [s]) w).

(** [os.makedirs(d, exist_ok=True)]: the empty path is no directory, and
    the call raises [FileNotFoundError].  Any other directory is taken to
    be there or to be made: a file system that refuses (a file where the
    directory is meant, no right to write) is outside this model. *)
Definition makedirs (d : str) : M unit :=
  match d with
  | [] => raise FileNotFoundError
  | _ => ret tt
  end.

(** [open(filename, "w")]: the file is created or emptied; a line end is
    written as it is.  The path is taken to name a file that can be
    written: the errors with which the operating system refuses one (a
    path that names a directory, as one ending in ["/"] does, no right to
    write) are outside this model.  What is proved of a run that writes is
    proved of the runs in which the file is written. *)
Definition open_w (filename : str) : M unit :=
  fun w => Ok tt (set_files (<[filename := []]> (files w)) w).

(** [f.write(s)] on the file opened at [filename]. *)
Definition write (filename : str) (s : str) : M unit :=
  fun w => Ok tt (set_files
                    (<[filename := default [] (files w !! filename) ++ s]>
                       (files w)) w).

(** [open(filename, "r")], read as a whole.  A path absent from [files]
    has no file, and the call raises [FileNotFoundError]; a path in it has
    a file that opens and whose bytes decode to the text kept there.  A
    file that is there and cannot be opened or decoded is outside this
    model. *)
Definition open_r (filename : str) : M str :=
  fun w => match files w !! filename with
           | Some content => Ok content w
           | None => Raise FileNotFoundError w
           end.

(** [int(s)] *)
Definition int (s : str) : M Z :=
  match parse_int s with
  | Some z => ret z
  | None => raise ValueError
  end.

(** ** The functions of [life.py] *)

Definition create_board (width height : Z) : M (list loc) :=
  list_comp (range height) (fun _ => alloc ((fun _ => 0) <$> range width)).

Definition count_live_neighbors (board : list loc) (r c : Z) : M Z :=
  let live_neighbors := 0 in
  let rows := len board in
  cols ← len_row0 board;
  for_fold (range2 (-1) 2) live_neighbors (fun live_neighbors i =>
    for_fold (range2 (-1) 2) live_neighbors (fun live_neighbors j =>
      if bool_decide (i = 0) && bool_decide (j = 0) then
        ret live_neighbors
      else
        let nr := r + i in
        let nc := c + j in
        if bool_decide (0 <= nr < rows) && bool_decide (0 <= nc < cols) then
          v ← get_cell board nr nc;
          if bool_decide (v = 1) then ret (live_neighbors + 1)
          else ret live_neighbors
        else ret live_neighbors)).

Definition next_board_state (board : list loc) : M (list loc) :=
  let rows := len board in
  cols ← len_row0 board;
  new_board ← create_board cols rows;
  for_each (range rows) (fun r =>
    for_each (range cols) (fun c =>
      live_neighbors ← count_live_neighbors board r c;
      cell_state ← get_cell board r c;
      if bool_decide (cell_state = 1) then
        if bool_decide (live_neighbors < 2) || bool_decide (live_neighbors > 3)
        then set_cell new_board r c 0
        else set_cell new_board r c 1
      else
        if bool_decide (live_neighbors = 3) then set_cell new_board r c 1
        else ret tt)) ;;
  ret new_board.

(** The default of the parameter [density]: the float [0.2]. *)
Definition default_density : pyfloat :=
  Fin (3602879701896397 # 18014398509481984).

Definition random_fill_board (board : list loc) (density : pyfloat) : M unit :=
  let rows := len board in
  cols ← len_row0 board;
  for_each (range rows) (fun r =>
    for_each (range cols) (fun c =>
      x ← random;
      if float_lt x density then set_cell board r c 1
      else set_cell board r c 0)).

Definition header : str := lit "# Pattern: Custom saved pattern" ++ [LF].

(** The default of the parameter [filename] of [save_pattern]. *)
Definition default_filename : str := lit "patterns/custom_pattern.txt".

Definition save_pattern (board : list loc) (filename : str) : M unit :=
  makedirs (dirname filename) ;;
  open_w filename ;;
  write filename header ;;
  (let rows := len board in
   cols ← len_row0 board;
   for_each (range rows) (fun r =>
     for_each (range cols) (fun c =>
       v ← get_cell board r c;
       if bool_decide (v = 1) then
         write filename (str_of_int c ++ lit "," ++ str_of_int r ++ [LF])
       else ret tt))) ;;
  print (lit "Pattern saved to " ++ filename).

(** [x, y = map(int, parts)]: the items are converted one by one as the
    assignment asks for them, a third one to find there are too many. *)
Definition unpack_two_ints (parts : list str) : M (Z * Z) :=
  match parts with
  | [] => raise ValueError
  | p1 :: rest =>
      x ← int p1;
      match rest with
      | [] => raise ValueError
      | p2 :: rest' =>
          y ← int p2;
          match rest' with
          | [] => ret (x, y)
          | p3 :: _ => int p3 ;; raise ValueError
          end
      end
  end.

Definition load_pattern (filename : str) (board_width board_height : Z)
  : M (list loc) :=
  new_board ← create_board board_width board_height;
  try_except
    (content ← open_r filename;
     for_each (readlines content) (fun line =>
       let line := strip line in
       if bool_decide (line = []) || startswith "#"%char line then ret tt
       else
         try_except
           (xy ← unpack_two_ints (split ","%char line);
            let '(x, y) := xy in
            if bool_decide (0 <= y < board_height)
               && bool_decide (0 <= x < board_width)
            then set_cell new_board y x 1
            else ret tt)
           ValueError
           (print (lit "Warning: Could not parse line in pattern file: "
                     ++ line))) ;;
     print (lit "Pattern loaded from " ++ filename) ;;
     ret new_board)
    FileNotFoundError
    (print (lit "Error: Pattern file not found: " ++ filename) ;;
     create_board board_width board_height).

(** ** Grids: what a board holds *)

(** [rows_of h b g]: in the store [h] the rows of the board [b] hold the
    lists of [g]. *)
Definition rows_of (h : gmap loc (list Z)) (b : list loc) (g : list (list Z))
  : Prop :=
  Forall2 (fun l row => h !! l = Some row) b g.

(** The number of columns, as the code takes it: [len(board[0])]. *)
Definition width (g : list (list Z)) : nat := length (default [] (head g)).

Definition rectangular (g : list (list Z)) : Prop :=
  Forall (fun row => length row = width g) g.

(** The board [b] is a rectangular grid of at least one row holding [g]. *)
Definition is_grid (w : world) (b : list loc) (g : list (list Z)) : Prop :=
  rows_of (heap w) b g /\ g <> [] /\ rectangular g.

Definition cell (g : list (list Z)) (r c : nat) : option Z :=
  row ← g !! r; row !! c.

(** The eight offsets, in the order the loops visit them. *)
Definition neighbor_offsets : list (Z * Z) :=
  [(-1, -1); (-1, 0); (-1, 1); (0, -1); (0, 1); (1, -1); (1, 0); (1, 1)].

(** The cell at [(r, c)] is inside the grid and holds 1. *)
Definition live_in_grid (g : list (list Z)) (r c : Z) : Prop :=
  0 <= r < len g /\ 0 <= c < Z.of_nat (width g)
  /\ cell g (Z.to_nat r) (Z.to_nat c) = Some 1.

Global Instance live_in_grid_dec g r c : Decision (live_in_grid g r c).
Proof. unfold live_in_grid. apply _. Defined.

(** The number of live cells among the eight neighbours of [(r, c)] that
    fall inside the grid. *)
Definition live_neighbor_count (g : list (list Z)) (r c : Z) : Z :=
  len (filter (fun ij => live_in_grid g (r + ij.1) (c + ij.2))
         neighbor_offsets).

(** The rule B3/S23 on one cell of value [v] with [n] live neighbours. *)
Definition life_rule (v n : Z) : Z :=
  if decide (v = 1) then (if decide (n = 2 \/ n = 3) then 1 else 0)
  else (if decide (n = 3) then 1 else 0).

(** The grid the rule gives, cell by cell. *)
Definition next_grid (g : list (list Z)) : list (list Z) :=
  imap (fun r row =>
          imap (fun c v =>
                  life_rule v (live_neighbor_count g (Z.of_nat r) (Z.of_nat c)))
               row) g.

(** A value read as the code reads it: alive when it is 1, dead otherwise. *)
Definition as_bit (v : Z) : Z := if decide (v = 1) then 1 else 0.

Definition all_cells (v : Z) (g : list (list Z)) : Prop :=
  Forall (Forall (fun x => x = v)) g.

(** The store [h'] keeps every row of [h] as it was. *)
Definition heap_kept (h h' : gmap loc (list Z)) : Prop :=
  forall l, l ∈ dom h -> h' !! l = h !! l.

(** 1 when [P] holds, 0 otherwise. *)
Definition indicator (P : Prop) `{Decision P} : Z := if decide P then 1 else 0.

(** What the rule gives at [(r, c)]. *)
Definition rule_at (g : list (list Z)) (r c : nat) : Z :=
  life_rule (default 0 (cell g r c))
            (live_neighbor_count g (Z.of_nat r) (Z.of_nat c)).

(** The state of the two loops of [next_board_state] when the rows before
    [k] and the first [j] cells of row [k] are done: the new board [nb]
    holds the rule's value in the cells done and 0 in the others, and
    nothing else has changed since the world [w] of the call. *)
Definition engine_inv (w : world) (g : list (list Z)) (nb : list loc)
    (k j : nat) (w1 : world) : Prop :=
  exists h1 acc,
    w1 = set_heap h1 w
    /\ rows_of h1 nb acc
    /\ (forall l, l ∉ nb -> h1 !! l = heap w !! l)
    /\ Forall (fun row => length row = width g) acc
    /\ forall r c, (r < length g)%nat -> (c < width g)%nat ->
         cell acc r c
         = Some (if decide ((r < k)%nat \/ (r = k /\ (c < j)%nat))
                 then rule_at g r c else 0).

(** A world without rows, files or output. *)
Definition empty_world : world := World ∅ (fun _ => 0%Q) O ∅ [].

(** A world whose store holds the rows [[1; 0]] and [[0; 0]], at the
    addresses 1 and 2. *)
Definition corner_world : world :=
  World (<[2%positive := [0; 0]]> (<[1%positive := [1; 0]]> ∅))
        (fun _ => (1 # 2)%Q) O ∅ [].

Definition corner_board : list loc := [1%positive; 2%positive].

Definition corner_grid : list (list Z) := [[1; 0]; [0; 0]].

(** The grid read as the code reads it. *)
Definition as_bits (g : list (list Z)) : list (list Z) :=
  (fun row : list Z => as_bit <$> row) <$> g.

Definition is_bit (x : Z) : Prop := x = 0 \/ x = 1.

(** A world whose board holds integers other than 0 and 1. *)
Definition mixed_world : world :=
  World (<[2%positive := [-3; 1; 2]]> (<[1%positive := [1; 7; 1]]> ∅))
        (fun _ => (1 # 2)%Q) O ∅ [].

Definition mixed_board : list loc := [1%positive; 2%positive].

Definition mixed_grid : list (list Z) := [[1; 7; 1]; [-3; 1; 2]].

Definition bit_of (t : bool) : Z := if t then 1 else 0.

(** The state of the two loops of [random_fill_board] when every value
    written is [v], the rows before [k] and the first [j] cells of row [k]
    being done.  Two rows of the board may be one and the same object. *)
Definition fill_inv (w : world) (g : list (list Z)) (b : list loc) (v : Z)
    (k j : nat) (w1 : world) : Prop :=
  exists h1 idx,
    w1 = set_rng_idx idx (set_heap h1 w)
    /\ (forall l, l ∉ b -> h1 !! l = heap w !! l)
    /\ forall i l, b !! i = Some l ->
         exists row,
           h1 !! l = Some row
           /\ length row = width g
           /\ ((i < k)%nat -> row = replicate (width g) v)
           /\ (i = k -> take j row = replicate j v).

(** A density below 0, and a density above 1. *)
Definition below_zero (d : pyfloat) : Prop :=
  match d with
  | Fin q => (q < 0)%Q
  | NInf => True
  | PInf | NaN => False
  end.

Definition above_one (d : pyfloat) : Prop :=
  match d with
  | Fin q => (1 < q)%Q
  | PInf => True
  | NInf | NaN => False
  end.

(** Every value the source is going to return is in [[0, 1)], as
    [random.random()] promises. *)
Definition unit_draws (w : world) : Prop :=
  forall n, (0 <= rng_seq w n)%Q /\ (rng_seq w n < 1)%Q.

(** ** Pattern files: what a line says *)

Definition is_digit (c : ascii) : bool :=
  match digit_val c with
  | Some _ => true
  | None => false
  end.

(** The two integers of a line cut at its commas, when it has exactly two
    parts and [int] accepts both. *)
Definition pair_of_parts (parts : list str) : option (Z * Z) :=
  match parts with
  | [p1; p2] => x ← parse_int p1; y ← parse_int p2; Some (x, y)
  | _ => None
  end.

Definition parse_pair (s : str) : option (Z * Z) :=
  pair_of_parts (split ","%char s).

(** A line the loop of [load_pattern] passes over: blank, or a comment. *)
Definition skipped (line : str) : bool :=
  bool_decide (strip line = []) || startswith "#"%char (strip line).

(** The line names the cell of row [r] and column [c]. *)
Definition names_cell (r c : nat) (line : str) : Prop :=
  skipped line = false
  /\ parse_pair (strip line) = Some (Z.of_nat c, Z.of_nat r).

(** The line is neither passed over nor two integers. *)
Definition malformed (line : str) : Prop :=
  skipped line = false /\ parse_pair (strip line) = None.

Global Instance names_cell_dec r c line : Decision (names_cell r c line).
Proof. unfold names_cell. apply _. Defined.

Global Instance malformed_dec line : Decision (malformed line).
Proof. unfold malformed. apply _. Defined.

(** The number of digits [int] takes in a literal whatever the limit of the
    interpreter is set to: the least limit that can be set. *)
Definition int_digits_taken : Z := 640.

(** The digits of a line, counted as the limit counts them: leading zeros
    are digits, signs, underscores and white space are not. *)
Definition digit_count (line : str) : Z :=
  len (filter (fun c => is_digit c = true) line).

(** No line of the text has more digits than [int] takes, so no number
    written on a line has. *)
Definition within_digit_limit (content : str) : Prop :=
  Forall (fun line => digit_count line <= int_digits_taken)
         (readlines content).

Definition warning (line : str) : str :=
  lit "Warning: Could not parse line in pattern file: " ++ strip line.

(** The line [save_pattern] writes for the live cell of row [r] and column
    [c]. *)
Definition entry (r c : nat) : str :=
  str_of_int (Z.of_nat c) ++ lit "," ++ str_of_int (Z.of_nat r) ++ [LF].

(** The state of the loop of [load_pattern] over the lines of the file when
    the first [k] lines are done: the new board [nb], of [H] rows and [W]
    columns, holds 1 in the cells a line has named and 0 in the others, a
    warning was printed for every malformed line, and nothing else has
    changed since the world [w] of the call. *)
Definition load_inv (w : world) (nb : list loc) (W H : nat)
    (lines : list str) (k : nat) (w1 : world) : Prop :=
  exists h1 acc,
    w1 = set_stdout
           (stdout w ++ (warning <$> filter malformed (take k lines)))
           (set_heap h1 w)
    /\ rows_of h1 nb acc
    /\ (forall l, l ∉ nb -> h1 !! l = heap w !! l)
    /\ Forall (fun row => length row = W) acc
    /\ forall r c, (r < H)%nat -> (c < W)%nat ->
         cell acc r c
         = Some (indicator (Exists (names_cell r c) (take k lines))).

(** The file of the load test: a cell, a malformed line and a cell far
    outside a board of 10 by 10. *)
Definition example_content : str :=
  lit "3,4" ++ [LF] ++ lit "abc" ++ [LF] ++ lit "9999,9999" ++ [LF].

Definition example_path : str := lit "patterns/glider.txt".

Definition example_world : world :=
  World ∅ (fun _ => 0%Q) O (<[example_path := example_content]> ∅) [].

Definition loaded_message (filename : str) : str :=
  lit "Pattern loaded from " ++ filename.

Definition not_found_message (filename : str) : str :=
  lit "Error: Pattern file not found: " ++ filename.

(** The text [save_pattern] writes for the live cells [coords], given as
    pairs of a row and a column. *)
Definition entries (coords : list (nat * nat)) : list str :=
  (fun rc : nat * nat => entry rc.1 rc.2) <$> coords.

Definition saved_message (filename : str) : str :=
  lit "Pattern saved to " ++ filename.

(** The state of the two loops of [save_pattern] when the rows before [k]
    and the first [j] cells of row [k] are done: the file holds the header
    and one line for each live cell done. *)
Definition save_inv (w : world) (g : list (list Z)) (f : str)
    (k j : nat) (w1 : world) : Prop :=
  exists coords,
    w1 = set_files (<[f := header ++ concat (entries coords)]> (files w)) w
    /\ forall r c, (r, c) ∈ coords
                   <-> cell g r c = Some 1
                       /\ ((r < k)%nat \/ (r = k /\ (c < j)%nat)).

(** ** The rest of [life.py]: counting the live cells *)

Definition count_total_live_cells (board : list loc) : M Z :=
  let count := 0 in
  for_fold board count (fun count l =>
    row ← load_row l;
    for_fold row count (fun count cell =>
      if bool_decide (cell = 1) then ret (count + 1) else ret count)).

(** The number of cells of a grid, of whatever shape, that hold 1. *)
Definition live_total (g : list (list Z)) : Z :=
  len (filter (fun v => v = 1) (concat g)).

(** A world whose store holds two rows [[0; 0]]: the grid of
    [corner_world] with its corner dead. *)
Definition dead_world : world :=
  World (<[2%positive := [0; 0]]> (<[1%positive := [0; 0]]> ∅))
        (fun _ => (1 # 2)%Q) O ∅ [].

Definition dead_grid : list (list Z) := [[0; 0]; [0; 0]].

(** The grid [random_fill_board] leaves in a board of [rows] rows and
    [cols] columns: the cell of row [r] and column [c] is alive when the
    value drawn for it, the one of rank [r * cols + c] after those drawn
    before the call, is below the density. *)
Definition random_grid (w : world) (density : pyfloat) (rows cols : nat)
  : list (list Z) :=
  (fun r : nat =>
     (fun c : nat =>
        bit_of (float_lt (rng_seq w (rng_idx w + r * cols + c)%nat) density))
     <$> seq 0 cols)
  <$> seq 0 rows.

(** The state of the two loops of [random_fill_board] on a board whose rows
    are distinct objects, the rows before [k] and the first [j] cells of row
    [k] being done. *)
Definition fill_exact_inv (w : world) (g : list (list Z)) (b : list loc)
    (density : pyfloat) (k j : nat) (w1 : world) : Prop :=
  exists h1 acc,
    w1 = set_rng_idx (rng_idx w + k * width g + j)%nat (set_heap h1 w)
    /\ rows_of h1 b acc
    /\ (forall l, l ∉ b -> h1 !! l = heap w !! l)
    /\ Forall (fun row => length row = width g) acc
    /\ forall r c, (r < length g)%nat -> (c < width g)%nat ->
         cell acc r c
         = if decide ((r < k)%nat \/ (r = k /\ (c < j)%nat))
           then Some (bit_of
                        (float_lt
                           (rng_seq w (rng_idx w + r * width g + c)%nat)
                           density))
           else cell g r c.

(** The positions of a board of [rows] rows and [cols] columns, in the
    order the loops of [save_pattern] visit them: row after row. *)
Definition positions (rows cols : nat) : list (nat * nat) :=
  concat ((fun r : nat => pair r <$> seq 0 cols) <$> seq 0 rows).

Definition is_live_at (g : list (list Z)) (rc : nat * nat) : Prop :=
  cell g rc.1 rc.2 = Some 1.

Global Instance is_live_at_dec g rc : Decision (is_live_at g rc).
Proof. unfold is_live_at. apply _. Defined.

(** The live cells of a grid, row after row. *)
Definition live_coords (g : list (list Z)) : list (nat * nat) :=
  filter (is_live_at g) (positions (length g) (width g)).

(** The text [save_pattern] writes for a grid. *)
Definition saved_text (g : list (list Z)) : str :=
  header ++ concat (entries (live_coords g)).

(** The state of the two loops of [save_pattern], with the lines written
    in their order. *)
Definition save_exact_inv (w : world) (g : list (list Z)) (f : str)
    (k j : nat) (w1 : world) : Prop :=
  w1 = set_files
         (<[f := header
                 ++ concat (entries
                              (filter (is_live_at g)
                                 (positions k (width g)
                                  ++ (pair k <$> seq 0 j))))]>
            (files w)) w.

(** Two files that hold the same lines, in another order and one of them
    twice. *)
Definition shuffle_world : world :=
  World ∅ (fun _ => 0%Q) O
    (<[lit "b.txt" := lit "0,1" ++ [LF] ++ lit "1,0" ++ [LF]
                       ++ lit "1,0" ++ [LF]]>
       (<[lit "a.txt" := lit "1,0" ++ [LF] ++ lit "0,1" ++ [LF]]> ∅))
    [].

(** ** The rest of [life.py]: the game loop of [main]

    The state of [main] is its local variables [board], [running],
    [paused] and [generation].  What a frame of the loop does to it is
    modelled; what it draws on the screen is not, but for the cells
    [draw_grid] reads, as reading them can raise. *)

Definition CELL_SIZE : Z := 15.
Definition HUD_HEIGHT : Z := 60.

Inductive key : Type :=
  | K_SPACE | K_n | K_c | K_r | K_s | K_l | K_q
  | K_other.  (* any other key *)

(** A [pygame] event, as far as [main] looks at it. *)
Inductive event : Type :=
  | QUIT
  | KEYDOWN (k : key)
  | MOUSEBUTTONDOWN (button : Z) (pos : Z * Z)
  | OTHER_EVENT.

Record game : Type := Game {
  board : list loc;
  running : bool;
  paused : bool;
  generation : Z
}.

(** The name [main] saves under:
    [f"patterns/gen_{generation}_cells_{count}.txt"]. *)
Definition save_name (generation count : Z) : str :=
  lit "patterns/gen_" ++ str_of_int generation ++ lit "_cells_"
    ++ str_of_int count ++ lit ".txt".

(** The path [main] loads from. *)
Definition load_name : str := lit "patterns/glider.txt".

(** The truth value of a list: false when it is empty. *)
Definition truthy {A} (l : list A) : bool :=
  match l with
  | [] => false
  | _ :: _ => true
  end.

(** The body of [for event in pygame.event.get():].  An event has one
    type, so that one of the three tests of [event.type] at most holds. *)
Definition handle_event (board_width board_height : Z) (ev : event)
    (st : game) : M game :=
  match ev with
  | QUIT => ret (Game (board st) false (paused st) (generation st))
  | KEYDOWN K_SPACE =>
      ret (Game (board st) (running st) (negb (paused st)) (generation st))
  | KEYDOWN K_n =>
      if paused st then
        new ← next_board_state (board st);
        ret (Game new (running st) (paused st) (generation st + 1))
      else ret st
  | KEYDOWN K_c =>
      new ← create_board board_width board_height;
      ret (Game new (running st) true 0)
  | KEYDOWN K_r =>
      random_fill_board (board st) default_density ;;
      ret (Game (board st) (running st) true 0)
  | KEYDOWN K_s =>
      count ← count_total_live_cells (board st);
      save_pattern (board st) (save_name (generation st) count) ;;
      ret st
  | KEYDOWN K_l =>
      loaded_board ← load_pattern load_name board_width board_height;
      if truthy loaded_board then ret (Game loaded_board (running st) true 0)
      else ret st
  | KEYDOWN K_q => ret (Game (board st) false (paused st) (generation st))
  | KEYDOWN K_other => ret st
  | MOUSEBUTTONDOWN button (mouse_x, mouse_y) =>
      if bool_decide (button = 1) then
        if bool_decide (mouse_y > HUD_HEIGHT) then
          let col := mouse_x / CELL_SIZE in
          let row := (mouse_y - HUD_HEIGHT) / CELL_SIZE in
          if bool_decide (0 <= row < board_height)
             && bool_decide (0 <= col < board_width)
          then
            v ← get_cell (board st) row col;
            set_cell (board st) row col (1 - v) ;;
            ret (Game (board st) (running st) true (generation st))
          else ret st
        else ret st
      else ret st
  | OTHER_EVENT => ret st
  end.

(** The cells [draw_grid] reads. *)
Definition draw_grid (board : list loc) : M unit :=
  let rows := len board in
  cols ← len_row0 board;
  for_each (range rows) (fun r =>
    for_each (range cols) (fun c =>
      v ← get_cell board r c;
      ret tt)).

(** One turn of [while running:], [events] being what
    [pygame.event.get()] returns. *)
Definition frame (board_width board_height : Z) (events : list event)
    (st : game) : M game :=
  st ← for_fold events st (fun st ev =>
         handle_event board_width board_height ev st);
  st ← (if negb (paused st) then
          new ← next_board_state (board st);
          ret (Game new (running st) (paused st) (generation st + 1))
        else ret st);
  live_cells_count ← count_total_live_cells (board st);
  draw_grid (board st) ;;
  ret st.

(** The loop [while running:] over the events of as many frames as
    [frames] lists. *)
Fixpoint main_loop (board_width board_height : Z)
    (frames : list (list event)) (st : game) : M game :=
  match frames with
  | [] => ret st
  | events :: frames' =>
      if running st then
        st' ← frame board_width board_height events st;
        main_loop board_width board_height frames' st'
      else ret st
  end.

(** [main], from the creation of the board to the end of the loop. *)
Definition main (board_width board_height : Z) (frames : list (list event))
  : M game :=
  new ← create_board board_width board_height;
  main_loop board_width board_height frames (Game new true true 0).

(** What [main] keeps true of its state: the board is made of
    [board_height] distinct rows of [board_width] cells, each 0 or 1, and
    the generation is not negative. *)
Definition game_ok (board_width board_height : Z) (w : world) (st : game)
  : Prop :=
  exists g,
    rows_of (heap w) (board st) g
    /\ NoDup (board st)
    /\ length g = Z.to_nat board_height
    /\ Forall (fun row => length row = Z.to_nat board_width) g
    /\ Forall (Forall is_bit) g
    /\ 0 <= generation st.

(** The game on the board of [corner_world], running, at generation 3. *)
Definition corner_game : game := Game corner_board true false 3.

(** ** Patterns *)

(** The grid [g] holds 1 in the cells where [P] holds and 0 in the others. *)
Definition shows (g : list (list Z)) (P : Z -> Z -> Prop)
    `{forall r c, Decision (P r c)} : Prop :=
  forall r c : nat, (r < length g)%nat -> (c < width g)%nat ->
    cell g r c = Some (indicator (P (Z.of_nat r) (Z.of_nat c))).

(** The number of the eight positions around [(r, c)] where [P] holds. *)
Definition neighbor_sum (P : Z -> Z -> Prop)
    `{forall r c, Decision (P r c)} (r c : Z) : Z :=
  foldr (fun ij s => indicator (P (r + ij.1) (c + ij.2)) + s) 0
        neighbor_offsets.

(** The block of two by two cells whose upper left corner is [(r0, c0)]. *)
Definition in_block (r0 c0 r c : Z) : Prop :=
  r0 <= r <= r0 + 1 /\ c0 <= c <= c0 + 1.

(** The three cells of a row, and of a column, around [(r0, c0)]. *)
Definition in_row3 (r0 c0 r c : Z) : Prop :=
  r = r0 /\ c0 - 1 <= c <= c0 + 1.

Definition in_col3 (r0 c0 r c : Z) : Prop :=
  r0 - 1 <= r <= r0 + 1 /\ c = c0.

Global Instance in_block_dec r0 c0 r c : Decision (in_block r0 c0 r c).
Proof. unfold in_block. apply _. Defined.

Global Instance in_row3_dec r0 c0 r c : Decision (in_row3 r0 c0 r c).
Proof. unfold in_row3. apply _. Defined.

Global Instance in_col3_dec r0 c0 r c : Decision (in_col3 r0 c0 r c).
Proof. unfold in_col3. apply _. Defined.

(** A grid of 4 by 4 with a block in its middle, and one with three cells
    in a row. *)
Definition block_grid : list (list Z) :=
  [[0; 0; 0; 0]; [0; 1; 1; 0]; [0; 1; 1; 0]; [0; 0; 0; 0]].

Definition blinker_grid : list (list Z) :=
  [[0; 0; 0; 0]; [1; 1; 1; 0]; [0; 0; 0; 0]; [0; 0; 0; 0]].

Definition pattern_board : list loc :=
  [1%positive; 2%positive; 3%positive; 4%positive].

Definition world_of (g : list (list Z)) : world :=
  World (list_to_map (zip pattern_board g)) (fun _ => 0%Q) O ∅ [].

(** The events that make [main] write or read a pattern file are the keys
    S and L; this is every other event. *)
Definition no_file_key (ev : event) : Prop :=
  ev <> KEYDOWN K_s /\ ev <> KEYDOWN K_l.

(** The files and the output of [w'] are those of [w]. *)
Definition same_io (w w' : world) : Prop :=
  files w' = files w /\ stdout w' = stdout w.

(** * Properties *)

(** ** Running monadic code *)

Lemma bind_Ok {A B} (m : M A) (f : A -> M B) w a w' :
  m w = Ok a w' -> (m ≫= f) w = f a w'.
Proof. intros H. unfold mbind, M_bind, bind. by rewrite H. Qed.

Lemma bind_Raise {A B} (m : M A) (f : A -> M B) w e w' :
  m w = Raise e w' -> (m ≫= f) w = Raise e w'.
Proof. intros H. unfold mbind, M_bind, bind. by rewrite H. Qed.

Lemma ret_Ok {A} (a : A) w : ret a w = Ok a w.
Proof. reflexivity. Qed.

Lemma set_heap_set_heap h h' w : set_heap h' (set_heap h w) = set_heap h' w.
Proof. reflexivity. Qed.

Lemma set_heap_id w : set_heap (heap w) w = w.
Proof. by destruct w. Qed.

(** A loop over [range n] keeps an invariant indexed by the number of
    rounds done. *)
Lemma for_each_seqZ_inv (I : nat -> world -> Prop) (body : Z -> M unit) n :
  forall m w,
    I m w ->
    (forall k w1, (m <= k < m + n)%nat -> I k w1 ->
       exists w2, body (Z.of_nat k) w1 = Ok tt w2 /\ I (S k) w2) ->
    exists w', for_each (seqZ (Z.of_nat m) (Z.of_nat n)) body w = Ok tt w'
               /\ I (m + n)%nat w'.
Proof.
  induction n as [|n IH]; intros m w HI Hstep.
  - exists w. split; [done|]. by rewrite Nat.add_0_r.
  - rewrite Nat2Z.inj_succ, seqZ_cons by lia. simpl.
    destruct (Hstep m w) as (w2 & Hb & HI2); [lia|done|].
    rewrite (bind_Ok _ _ _ _ _ Hb).
    replace (Z.succ (Z.of_nat m)) with (Z.of_nat (S m)) by lia.
    replace (Z.pred (Z.succ (Z.of_nat n))) with (Z.of_nat n) by lia.
    destruct (IH (S m) w2 HI2) as (w' & Hr & HI').
    { intros k w1 Hk. apply Hstep. lia. }
    exists w'. split; [done|]. by replace (m + S n)%nat with (S m + n)%nat by lia.
Qed.

Lemma for_range_inv (I : nat -> world -> Prop) (body : Z -> M unit) n w :
  I O w ->
  (forall k w1, (k < n)%nat -> I k w1 ->
     exists w2, body (Z.of_nat k) w1 = Ok tt w2 /\ I (S k) w2) ->
  exists w', for_each (range (Z.of_nat n)) body w = Ok tt w' /\ I n w'.
Proof.
  intros HI Hstep.
  destruct (for_each_seqZ_inv I body n O w HI) as (w' & Hr & HI').
  { intros k w1 Hk. apply Hstep. lia. }
  by exists w'.
Qed.

Lemma for_range_post (I : nat -> world -> Prop) (Q : world -> Prop)
    (body : Z -> M unit) n w :
  I O w ->
  (forall k w1, (k < n)%nat -> I k w1 ->
     exists w2, body (Z.of_nat k) w1 = Ok tt w2 /\ I (S k) w2) ->
  (forall w', I n w' -> Q w') ->
  exists w', for_each (range (Z.of_nat n)) body w = Ok tt w' /\ Q w'.
Proof.
  intros HI Hstep Hpost.
  destruct (for_range_inv I body n w HI Hstep) as (w' & Hr & HI').
  exists w'. split; [done|]. by apply Hpost.
Qed.

(** ** Lists and rows *)

Lemma py_index_nat {A} (l : list A) (n : nat) :
  (n < length l)%nat -> py_index l (Z.of_nat n) = Some n.
Proof.
  intros Hn. unfold py_index, len.
  rewrite decide_True by lia. by rewrite Nat2Z.id.
Qed.

Lemma getitem_Ok {A} (l : list A) (n : nat) x w :
  l !! n = Some x -> getitem l (Z.of_nat n) w = Ok x w.
Proof.
  intros Hl. unfold getitem.
  rewrite py_index_nat by (by eapply lookup_lt_Some). simpl.
  by rewrite Hl.
Qed.

Lemma load_row_Ok l row w : heap w !! l = Some row -> load_row l w = Ok row w.
Proof. intros H. unfold load_row. by rewrite H. Qed.

Lemma rows_of_lookup h b g r row :
  rows_of h b g -> g !! r = Some row ->
  exists l, b !! r = Some l /\ h !! l = Some row.
Proof.
  intros Hrows Hg.
  destruct (Forall2_lookup_r _ _ _ _ _ Hrows Hg) as (l & Hl & Hh). eauto.
Qed.

Lemma rows_of_length h b g : rows_of h b g -> length b = length g.
Proof. apply Forall2_length. Qed.

Lemma rows_of_dom h b g l : rows_of h b g -> l ∈ b -> l ∈ dom h.
Proof.
  intros Hrows Hl. apply list_elem_of_lookup in Hl as [i Hi].
  destruct (Forall2_lookup_l _ _ _ _ _ Hrows Hi) as (row & _ & Hh).
  apply elem_of_dom. eauto.
Qed.

Lemma rows_of_agree h h' b g :
  rows_of h b g -> (forall l, l ∈ b -> h' !! l = h !! l) -> rows_of h' b g.
Proof.
  unfold rows_of. intros Hrows Hag.
  induction Hrows as [|l row b g Hl Hrows IH]; constructor.
  - rewrite Hag; [done|]. by left.
  - apply IH. intros l' Hl'. apply Hag. by right.
Qed.

Lemma rows_of_kept h h' b g : rows_of h b g -> heap_kept h h' -> rows_of h' b g.
Proof.
  intros Hrows Hk. eapply rows_of_agree; [done|].
  intros l Hl. apply Hk. by eapply rows_of_dom.
Qed.

Lemma rows_of_inj h b g1 g2 : rows_of h b g1 -> rows_of h b g2 -> g1 = g2.
Proof.
  unfold rows_of. intros H1. revert g2.
  induction H1 as [|l row b g Hl H1 IH]; intros g2 H2; inversion H2; subst.
  - done.
  - f_equal; [congruence|]. by apply IH.
Qed.

Lemma get_cell_Ok b g (r c : nat) v w :
  rows_of (heap w) b g -> cell g r c = Some v ->
  get_cell b (Z.of_nat r) (Z.of_nat c) w = Ok v w.
Proof.
  intros Hrows Hc. unfold cell in Hc.
  destruct (g !! r) as [row|] eqn:Hg; [simpl in Hc|done].
  destruct (rows_of_lookup _ _ _ _ _ Hrows Hg) as (l & Hb & Hh).
  unfold get_cell.
  rewrite (bind_Ok _ _ _ _ _ (getitem_Ok _ _ _ w Hb)).
  rewrite (bind_Ok _ _ _ _ _ (load_row_Ok _ _ _ Hh)).
  by apply getitem_Ok.
Qed.

Lemma width_cons row g : width (row :: g) = length row.
Proof. reflexivity. Qed.

Lemma len_row0_Ok w b g :
  is_grid w b g -> len_row0 b w = Ok (Z.of_nat (width g)) w.
Proof.
  intros (Hrows & Hne & _). destruct g as [|row g]; [done|].
  destruct (rows_of_lookup _ _ _ O row Hrows eq_refl) as (l & Hb & Hh).
  unfold len_row0.
  rewrite (bind_Ok _ _ _ _ _ (getitem_Ok _ O _ w Hb)).
  rewrite (bind_Ok _ _ _ _ _ (load_row_Ok _ _ _ Hh)).
  reflexivity.
Qed.

Lemma rectangular_lookup g r row :
  rectangular g -> g !! r = Some row -> length row = width g.
Proof. intros Hrect Hg. by eapply (Forall_lookup_1 _ _ _ _ Hrect). Qed.

Lemma cell_is_Some g (r c : nat) :
  rectangular g -> (r < length g)%nat -> (c < width g)%nat ->
  is_Some (cell g r c).
Proof.
  intros Hrect Hr Hc. unfold cell.
  destruct (lookup_lt_is_Some_2 g r Hr) as [row Hrow]. rewrite Hrow. simpl.
  apply lookup_lt_is_Some_2. by rewrite (rectangular_lookup _ _ _ Hrect Hrow).
Qed.

(** ** Counting neighbours *)

Lemma len_filter_indicator {A} (P : A -> Prop) `{forall x, Decision (P x)}
    (l : list A) :
  len (filter P l) = foldr (fun x s => indicator (P x) + s) 0 l.
Proof.
  unfold len. induction l as [|x l IH]; [done|].
  rewrite filter_cons. simpl. unfold indicator at 1.
  destruct (decide (P x)); simpl; lia.
Qed.

Lemma for_fold_cons {A S} (x : A) xs (s : S) body :
  for_fold (x :: xs) s body = (s' ← body s x; for_fold xs s' body).
Proof. reflexivity. Qed.

Lemma for_fold_nil {A S} (s : S) (body : S -> A -> M S) :
  for_fold [] s body = ret s.
Proof. reflexivity. Qed.

Lemma neighbor_visit w b g (nr nc acc : Z) :
  is_grid w b g ->
  (if bool_decide (0 <= nr < len b)
      && bool_decide (0 <= nc < Z.of_nat (width g))
   then v ← get_cell b nr nc;
        if bool_decide (v = 1) then ret (acc + 1) else ret acc
   else ret acc) w
  = Ok (acc + indicator (live_in_grid g nr nc)) w.
Proof.
  intros (Hrows & Hne & Hrect).
  assert (Hlen : len b = len g)
    by (unfold len; by rewrite (rows_of_length _ _ _ Hrows)).
  unfold indicator. rewrite Hlen.
  destruct (decide (0 <= nr < len g)) as [Hr|Hr];
    [rewrite (bool_decide_eq_true_2 _ Hr)|rewrite (bool_decide_eq_false_2 _ Hr)];
    simpl.
  2: { rewrite decide_False by (unfold live_in_grid; tauto).
       rewrite ret_Ok. f_equal. lia. }
  destruct (decide (0 <= nc < Z.of_nat (width g))) as [Hc|Hc];
    [rewrite (bool_decide_eq_true_2 _ Hc)|rewrite (bool_decide_eq_false_2 _ Hc)];
    simpl.
  2: { rewrite decide_False by (unfold live_in_grid; tauto).
       rewrite ret_Ok. f_equal. lia. }
  assert (Hr' : (Z.to_nat nr < length g)%nat) by (unfold len in Hr; lia).
  destruct (cell_is_Some g (Z.to_nat nr) (Z.to_nat nc) Hrect) as [v Hv];
    [lia|lia|].
  assert (Hget : get_cell b nr nc w = Ok v w).
  { rewrite <- (Z2Nat.id nr), <- (Z2Nat.id nc) by lia.
    by eapply get_cell_Ok. }
  rewrite (bind_Ok _ _ _ _ _ Hget).
  destruct (decide (v = 1)) as [->|Hv1].
  - rewrite bool_decide_eq_true_2 by done.
    by rewrite decide_True by (unfold live_in_grid; tauto).
  - rewrite bool_decide_eq_false_2 by done. rewrite decide_False.
    + rewrite ret_Ok. f_equal. lia.
    + intros (_ & _ & Hv'). rewrite Hv in Hv'. by injection Hv'.
Qed.

Lemma neighbor_row w b g (r c i acc : Z) :
  is_grid w b g ->
  for_fold [-1; 0; 1] acc (fun live_neighbors j =>
    if bool_decide (i = 0) && bool_decide (j = 0) then ret live_neighbors
    else
      let nr := r + i in
      let nc := c + j in
      if bool_decide (0 <= nr < len b)
         && bool_decide (0 <= nc < Z.of_nat (width g))
      then v ← get_cell b nr nc;
           if bool_decide (v = 1) then ret (live_neighbors + 1)
           else ret live_neighbors
      else ret live_neighbors) w
  = Ok (acc + indicator (live_in_grid g (r + i) (c + -1))
        + (if decide (i = 0) then 0
           else indicator (live_in_grid g (r + i) (c + 0)))
        + indicator (live_in_grid g (r + i) (c + 1))) w.
Proof.
  intros Hgrid.
  rewrite for_fold_cons.
  change (bool_decide (-1 = 0)) with false. rewrite andb_false_r.
  cbv beta zeta.
  rewrite (bind_Ok _ _ _ _ _ (neighbor_visit _ _ _ _ _ _ Hgrid)).
  rewrite for_fold_cons.
  change (bool_decide (0 = 0)) with true. rewrite andb_true_r.
  destruct (decide (i = 0)) as [Hi|Hi].
  - rewrite (bool_decide_eq_true_2 _ Hi).
    rewrite (bind_Ok _ _ _ _ _ (ret_Ok _ _)).
    rewrite for_fold_cons.
    change (bool_decide (1 = 0)) with false. rewrite andb_false_r.
    cbv beta zeta.
    rewrite (bind_Ok _ _ _ _ _ (neighbor_visit _ _ _ _ _ _ Hgrid)).
    rewrite for_fold_nil, ret_Ok. f_equal. lia.
  - rewrite (bool_decide_eq_false_2 _ Hi). cbv beta zeta.
    rewrite (bind_Ok _ _ _ _ _ (neighbor_visit _ _ _ _ _ _ Hgrid)).
    rewrite for_fold_cons.
    change (bool_decide (1 = 0)) with false. rewrite andb_false_r.
    cbv beta zeta.
    rewrite (bind_Ok _ _ _ _ _ (neighbor_visit _ _ _ _ _ _ Hgrid)).
    by rewrite for_fold_nil, ret_Ok.
Qed.

Lemma count_live_neighbors_Ok w b g r c :
  is_grid w b g ->
  count_live_neighbors b r c w = Ok (live_neighbor_count g r c) w.
Proof.
  intros Hgrid. unfold count_live_neighbors.
  rewrite (bind_Ok _ _ _ _ _ (len_row0_Ok _ _ _ Hgrid)).
  unfold live_neighbor_count. rewrite len_filter_indicator.
  change (range2 (-1) 2) with [-1; 0; 1].
  rewrite for_fold_cons.
  rewrite (bind_Ok _ _ _ _ _ (neighbor_row _ _ _ r c _ _ Hgrid)).
  rewrite for_fold_cons.
  rewrite (bind_Ok _ _ _ _ _ (neighbor_row _ _ _ r c _ _ Hgrid)).
  rewrite for_fold_cons.
  rewrite (bind_Ok _ _ _ _ _ (neighbor_row _ _ _ r c _ _ Hgrid)).
  rewrite for_fold_nil, ret_Ok.
  f_equal. unfold neighbor_offsets. simpl. lia.
Qed.

(** ** Making boards *)

Lemma list_comp_alloc {A} (xs : list A) (row : list Z) :
  forall w,
  exists b' h',
    list_comp xs (fun _ => alloc row) w = Ok b' (set_heap h' w)
    /\ length b' = length xs
    /\ NoDup b'
    /\ (forall l, l ∈ b' -> l ∉ dom (heap w))
    /\ (forall l, l ∉ b' -> h' !! l = heap w !! l)
    /\ (forall l, l ∈ b' -> h' !! l = Some row).
Proof.
  induction xs as [|x xs IH]; intros w.
  - exists [], (heap w). rewrite set_heap_id.
    repeat split; try done; try constructor; intros l Hl; by inversion Hl.
  - set (l := fresh (dom (heap w))).
    set (w1 := set_heap (<[l := row]> (heap w)) w).
    assert (Hfresh : l ∉ dom (heap w)) by apply is_fresh.
    destruct (IH w1) as (b' & h' & Hrun & Hlen & Hnd & Hnew & Hout & Hin).
    assert (Hl : l ∉ b').
    { intros Hl. apply (Hnew l Hl). unfold w1. simpl. set_solver. }
    exists (l :: b'), h'. simpl.
    assert (Ha : alloc row w = Ok l w1) by reflexivity.
    rewrite (bind_Ok _ _ _ _ _ Ha), (bind_Ok _ _ _ _ _ Hrun).
    repeat split.
    + simpl. by rewrite Hlen.
    + by constructor.
    + intros l' [->|Hl']%elem_of_cons; [done|].
      specialize (Hnew l' Hl'). unfold w1 in Hnew. simpl in Hnew. set_solver.
    + intros l' Hl'. apply not_elem_of_cons in Hl' as [Hne Hl'].
      rewrite (Hout l' Hl'). unfold w1. simpl. by rewrite lookup_insert_ne.
    + intros l' [->|Hl']%elem_of_cons; [|by apply Hin].
      rewrite (Hout l Hl). unfold w1. simpl. by rewrite lookup_insert_eq.
Qed.

Lemma const_row (width : Z) :
  (fun _ : Z => 0) <$> range width = replicate (Z.to_nat width) 0.
Proof.
  unfold range. rewrite (const_fmap _ _ 0) by done. by rewrite length_seqZ.
Qed.

Lemma rows_of_replicate h b row :
  (forall l, l ∈ b -> h !! l = Some row) -> rows_of h b (replicate (length b) row).
Proof.
  unfold rows_of. induction b as [|l b IH]; intros Hin; simpl; constructor.
  - apply Hin. by left.
  - apply IH. intros l' Hl'. apply Hin. by right.
Qed.

(** The all-dead grid of [rows] rows and [cols] columns. *)
Lemma create_board_Ok (width height : Z) w :
  exists b' h',
    create_board width height w = Ok b' (set_heap h' w)
    /\ NoDup b'
    /\ (forall l, l ∈ b' -> l ∉ dom (heap w))
    /\ (forall l, l ∉ b' -> h' !! l = heap w !! l)
    /\ rows_of h' b'
         (replicate (Z.to_nat height) (replicate (Z.to_nat width) 0)).
Proof.
  unfold create_board. rewrite const_row.
  destruct (list_comp_alloc (range height) (replicate (Z.to_nat width) 0) w)
    as (b' & h' & Hrun & Hlen & Hnd & Hnew & Hout & Hin).
  exists b', h'. repeat split; try done.
  unfold range in Hlen. rewrite length_seqZ in Hlen. rewrite <- Hlen.
  by apply rows_of_replicate.
Qed.

Lemma heap_kept_fresh (h h' : gmap loc (list Z)) (b' : list loc) :
  (forall l, l ∈ b' -> l ∉ dom h) ->
  (forall l, l ∉ b' -> h' !! l = h !! l) ->
  heap_kept h h'.
Proof.
  intros Hnew Hout l Hl. apply Hout. intros Hb. by apply (Hnew l Hb).
Qed.

(** ** Writing cells *)

Lemma set_cell_Ok b (r c : nat) l row v w :
  b !! r = Some l -> heap w !! l = Some row -> (c < length row)%nat ->
  set_cell b (Z.of_nat r) (Z.of_nat c) v w
  = Ok tt (set_heap (<[l := <[c := v]> row]> (heap w)) w).
Proof.
  intros Hb Hh Hc. unfold set_cell.
  rewrite (bind_Ok _ _ _ _ _ (getitem_Ok _ _ _ w Hb)).
  rewrite (bind_Ok _ _ _ _ _ (load_row_Ok _ _ _ Hh)).
  by rewrite py_index_nat.
Qed.

Lemma set_cell_Ok_Z b (r c : Z) l row v w :
  0 <= r -> 0 <= c ->
  b !! Z.to_nat r = Some l -> heap w !! l = Some row ->
  (Z.to_nat c < length row)%nat ->
  set_cell b r c v w
  = Ok tt (set_heap (<[l := <[Z.to_nat c := v]> row]> (heap w)) w).
Proof.
  intros Hr Hc Hb Hh Hlt.
  rewrite <- (set_cell_Ok b (Z.to_nat r) (Z.to_nat c) l row v w) by done.
  by rewrite !Z2Nat.id by done.
Qed.

Lemma rows_of_insert h b acc r l row row' :
  rows_of h b acc -> NoDup b -> b !! r = Some l -> acc !! r = Some row ->
  rows_of (<[l := row']> h) b (<[r := row']> acc).
Proof.
  intros Hrows Hnd Hb Hacc. apply Forall2_lookup. intros i.
  destruct (decide (i = r)) as [->|Hne].
  - rewrite Hb, list_lookup_insert_eq by (by eapply lookup_lt_Some).
    constructor. by rewrite lookup_insert_eq.
  - rewrite list_lookup_insert_ne by done.
    pose proof (proj1 (Forall2_lookup _ _ _) Hrows i) as Hi.
    destruct (b !! i) as [l'|] eqn:Hbi; inversion Hi; subst; constructor.
    rewrite lookup_insert_ne; [done|].
    intros <-. apply Hne. symmetry. by eapply NoDup_lookup.
Qed.

Lemma cell_insert acc (r c k j : nat) row v :
  acc !! k = Some row -> (j < length row)%nat ->
  cell (<[k := <[j := v]> row]> acc) r c
  = if decide (r = k /\ c = j) then Some v else cell acc r c.
Proof.
  intros Hk Hj. unfold cell.
  destruct (decide (r = k)) as [->|Hr].
  - rewrite list_lookup_insert_eq by (by eapply lookup_lt_Some). simpl.
    rewrite Hk. simpl.
    destruct (decide (c = j)) as [->|Hc].
    + rewrite decide_True by done. by rewrite list_lookup_insert_eq.
    + rewrite decide_False by tauto. by rewrite list_lookup_insert_ne.
  - rewrite decide_False by tauto. by rewrite list_lookup_insert_ne.
Qed.

Lemma grid_ext (g1 g2 : list (list Z)) cols :
  length g1 = length g2 ->
  Forall (fun row => length row = cols) g1 ->
  Forall (fun row => length row = cols) g2 ->
  (forall r c, (r < length g1)%nat -> (c < cols)%nat ->
     cell g1 r c = cell g2 r c) ->
  g1 = g2.
Proof.
  intros Hlen H1 H2 Hcell. apply list_eq_same_length with (length g1); try done.
  intros r row1 row2 Hr Hrow1 Hrow2.
  pose proof (Forall_lookup_1 _ _ _ _ H1 Hrow1) as Hl1.
  pose proof (Forall_lookup_1 _ _ _ _ H2 Hrow2) as Hl2.
  simpl in Hl1, Hl2.
  apply list_eq_same_length with cols; try done.
  intros c x y Hc Hx Hy.
  specialize (Hcell r c Hr Hc). unfold cell in Hcell.
  rewrite Hrow1, Hrow2 in Hcell. simpl in Hcell. congruence.
Qed.

(** ** The grid of the rule *)

Lemma length_next_grid g : length (next_grid g) = length g.
Proof. unfold next_grid. by rewrite length_imap. Qed.

Lemma cell_next_grid g r c :
  cell (next_grid g) r c
  = (fun v => life_rule v (live_neighbor_count g (Z.of_nat r) (Z.of_nat c)))
      <$> cell g r c.
Proof.
  unfold cell, next_grid. rewrite list_lookup_imap.
  destruct (g !! r) as [row|]; [simpl|done].
  by rewrite list_lookup_imap.
Qed.

Lemma rows_next_grid g cols :
  Forall (fun row => length row = cols) g ->
  Forall (fun row => length row = cols) (next_grid g).
Proof.
  intros Hg. apply Forall_lookup. intros r row Hrow.
  unfold next_grid in Hrow. rewrite list_lookup_imap in Hrow.
  destruct (g !! r) as [row0|] eqn:Hr; [|done].
  simpl in Hrow. injection Hrow as <-. rewrite length_imap.
  by apply (Forall_lookup_1 _ _ _ _ Hg Hr).
Qed.

Lemma width_next_grid g : width (next_grid g) = width g.
Proof.
  unfold width, next_grid. destruct g as [|row g]; [done|].
  simpl. by rewrite length_imap.
Qed.

Lemma rectangular_next_grid g : rectangular g -> rectangular (next_grid g).
Proof.
  unfold rectangular. rewrite width_next_grid. apply rows_next_grid.
Qed.

(** ** One generation *)

Section engine.
Variables (w : world) (b : list loc) (g : list (list Z)).
Hypothesis Hgrid : is_grid w b g.
Variable nb : list loc.
Hypothesis Hnd : NoDup nb.
Hypothesis Hnew : forall l, l ∈ nb -> l ∉ dom (heap w).
Hypothesis Hlen : length nb = length g.

Lemma engine_input_kept h1 :
  (forall l, l ∉ nb -> h1 !! l = heap w !! l) -> is_grid (set_heap h1 w) b g.
Proof.
  intros Hout. destruct Hgrid as (Hrows & Hne & Hrect).
  split; [|done]. simpl.
  eapply rows_of_agree; [done|]. intros l Hl. apply Hout.
  intros Hl'. apply (Hnew l Hl'). by eapply rows_of_dom.
Qed.

Lemma engine_write k j h1 acc :
  (k < length g)%nat -> (j < width g)%nat ->
  rows_of h1 nb acc ->
  (forall l, l ∉ nb -> h1 !! l = heap w !! l) ->
  Forall (fun row => length row = width g) acc ->
  (forall r c, (r < length g)%nat -> (c < width g)%nat ->
     cell acc r c
     = Some (if decide ((r < k)%nat \/ (r = k /\ (c < j)%nat))
             then rule_at g r c else 0)) ->
  exists w2,
    set_cell nb (Z.of_nat k) (Z.of_nat j) (rule_at g k j) (set_heap h1 w)
    = Ok tt w2
    /\ engine_inv w g nb k (S j) w2.
Proof.
  intros Hk Hj Hrows Hout Hlens Hcells.
  assert (Hk' : (k < length acc)%nat)
    by (rewrite <- (rows_of_length _ _ _ Hrows); lia).
  destruct (lookup_lt_is_Some_2 acc k Hk') as [row Hrow].
  pose proof (Forall_lookup_1 _ _ _ _ Hlens Hrow) as Hrowlen.
  simpl in Hrowlen.
  destruct (rows_of_lookup _ _ _ _ _ Hrows Hrow) as (l & Hl & Hh).
  eexists. split.
  { apply (set_cell_Ok nb k j l row); [done|done|lia]. }
  exists (<[l := <[j := rule_at g k j]> row]> h1),
         (<[k := <[j := rule_at g k j]> row]> acc).
  repeat split.
  - by eapply rows_of_insert.
  - intros l' Hl'. rewrite lookup_insert_ne; [by apply Hout|].
    intros <-. apply Hl'. by eapply list_elem_of_lookup_2.
  - apply Forall_insert; [done|]. by rewrite length_insert.
  - intros r c Hr Hc. rewrite cell_insert by (done || lia).
    destruct (decide (r = k /\ c = j)) as [[-> ->]|Hne].
    + rewrite decide_True; [done|]. right. split; [done|lia].
    + rewrite (Hcells r c Hr Hc). f_equal.
      destruct (decide ((r < k)%nat \/ (r = k /\ (c < j)%nat)));
        [rewrite decide_True by lia|rewrite decide_False by lia]; done.
Qed.

Lemma engine_skip k j h1 acc :
  (k < length g)%nat -> (j < width g)%nat ->
  rule_at g k j = 0 ->
  rows_of h1 nb acc ->
  (forall l, l ∉ nb -> h1 !! l = heap w !! l) ->
  Forall (fun row => length row = width g) acc ->
  (forall r c, (r < length g)%nat -> (c < width g)%nat ->
     cell acc r c
     = Some (if decide ((r < k)%nat \/ (r = k /\ (c < j)%nat))
             then rule_at g r c else 0)) ->
  engine_inv w g nb k (S j) (set_heap h1 w).
Proof.
  intros Hk Hj Hrule Hrows Hout Hlens Hcells.
  exists h1, acc. repeat split; try done.
  intros r c Hr Hc. rewrite (Hcells r c Hr Hc). f_equal.
  destruct (decide (r = k /\ c = j)) as [[-> ->]|Hne].
  - rewrite decide_False by lia. rewrite decide_True by lia. done.
  - destruct (decide ((r < k)%nat \/ (r = k /\ (c < j)%nat)));
      [rewrite decide_True by lia|rewrite decide_False by lia]; done.
Qed.

Lemma engine_cell_step k j w1 :
  (k < length g)%nat -> (j < width g)%nat ->
  engine_inv w g nb k j w1 ->
  exists w2,
    (live_neighbors ← count_live_neighbors b (Z.of_nat k) (Z.of_nat j);
     cell_state ← get_cell b (Z.of_nat k) (Z.of_nat j);
     if bool_decide (cell_state = 1) then
       if bool_decide (live_neighbors < 2) || bool_decide (live_neighbors > 3)
       then set_cell nb (Z.of_nat k) (Z.of_nat j) 0
       else set_cell nb (Z.of_nat k) (Z.of_nat j) 1
     else
       if bool_decide (live_neighbors = 3)
       then set_cell nb (Z.of_nat k) (Z.of_nat j) 1
       else ret tt) w1 = Ok tt w2
    /\ engine_inv w g nb k (S j) w2.
Proof.
  intros Hk Hj (h1 & acc & -> & Hrows & Hout & Hlens & Hcells).
  pose proof (engine_input_kept h1 Hout) as Hgrid1.
  rewrite (bind_Ok _ _ _ _ _ (count_live_neighbors_Ok _ _ _ _ _ Hgrid1)).
  destruct Hgrid as (_ & _ & Hrect).
  destruct (cell_is_Some g k j Hrect Hk Hj) as [v Hv].
  destruct Hgrid1 as (Hrows1 & _ & _).
  rewrite (bind_Ok _ _ _ _ _ (get_cell_Ok _ _ _ _ _ _ Hrows1 Hv)).
  set (n := live_neighbor_count g (Z.of_nat k) (Z.of_nat j)).
  assert (Hrule : rule_at g k j = life_rule v n)
    by (unfold rule_at; by rewrite Hv).
  unfold life_rule in Hrule.
  destruct (decide (v = 1)) as [Hv1|Hv1];
    [rewrite (bool_decide_eq_true_2 _ Hv1)
    |rewrite (bool_decide_eq_false_2 _ Hv1)].
  - destruct (decide (n = 2 \/ n = 3)) as [Hn|Hn].
    + rewrite (bool_decide_eq_false_2 (n < 2)) by lia.
      rewrite (bool_decide_eq_false_2 (n > 3)) by lia.
      simpl. rewrite <- Hrule. by eapply engine_write.
    + destruct (decide (n < 2)) as [Hn2|Hn2].
      * rewrite (bool_decide_eq_true_2 _ Hn2). simpl.
        rewrite <- Hrule. by eapply engine_write.
      * rewrite (bool_decide_eq_false_2 _ Hn2).
        rewrite (bool_decide_eq_true_2 (n > 3)) by lia. simpl.
        rewrite <- Hrule. by eapply engine_write.
  - destruct (decide (n = 3)) as [Hn|Hn];
      [rewrite (bool_decide_eq_true_2 _ Hn)
      |rewrite (bool_decide_eq_false_2 _ Hn)].
    + rewrite <- Hrule. by eapply engine_write.
    + eexists. split; [apply ret_Ok|]. by eapply engine_skip.
Qed.

Lemma engine_row_step k w1 :
  (k < length g)%nat ->
  engine_inv w g nb k O w1 ->
  exists w2,
    for_each (range (Z.of_nat (width g))) (fun c =>
      live_neighbors ← count_live_neighbors b (Z.of_nat k) c;
      cell_state ← get_cell b (Z.of_nat k) c;
      if bool_decide (cell_state = 1) then
        if bool_decide (live_neighbors < 2) || bool_decide (live_neighbors > 3)
        then set_cell nb (Z.of_nat k) c 0
        else set_cell nb (Z.of_nat k) c 1
      else
        if bool_decide (live_neighbors = 3) then set_cell nb (Z.of_nat k) c 1
        else ret tt) w1 = Ok tt w2
    /\ engine_inv w g nb (S k) O w2.
Proof.
  intros Hk Hinv.
  apply (for_range_post (engine_inv w g nb k)); [done| |].
  { intros j w' Hj Hinv'. by apply engine_cell_step. }
  intros w2 (h1 & acc & -> & Hrows & Hout & Hlens & Hcells).
  exists h1, acc. repeat split; try done.
  intros r c Hr Hc. rewrite (Hcells r c Hr Hc). f_equal.
  destruct (decide ((r < k)%nat \/ (r = k /\ (c < width g)%nat)));
    [rewrite decide_True by lia|rewrite decide_False by lia]; done.
Qed.

Lemma engine_loops h0 :
  rows_of h0 nb (replicate (length g) (replicate (width g) 0)) ->
  (forall l, l ∉ nb -> h0 !! l = heap w !! l) ->
  exists h',
    for_each (range (len b)) (fun r =>
      for_each (range (Z.of_nat (width g))) (fun c =>
        live_neighbors ← count_live_neighbors b r c;
        cell_state ← get_cell b r c;
        if bool_decide (cell_state = 1) then
          if bool_decide (live_neighbors < 2)
             || bool_decide (live_neighbors > 3)
          then set_cell nb r c 0
          else set_cell nb r c 1
        else
          if bool_decide (live_neighbors = 3) then set_cell nb r c 1
          else ret tt)) (set_heap h0 w) = Ok tt (set_heap h' w)
    /\ rows_of h' nb (next_grid g)
    /\ (forall l, l ∉ nb -> h' !! l = heap w !! l).
Proof.
  intros Hrows0 Hout0.
  destruct Hgrid as (Hrows & Hne & Hrect).
  assert (Hinv0 : engine_inv w g nb O O (set_heap h0 w)).
  { exists h0, (replicate (length g) (replicate (width g) 0)).
    repeat split; try done.
    - apply Forall_replicate. by rewrite length_replicate.
    - intros r c Hr Hc. rewrite decide_False by lia. unfold cell.
      rewrite lookup_replicate_2 by done. simpl.
      by rewrite lookup_replicate_2. }
  unfold len. rewrite (rows_of_length _ _ _ Hrows).
  destruct (for_range_inv (fun k => engine_inv w g nb k O)
              (fun r =>
                 for_each (range (Z.of_nat (width g))) (fun c =>
                   live_neighbors ← count_live_neighbors b r c;
                   cell_state ← get_cell b r c;
                   if bool_decide (cell_state = 1) then
                     if bool_decide (live_neighbors < 2)
                        || bool_decide (live_neighbors > 3)
                     then set_cell nb r c 0
                     else set_cell nb r c 1
                   else
                     if bool_decide (live_neighbors = 3)
                     then set_cell nb r c 1
                     else ret tt))
              (length g) _ Hinv0) as (w' & Hrun & Hinv').
  { intros k w1 Hk Hinv1. by apply engine_row_step. }
  destruct Hinv' as (h' & acc & -> & Hrows' & Hout' & Hlens & Hcells).
  exists h'. split; [exact Hrun|]. split; [|done].
  replace (next_grid g) with acc; [done|].
  apply grid_ext with (width g).
  - rewrite length_next_grid, <- (rows_of_length _ _ _ Hrows'). done.
  - done.
  - by apply rows_next_grid.
  - intros r c Hr Hc.
    assert (Hr' : (r < length g)%nat)
      by (rewrite <- Hlen, (rows_of_length _ _ _ Hrows'); done).
    rewrite (Hcells r c Hr' Hc), decide_True by lia.
    rewrite cell_next_grid. unfold rule_at.
    by destruct (cell_is_Some g r c Hrect Hr' Hc) as [v ->].
Qed.
End engine.

(** [next_board_state] on a grid: it returns, the rows of the board it
    returns are new and hold the grid of the rule, and nothing else in the
    world has changed. *)
Lemma next_board_state_Ok w b g :
  is_grid w b g ->
  exists b' h',
    next_board_state b w = Ok b' (set_heap h' w)
    /\ NoDup b'
    /\ (forall l, l ∈ b' -> l ∉ dom (heap w))
    /\ (forall l, l ∉ b' -> h' !! l = heap w !! l)
    /\ rows_of h' b' (next_grid g).
Proof.
  intros Hgrid. unfold next_board_state.
  rewrite (bind_Ok _ _ _ _ _ (len_row0_Ok _ _ _ Hgrid)).
  destruct (create_board_Ok (Z.of_nat (width g)) (len b) w)
    as (nb & h0 & Hcreate & Hnd & Hnew & Hout0 & Hrows0).
  rewrite (bind_Ok _ _ _ _ _ Hcreate).
  assert (Hlenb : length b = length g)
    by (destruct Hgrid as (Hrows & _); by apply rows_of_length in Hrows).
  unfold len in Hrows0. rewrite !Nat2Z.id, Hlenb in Hrows0.
  assert (Hlen : length nb = length g).
  { rewrite (rows_of_length _ _ _ Hrows0). by rewrite length_replicate. }
  destruct (engine_loops w b g Hgrid nb Hnd Hnew Hlen h0 Hrows0 Hout0)
    as (h' & Hrun & Hrows' & Hout').
  exists nb, h'.
  rewrite (bind_Ok _ _ _ _ _ Hrun). rewrite ret_Ok. done.
Qed.

Lemma is_grid_next w b g b' h' :
  is_grid w b g -> rows_of h' b' (next_grid g) ->
  is_grid (set_heap h' w) b' (next_grid g).
Proof.
  intros (Hrows & Hne & Hrect) Hrows'. repeat split.
  - done.
  - intros Hnil. apply Hne. apply length_zero_iff_nil.
    by rewrite <- length_next_grid, Hnil.
  - by apply rectangular_next_grid.
Qed.

Ltac concrete_nodup :=
  apply (bool_decide_unpack _); vm_compute; exact I.

Ltac concrete_game g :=
  exists g;
  split; [repeat constructor|];
  split; [concrete_nodup|];
  split; [reflexivity|];
  split; [repeat constructor|];
  split; [repeat constructor; (by left) || (by right)|done].

Ltac concrete_grid :=
  split; [repeat constructor|split; [discriminate|repeat constructor]].

(** C1: on every rectangular grid [next_board_state] returns a grid that
    holds, at every cell [(r, c)], the value of the rule B3/S23, where [n]
    is the number of live neighbours of the cell, [live_neighbor_count g r c]
    (the number of the eight offsets that lead to a cell of the grid holding
    1), which is also what [count_live_neighbors] returns there: a live cell
    (value 1) becomes 1 when [n] is 2 or 3, and 0 otherwise; a dead cell
    becomes 1 when [n] is 3, and 0 otherwise. *)
Theorem next_board_state_rule w b g :
  is_grid w b g ->
  exists b' w' g',
    next_board_state b w = Ok b' w'
    /\ is_grid w' b' g'
    /\ forall r c v, cell g r c = Some v ->
         let n := live_neighbor_count g (Z.of_nat r) (Z.of_nat c) in
         count_live_neighbors b (Z.of_nat r) (Z.of_nat c) w = Ok n w
         /\ (v = 1 -> n = 2 \/ n = 3 -> cell g' r c = Some 1)
         /\ (v = 1 -> ~ (n = 2 \/ n = 3) -> cell g' r c = Some 0)
         /\ (v <> 1 -> n = 3 -> cell g' r c = Some 1)
         /\ (v <> 1 -> n <> 3 -> cell g' r c = Some 0).
Proof.
  intros Hgrid.
  destruct (next_board_state_Ok w b g Hgrid)
    as (b' & h' & Hrun & Hnd & Hnew & Hout & Hrows').
  exists b', (set_heap h' w), (next_grid g).
  split; [done|]. split; [by eapply is_grid_next|].
  intros r c v Hv n.
  split; [by apply count_live_neighbors_Ok|].
  rewrite cell_next_grid, Hv. simpl. unfold life_rule. fold n.
  repeat split; intros H1 H2.
  - by rewrite decide_True, decide_True.
  - by rewrite decide_True, decide_False.
  - by rewrite decide_False, decide_True.
  - by rewrite decide_False, decide_False.
Qed.

Lemma next_board_state_rule_witness :
  exists b' w' g',
    next_board_state pattern_board (world_of blinker_grid) = Ok b' w'
    /\ is_grid w' b' g'
    /\ forall r c v, cell blinker_grid r c = Some v ->
         let n := live_neighbor_count blinker_grid (Z.of_nat r) (Z.of_nat c) in
         count_live_neighbors pattern_board (Z.of_nat r) (Z.of_nat c)
           (world_of blinker_grid) = Ok n (world_of blinker_grid)
         /\ (v = 1 -> n = 2 \/ n = 3 -> cell g' r c = Some 1)
         /\ (v = 1 -> ~ (n = 2 \/ n = 3) -> cell g' r c = Some 0)
         /\ (v <> 1 -> n = 3 -> cell g' r c = Some 1)
         /\ (v <> 1 -> n <> 3 -> cell g' r c = Some 0).
Proof.
  apply (next_board_state_rule (world_of blinker_grid) pattern_board
           blinker_grid).
  concrete_grid.
Defined.

Lemma indicator_False (P : Prop) `{Decision P} : ~ P -> indicator P = 0.
Proof. intros HP. unfold indicator. by rewrite decide_False. Qed.

Lemma live_neighbor_count_corner g :
  cell g 0 1 <> Some 1 -> cell g 1 0 <> Some 1 -> cell g 1 1 <> Some 1 ->
  live_neighbor_count g 0 0 = 0.
Proof.
  intros H01 H10 H11. unfold live_neighbor_count.
  rewrite len_filter_indicator. unfold neighbor_offsets. simpl.
  rewrite !indicator_False; [done|..];
    unfold live_in_grid; simpl; intros (Hr & Hc & Hcell); try lia; done.
Qed.

(** C2: the number of live neighbours [count_live_neighbors] returns, and
    [next_board_state] uses, is the number of the eight offsets that lead to
    a cell inside the grid holding 1: a position outside the grid counts for
    nothing.  So a live cell in the corner [(0, 0)] whose three neighbours
    in the grid are not alive is dead in the next generation. *)
Theorem count_live_neighbors_dead_boundary w b g :
  is_grid w b g ->
  (forall r c : Z,
     count_live_neighbors b r c w = Ok (live_neighbor_count g r c) w)
  /\ exists b' w' g',
       next_board_state b w = Ok b' w'
       /\ rows_of (heap w') b' g'
       /\ (forall r c v, cell g r c = Some v ->
             cell g' r c
             = Some (life_rule v
                       (live_neighbor_count g (Z.of_nat r) (Z.of_nat c))))
       /\ (cell g 0 0 = Some 1 ->
           cell g 0 1 <> Some 1 -> cell g 1 0 <> Some 1 ->
           cell g 1 1 <> Some 1 ->
           cell g' 0 0 = Some 0).
Proof.
  intros Hgrid. split.
  { intros r c. by apply count_live_neighbors_Ok. }
  destruct (next_board_state_Ok w b g Hgrid)
    as (b' & h' & Hrun & Hnd & Hnew & Hout & Hrows').
  exists b', (set_heap h' w), (next_grid g).
  split; [done|]. split; [done|]. split.
  - intros r c v Hv. by rewrite cell_next_grid, Hv.
  - intros H00 H01 H10 H11. rewrite cell_next_grid, H00. simpl.
    change (Z.of_nat 0) with 0.
    by rewrite live_neighbor_count_corner.
Qed.

Lemma count_live_neighbors_dead_boundary_witness :
  (forall r c : Z,
     count_live_neighbors corner_board r c corner_world
     = Ok (live_neighbor_count corner_grid r c) corner_world)
  /\ exists b' w' g',
       next_board_state corner_board corner_world = Ok b' w'
       /\ rows_of (heap w') b' g'
       /\ (forall r c v, cell corner_grid r c = Some v ->
             cell g' r c
             = Some (life_rule v
                       (live_neighbor_count corner_grid
                          (Z.of_nat r) (Z.of_nat c))))
       /\ (cell corner_grid 0 0 = Some 1 ->
           cell corner_grid 0 1 <> Some 1 -> cell corner_grid 1 0 <> Some 1 ->
           cell corner_grid 1 1 <> Some 1 ->
           cell g' 0 0 = Some 0).
Proof.
  apply (count_live_neighbors_dead_boundary
           corner_world corner_board corner_grid).
  concrete_grid.
Defined.

(** C4: [next_board_state] leaves its input as it was: every row the store
    had before the call holds the same values after it, so the input board
    still holds its grid; the rows of the board returned did not exist
    before the call and are pairwise distinct, and that board is a grid with
    as many rows and columns as the input. *)
Theorem next_board_state_frame w b g :
  is_grid w b g ->
  exists b' w' g',
    next_board_state b w = Ok b' w'
    /\ heap_kept (heap w) (heap w')
    /\ is_grid w' b g
    /\ w' = set_heap (heap w') w
    /\ (forall l, l ∈ b' -> l ∉ dom (heap w))
    /\ NoDup b'
    /\ is_grid w' b' g'
    /\ length g' = length g
    /\ width g' = width g.
Proof.
  intros Hgrid.
  destruct (next_board_state_Ok w b g Hgrid)
    as (b' & h' & Hrun & Hnd & Hnew & Hout & Hrows').
  assert (Hkept : heap_kept (heap w) h') by (by eapply heap_kept_fresh).
  exists b', (set_heap h' w), (next_grid g).
  split; [done|]. split; [done|]. split.
  { destruct Hgrid as (Hrows & Hne & Hrect). split; [|done].
    by eapply rows_of_kept. }
  split; [done|]. split; [done|]. split; [done|].
  split; [by eapply is_grid_next|].
  split; [apply length_next_grid|apply width_next_grid].
Qed.

Lemma next_board_state_frame_witness :
  exists b' w' g',
    next_board_state corner_board corner_world = Ok b' w'
    /\ heap_kept (heap corner_world) (heap w')
    /\ is_grid w' corner_board corner_grid
    /\ w' = set_heap (heap w') corner_world
    /\ (forall l, l ∈ b' -> l ∉ dom (heap corner_world))
    /\ NoDup b'
    /\ is_grid w' b' g'
    /\ length g' = length corner_grid
    /\ width g' = width corner_grid.
Proof.
  apply (next_board_state_frame corner_world corner_board corner_grid).
  concrete_grid.
Defined.

(** ** Values other than 0 and 1 *)

Lemma cell_as_bits g r c : cell (as_bits g) r c = as_bit <$> cell g r c.
Proof.
  unfold cell, as_bits. rewrite list_lookup_fmap.
  destruct (g !! r) as [row|]; [simpl|done].
  by rewrite list_lookup_fmap.
Qed.

Lemma length_as_bits g : length (as_bits g) = length g.
Proof. unfold as_bits. by rewrite length_fmap. Qed.

Lemma width_as_bits g : width (as_bits g) = width g.
Proof.
  unfold width, as_bits. destruct g as [|row g]; [done|].
  simpl. by rewrite length_fmap.
Qed.

Lemma as_bit_1 v : as_bit v = 1 <-> v = 1.
Proof. unfold as_bit. destruct (decide (v = 1)); split; (done || lia). Qed.

Lemma live_in_grid_as_bits g r c :
  live_in_grid (as_bits g) r c <-> live_in_grid g r c.
Proof.
  unfold live_in_grid, len.
  rewrite length_as_bits, width_as_bits, cell_as_bits.
  destruct (cell g (Z.to_nat r) (Z.to_nat c)) as [v|]; simpl.
  - split; intros (Hr & Hc & [= Hv]); (split; [done|split; [done|f_equal]]);
      by apply as_bit_1.
  - split; intros (_ & _ & ?); done.
Qed.

Lemma live_neighbor_count_as_bits g r c :
  live_neighbor_count (as_bits g) r c = live_neighbor_count g r c.
Proof.
  unfold live_neighbor_count. f_equal. apply list_filter_iff.
  intros [i j]. apply live_in_grid_as_bits.
Qed.

Lemma life_rule_as_bit v n : life_rule (as_bit v) n = life_rule v n.
Proof.
  unfold life_rule, as_bit.
  destruct (decide (v = 1)); [by rewrite decide_True|by rewrite decide_False].
Qed.

Lemma next_grid_as_bits g : next_grid (as_bits g) = next_grid g.
Proof.
  unfold next_grid at 1. unfold as_bits at 2. rewrite imap_fmap.
  apply imap_ext. intros r row Hrow. unfold compose. rewrite imap_fmap.
  apply imap_ext. intros c v Hv. unfold compose.
  by rewrite live_neighbor_count_as_bits, life_rule_as_bit.
Qed.

Lemma life_rule_bit v n : is_bit (life_rule v n).
Proof.
  unfold life_rule, is_bit.
  destruct (decide (v = 1)); [destruct (decide (n = 2 \/ n = 3))
                             |destruct (decide (n = 3))]; auto.
Qed.

Lemma next_grid_bits g : Forall (Forall is_bit) (next_grid g).
Proof.
  apply Forall_lookup. intros r row Hrow. apply Forall_lookup. intros c x Hx.
  assert (Hcell : cell (next_grid g) r c = Some x)
    by (unfold cell; by rewrite Hrow).
  rewrite cell_next_grid in Hcell.
  destruct (cell g r c) as [v|]; [|done].
  injection Hcell as <-. apply life_rule_bit.
Qed.

(** C10: whatever integers the cells of a rectangular board hold, every
    cell of the board [next_board_state] returns is 0 or 1, and a value
    other than 1 counts as dead: the neighbour counts and the board returned
    are those of the board in which every such value is replaced by 0. *)
Theorem next_board_state_binary w b g :
  is_grid w b g ->
  exists b' w' g',
    next_board_state b w = Ok b' w'
    /\ rows_of (heap w') b' g'
    /\ Forall (Forall is_bit) g'
    /\ forall w2 b2, is_grid w2 b2 (as_bits g) ->
         (forall r c, exists n,
            count_live_neighbors b r c w = Ok n w
            /\ count_live_neighbors b2 r c w2 = Ok n w2)
         /\ exists b2' w2',
              next_board_state b2 w2 = Ok b2' w2'
              /\ rows_of (heap w2') b2' g'.
Proof.
  intros Hgrid.
  destruct (next_board_state_Ok w b g Hgrid)
    as (b' & h' & Hrun & Hnd & Hnew & Hout & Hrows').
  exists b', (set_heap h' w), (next_grid g).
  split; [done|]. split; [done|]. split; [apply next_grid_bits|].
  intros w2 b2 Hgrid2. split.
  - intros r c. exists (live_neighbor_count g r c). split.
    + by apply count_live_neighbors_Ok.
    + rewrite <- live_neighbor_count_as_bits.
      by apply count_live_neighbors_Ok.
  - destruct (next_board_state_Ok w2 b2 _ Hgrid2)
      as (b2' & h2' & Hrun2 & _ & _ & _ & Hrows2).
    exists b2', (set_heap h2' w2). split; [done|].
    by rewrite next_grid_as_bits in Hrows2.
Qed.

Lemma next_board_state_binary_witness :
  exists b' w' g',
    next_board_state mixed_board mixed_world = Ok b' w'
    /\ rows_of (heap w') b' g'
    /\ Forall (Forall is_bit) g'
    /\ forall w2 b2, is_grid w2 b2 (as_bits mixed_grid) ->
         (forall r c, exists n,
            count_live_neighbors mixed_board r c mixed_world = Ok n mixed_world
            /\ count_live_neighbors b2 r c w2 = Ok n w2)
         /\ exists b2' w2',
              next_board_state b2 w2 = Ok b2' w2'
              /\ rows_of (heap w2') b2' g'.
Proof.
  apply (next_board_state_binary mixed_world mixed_board mixed_grid).
  concrete_grid.
Defined.

(** ** Creating a board *)

(** C7, as stated, fails: [create_board] checks nothing.  With a width of
    -1 and a height of 0 it returns a board without rows, and with a width
    of 0 and a height of 2 a board of two empty rows. *)
Lemma create_board_nonpositive_returns :
  create_board (-1) 0 empty_world = Ok [] empty_world
  /\ exists w', create_board 0 2 empty_world = Ok [1%positive; 2%positive] w'
                /\ heap w' !! 1%positive = Some []
                /\ heap w' !! 2%positive = Some [].
Proof.
  split; [reflexivity|].
  eexists. split; [vm_compute; reflexivity|]. split; reflexivity.
Qed.

(** C7, amended: [create_board] never fails.  It returns a board of new,
    pairwise distinct rows, [height] of them (none when [height] is not
    positive), each holding [width] zeros (none when [width] is not
    positive), and leaves the rest of the world as it was. *)
Theorem create_board_total (width height : Z) w :
  exists b' w',
    create_board width height w = Ok b' w'
    /\ rows_of (heap w') b'
         (replicate (Z.to_nat height) (replicate (Z.to_nat width) 0))
    /\ NoDup b'
    /\ (forall l, l ∈ b' -> l ∉ dom (heap w))
    /\ heap_kept (heap w) (heap w')
    /\ w' = set_heap (heap w') w.
Proof.
  destruct (create_board_Ok width height w)
    as (b' & h' & Hrun & Hnd & Hnew & Hout & Hrows).
  exists b', (set_heap h' w). repeat split; try done.
  by eapply heap_kept_fresh.
Qed.

(** ** Filling a board *)

Section fill.
Variables (w : world) (b : list loc) (g : list (list Z)).
Variables (density : pyfloat) (t : bool).
Hypothesis Hgrid : is_grid w b g.
Hypothesis Hconst : forall n, float_lt (rng_seq w n) density = t.

Lemma fill_cell_step k j w1 :
  (k < length g)%nat -> (j < width g)%nat ->
  fill_inv w g b (bit_of t) k j w1 ->
  exists w2,
    (x ← random;
     if float_lt x density then set_cell b (Z.of_nat k) (Z.of_nat j) 1
     else set_cell b (Z.of_nat k) (Z.of_nat j) 0) w1 = Ok tt w2
    /\ fill_inv w g b (bit_of t) k (S j) w2.
Proof.
  intros Hk Hj (h1 & idx & -> & Hout & Hrows).
  destruct Hgrid as (Hrowsg & _ & _).
  assert (Hkb : (k < length b)%nat)
    by (by rewrite (rows_of_length _ _ _ Hrowsg)).
  destruct (lookup_lt_is_Some_2 b k Hkb) as [l Hl].
  destruct (Hrows k l Hl) as (row & Hh & Hlenrow & _ & Htake).
  assert (Hrand : random (set_rng_idx idx (set_heap h1 w))
                  = Ok (rng_seq w idx)
                       (set_rng_idx (S idx) (set_heap h1 w)))
    by reflexivity.
  rewrite (bind_Ok _ _ _ _ _ Hrand). rewrite Hconst.
  assert (Hset : forall v,
    set_cell b (Z.of_nat k) (Z.of_nat j) v
      (set_rng_idx (S idx) (set_heap h1 w))
    = Ok tt (set_rng_idx (S idx)
               (set_heap (<[l := <[j := v]> row]> h1) w))).
  { intros v. by rewrite (set_cell_Ok b k j l row) by (done || lia). }
  exists (set_rng_idx (S idx)
            (set_heap (<[l := <[j := bit_of t]> row]> h1) w)).
  split; [destruct t; apply Hset|].
  exists (<[l := <[j := bit_of t]> row]> h1), (S idx).
  split; [done|]. split.
  - intros l' Hl'. rewrite lookup_insert_ne; [by apply Hout|].
    intros <-. apply Hl'. by eapply list_elem_of_lookup_2.
  - intros i l' Hi.
    destruct (Hrows i l' Hi) as (row' & Hh' & Hlen' & Hfull & Htake').
    destruct (decide (l' = l)) as [->|Hne].
    + assert (row' = row) as -> by congruence.
      exists (<[j := bit_of t]> row). rewrite lookup_insert_eq.
      split; [done|]. split; [by rewrite length_insert|]. split.
      * intros Hik. rewrite (Hfull Hik). apply insert_replicate.
      * intros _.
        rewrite (take_S_r _ _ (bit_of t))
          by (apply list_lookup_insert_eq; lia).
        rewrite take_insert_ge by lia. rewrite (Htake eq_refl).
        by rewrite replicate_S_end.
    + exists row'. rewrite lookup_insert_ne by done.
      split; [done|]. split; [done|]. split; [done|].
      intros ->. congruence.
Qed.

Lemma fill_row_step k w1 :
  (k < length g)%nat ->
  fill_inv w g b (bit_of t) k O w1 ->
  exists w2,
    for_each (range (Z.of_nat (width g))) (fun c =>
      x ← random;
      if float_lt x density then set_cell b (Z.of_nat k) c 1
      else set_cell b (Z.of_nat k) c 0) w1 = Ok tt w2
    /\ fill_inv w g b (bit_of t) (S k) O w2.
Proof.
  intros Hk Hinv.
  apply (for_range_post (fill_inv w g b (bit_of t) k)); [done| |].
  { intros j w' Hj Hinv'. by apply fill_cell_step. }
  intros w2 (h1 & idx & -> & Hout & Hrows).
  exists h1, idx. split; [done|]. split; [done|].
  intros i l Hi.
  destruct (Hrows i l Hi) as (row & Hh & Hlen & Hfull & Htake).
  exists row. split; [done|]. split; [done|]. split; [|done].
  intros Hik. destruct (decide (i = k)) as [Heq|Hne].
  - rewrite <- (Htake Heq). symmetry. apply take_ge. lia.
  - apply Hfull. lia.
Qed.

Lemma random_fill_const :
  exists h' idx,
    random_fill_board b density w
    = Ok tt (set_rng_idx idx (set_heap h' w))
    /\ rows_of h' b
         (replicate (length g) (replicate (width g) (bit_of t)))
    /\ (forall l, l ∉ b -> h' !! l = heap w !! l).
Proof.
  pose proof Hgrid as (Hrowsg & Hne & Hrect).
  unfold random_fill_board.
  rewrite (bind_Ok _ _ _ _ _ (len_row0_Ok _ _ _ Hgrid)).
  unfold len. rewrite (rows_of_length _ _ _ Hrowsg).
  assert (Hinv0 : fill_inv w g b (bit_of t) O O w).
  { exists (heap w), (rng_idx w). split; [by destruct w|].
    split; [done|]. intros i l Hi.
    destruct (Forall2_lookup_l _ _ _ _ _ Hrowsg Hi) as (row & Hrow & Hh).
    exists row. split; [done|].
    split; [by apply (rectangular_lookup _ _ _ Hrect Hrow)|].
    split; [lia|done]. }
  destruct (for_range_inv (fun k => fill_inv w g b (bit_of t) k O)
              (fun r =>
                 for_each (range (Z.of_nat (width g))) (fun c =>
                   x ← random;
                   if float_lt x density then set_cell b r c 1
                   else set_cell b r c 0))
              (length g) _ Hinv0) as (w' & Hrun & Hinv').
  { intros k w1 Hk Hinv1. by apply fill_row_step. }
  destruct Hinv' as (h' & idx & -> & Hout & Hrows).
  exists h', idx. split; [exact Hrun|]. split; [|done].
  rewrite <- (rows_of_length _ _ _ Hrowsg).
  apply rows_of_replicate. intros l [i Hi]%list_elem_of_lookup.
  destruct (Hrows i l Hi) as (row & Hh & _ & Hfull & _).
  rewrite Hh, Hfull; [done|].
  rewrite <- (rows_of_length _ _ _ Hrowsg). by eapply lookup_lt_Some.
Qed.
End fill.

Lemma Qltb_false x y : (y <= x)%Q -> Qltb x y = false.
Proof.
  intros Hle. unfold Qltb. apply negb_false_iff. by apply Qle_bool_iff.
Qed.

Lemma Qltb_true x y : (x < y)%Q -> Qltb x y = true.
Proof.
  intros Hlt. unfold Qltb. apply negb_true_iff.
  destruct (Qle_bool y x) eqn:Hle; [|done].
  apply Qle_bool_iff in Hle. exfalso. by eapply Qlt_not_le.
Qed.

Lemma float_lt_below d x : below_zero d -> (0 <= x)%Q -> float_lt x d = false.
Proof.
  destruct d as [q| | |]; simpl; try done.
  intros Hq Hx. apply Qltb_false.
  apply Qlt_le_weak. by eapply Qlt_le_trans.
Qed.

Lemma float_lt_above d x : above_one d -> (x < 1)%Q -> float_lt x d = true.
Proof.
  destruct d as [q| | |]; simpl; try done.
  intros Hq Hx. apply Qltb_true. by eapply Qlt_trans.
Qed.

(** C9: whatever the board holds and whatever values in [[0, 1)] the random
    source returns, [random_fill_board] with density 0 leaves 0 in every
    cell, and with density 1 leaves 1 in every cell. *)
Theorem random_fill_board_bounds w b g :
  is_grid w b g -> unit_draws w ->
  (exists w',
     random_fill_board b (Fin 0) w = Ok tt w'
     /\ rows_of (heap w') b (replicate (length g) (replicate (width g) 0)))
  /\ (exists w',
        random_fill_board b (Fin 1) w = Ok tt w'
        /\ rows_of (heap w') b
             (replicate (length g) (replicate (width g) 1))).
Proof.
  intros Hgrid Hdraws. split.
  - destruct (random_fill_const w b g (Fin 0) false Hgrid)
      as (h' & idx & Hrun & Hrows & _).
    { intros n. simpl. apply Qltb_false. apply Hdraws. }
    by exists (set_rng_idx idx (set_heap h' w)).
  - destruct (random_fill_const w b g (Fin 1) true Hgrid)
      as (h' & idx & Hrun & Hrows & _).
    { intros n. simpl. apply Qltb_true. apply Hdraws. }
    by exists (set_rng_idx idx (set_heap h' w)).
Qed.

Lemma random_fill_board_bounds_witness :
  (exists w',
     random_fill_board mixed_board (Fin 0) mixed_world = Ok tt w'
     /\ rows_of (heap w') mixed_board
          (replicate (length mixed_grid) (replicate (width mixed_grid) 0)))
  /\ (exists w',
        random_fill_board mixed_board (Fin 1) mixed_world = Ok tt w'
        /\ rows_of (heap w') mixed_board
             (replicate (length mixed_grid) (replicate (width mixed_grid) 1))).
Proof.
  apply (random_fill_board_bounds mixed_world mixed_board mixed_grid).
  - concrete_grid.
  - intros n. unfold Qle, Qlt. simpl. lia.
Defined.

(** C8, as stated, fails: [random_fill_board] checks nothing.  With a
    density of 2 it returns without an error, and the row [[1; 0]] of the
    board has become [[1; 1]]. *)
Lemma random_fill_board_density_2_returns :
  exists w',
    random_fill_board corner_board (Fin 2) corner_world = Ok tt w'
    /\ heap corner_world !! 1%positive = Some [1; 0]
    /\ heap w' !! 1%positive = Some [1; 1].
Proof.
  eexists. split; [vm_compute; reflexivity|]. split; reflexivity.
Qed.

(** C8, amended: [random_fill_board] raises no error for a density outside
    [[0, 1]].  On every grid, with values in [[0, 1)] from the random source,
    it returns after writing every cell: 0 everywhere when the density is
    below 0, 1 everywhere when it is above 1. *)
Theorem random_fill_board_unchecked w b g d :
  is_grid w b g -> unit_draws w ->
  (below_zero d ->
   exists w',
     random_fill_board b d w = Ok tt w'
     /\ rows_of (heap w') b (replicate (length g) (replicate (width g) 0)))
  /\ (above_one d ->
      exists w',
        random_fill_board b d w = Ok tt w'
        /\ rows_of (heap w') b
             (replicate (length g) (replicate (width g) 1))).
Proof.
  intros Hgrid Hdraws. split; intros Hd.
  - destruct (random_fill_const w b g d false Hgrid)
      as (h' & idx & Hrun & Hrows & _).
    { intros n. apply float_lt_below; [done|]. apply Hdraws. }
    by exists (set_rng_idx idx (set_heap h' w)).
  - destruct (random_fill_const w b g d true Hgrid)
      as (h' & idx & Hrun & Hrows & _).
    { intros n. apply float_lt_above; [done|]. apply Hdraws. }
    by exists (set_rng_idx idx (set_heap h' w)).
Qed.

Lemma random_fill_board_unchecked_witness :
  (exists w',
     random_fill_board mixed_board (Fin (-1)) mixed_world = Ok tt w'
     /\ rows_of (heap w') mixed_board
          (replicate (length mixed_grid) (replicate (width mixed_grid) 0)))
  /\ (exists w',
        random_fill_board mixed_board (Fin 2) mixed_world = Ok tt w'
        /\ rows_of (heap w') mixed_board
             (replicate (length mixed_grid) (replicate (width mixed_grid) 1))).
Proof.
  split.
  - apply (random_fill_board_unchecked
             mixed_world mixed_board mixed_grid (Fin (-1))).
    + concrete_grid.
    + intros n. unfold Qle, Qlt. simpl. lia.
    + reflexivity.
  - apply (random_fill_board_unchecked
             mixed_world mixed_board mixed_grid (Fin 2)).
    + concrete_grid.
    + intros n. unfold Qle, Qlt. simpl. lia.
    + reflexivity.
Defined.


(** ** Text *)

Lemma lstrip_with_keep sp c s : sp c = false -> lstrip_with sp (c :: s) = c :: s.
Proof. intros Hc. simpl. by rewrite Hc. Qed.

Lemma lstrip_with_spaces sp t u :
  Forall (fun x => sp x = true) t ->
  lstrip_with sp (t ++ u) = lstrip_with sp u.
Proof.
  intros Ht. induction Ht as [|x t Hx Ht IH]; [done|].
  simpl. by rewrite Hx.
Qed.

(** A line that ends in white space after a last character that is none. *)
Lemma strip_with_line sp c s s0 c' tail :
  sp c = false -> sp c' = false -> c :: s = s0 ++ [c'] ->
  Forall (fun x => sp x = true) tail ->
  strip_with sp ((c :: s) ++ tail) = c :: s.
Proof.
  intros Hc Hc' Hs0 Htail. unfold strip_with.
  change ((c :: s) ++ tail) with (c :: (s ++ tail)).
  rewrite lstrip_with_keep by done.
  change (c :: (s ++ tail)) with ((c :: s) ++ tail).
  rewrite rev_app_distr.
  rewrite lstrip_with_spaces by (by apply Forall_rev).
  rewrite Hs0.
  rewrite rev_app_distr. simpl. rewrite Hc'. simpl.
  by rewrite rev_involutive.
Qed.

Lemma strip_with_id sp c s s0 c' :
  sp c = false -> sp c' = false -> c :: s = s0 ++ [c'] ->
  strip_with sp (c :: s) = c :: s.
Proof.
  intros Hc Hc' Hs0.
  rewrite <- (app_nil_r (c :: s)) at 1. by eapply strip_with_line.
Qed.

Lemma split_no_sep sep s :
  Forall (fun c => Ascii.eqb c sep = false) s -> split sep s = [s].
Proof.
  induction 1 as [|c s Hc Hs IH]; [done|].
  simpl. by rewrite Hc, IH.
Qed.

Lemma split_app sep s1 s2 :
  Forall (fun c => Ascii.eqb c sep = false) s1 ->
  split sep (s1 ++ sep :: s2) = s1 :: split sep s2.
Proof.
  induction 1 as [|c s Hc Hs IH]; simpl.
  - by rewrite Ascii.eqb_refl.
  - by rewrite Hc, IH.
Qed.

Lemma universal_newlines_id s :
  Forall (fun c => Ascii.eqb c CR = false) s -> universal_newlines s = s.
Proof.
  induction 1 as [|c s Hc Hs IH]; [done|].
  simpl. by rewrite Hc, IH.
Qed.

Lemma keepends_line l rest :
  Forall (fun c => Ascii.eqb c LF = false) l ->
  keepends (l ++ LF :: rest) = (l ++ [LF]) :: keepends rest.
Proof.
  induction 1 as [|c l Hc Hl IH]; simpl.
  - done.
  - by rewrite Hc, IH.
Qed.

Lemma digit_is_plain c :
  is_digit c = true ->
  is_space c = false /\ is_space_int c = false
  /\ Ascii.eqb c ","%char = false /\ Ascii.eqb c LF = false
  /\ Ascii.eqb c CR = false /\ Ascii.eqb c "-"%char = false
  /\ Ascii.eqb c "+"%char = false /\ Ascii.eqb c "#"%char = false.
Proof.
  destruct c as [[] [] [] [] [] [] [] []]; vm_compute; intros H;
    (discriminate H || (repeat split; reflexivity)).
Qed.

Lemma digit_val_char d : 0 <= d < 10 -> digit_val (digit_char d) = Some d.
Proof.
  intros Hd.
  assert (Hcases : d = 0 \/ d = 1 \/ d = 2 \/ d = 3 \/ d = 4 \/ d = 5
                   \/ d = 6 \/ d = 7 \/ d = 8 \/ d = 9) by lia.
  repeat (destruct Hcases as [->|Hcases]; [reflexivity|]).
  by subst.
Qed.

Lemma is_digit_char d : 0 <= d < 10 -> is_digit (digit_char d) = true.
Proof. intros Hd. unfold is_digit. by rewrite digit_val_char. Qed.

Lemma digits_acc_snoc s c d :
  Forall (fun x => is_digit x = true) s -> digit_val c = Some d ->
  forall acc,
    digits_acc acc (s ++ [c]) = (fun a => 10 * a + d) <$> digits_acc acc s.
Proof.
  intros Hs Hc. induction Hs as [|x s Hx Hs IH]; intros acc; simpl.
  - by rewrite Hc.
  - unfold is_digit in Hx. destruct (digit_val x) as [dx|]; [|done].
    apply IH.
Qed.

Lemma digits_fuel_ok fuel :
  forall n, 0 <= n -> (Z.to_nat n < fuel)%nat ->
  exists c s,
    digits_fuel fuel n = c :: s
    /\ Forall (fun x => is_digit x = true) (c :: s)
    /\ parse_digits (c :: s) = Some n.
Proof.
  induction fuel as [|fuel IH]; intros n Hn Hfuel; [lia|].
  simpl. destruct (n <? 10) eqn:Hlt.
  - apply Z.ltb_lt in Hlt. exists (digit_char n), [].
    split; [done|]. split.
    + repeat constructor. apply is_digit_char. lia.
    + simpl. rewrite digit_val_char by lia. done.
  - apply Z.ltb_ge in Hlt.
    assert (Hdiv : 0 <= n / 10 < n).
    { split; [apply Z.div_pos; lia|apply Z.div_lt; lia]. }
    destruct (IH (n / 10)) as (c & s & Hds & Hall & Hparse); [lia|lia|].
    assert (Hmod : 0 <= n mod 10 < 10) by (apply Z.mod_pos_bound; lia).
    rewrite Hds. exists c, (s ++ [digit_char (n mod 10)]).
    split; [done|]. split.
    + rewrite app_comm_cons. apply Forall_app. split; [done|].
      repeat constructor. by apply is_digit_char.
    + simpl in *. destruct (digit_val c) as [dc|]; [|done].
      rewrite (digits_acc_snoc s _ (n mod 10)).
      * rewrite Hparse. simpl. f_equal. symmetry. apply Z.div_mod. lia.
      * by inversion Hall.
      * by apply digit_val_char.
Qed.

Lemma str_of_int_nat (k : nat) :
  exists c s,
    str_of_int (Z.of_nat k) = c :: s
    /\ Forall (fun x => is_digit x = true) (c :: s)
    /\ parse_digits (c :: s) = Some (Z.of_nat k).
Proof.
  unfold str_of_int.
  destruct (Z.of_nat k <? 0) eqn:Hneg; [apply Z.ltb_lt in Hneg; lia|].
  apply digits_fuel_ok; lia.
Qed.

Lemma cons_snoc {A} (c : A) s : exists s0 c', c :: s = s0 ++ [c'].
Proof.
  destruct (exists_last (l := c :: s)) as (s0 & c' & Heq); [done|].
  by exists s0, c'.
Qed.

Lemma parse_int_digits c s :
  Forall (fun x => is_digit x = true) (c :: s) ->
  parse_int (c :: s) = parse_digits (c :: s).
Proof.
  intros Hall. destruct (cons_snoc c s) as (s0 & c' & Heq).
  assert (Hc : is_digit c = true) by (by inversion Hall).
  assert (Hc' : is_digit c' = true).
  { rewrite Heq in Hall. apply Forall_app in Hall as [_ Hlast].
    by inversion Hlast. }
  destruct (digit_is_plain c Hc) as (_ & Hsp & _ & _ & _ & Hminus & Hplus & _).
  destruct (digit_is_plain c' Hc') as (_ & Hsp' & _).
  unfold parse_int.
  rewrite (strip_with_id is_space_int c s s0 c') by done.
  by rewrite Hminus, Hplus.
Qed.

Lemma parse_int_str_of_int (k : nat) :
  parse_int (str_of_int (Z.of_nat k)) = Some (Z.of_nat k).
Proof.
  destruct (str_of_int_nat k) as (c & s & -> & Hall & Hparse).
  by rewrite parse_int_digits.
Qed.

(** ** The lines [save_pattern] writes *)

Lemma digits_plain s :
  Forall (fun x => is_digit x = true) s ->
  Forall (fun x => Ascii.eqb x ","%char = false) s
  /\ Forall (fun x => Ascii.eqb x LF = false) s
  /\ Forall (fun x => Ascii.eqb x CR = false) s.
Proof.
  intros Hs. repeat split; eapply Forall_impl; try exact Hs;
    intros x Hx; by destruct (digit_is_plain x Hx) as (_&_&?&?&?&_).
Qed.

Lemma entry_body r c :
  exists x xs,
    entry r c = (x :: xs) ++ [LF]
    /\ strip ((x :: xs) ++ [LF]) = x :: xs
    /\ is_digit x = true
    /\ parse_pair (x :: xs) = Some (Z.of_nat c, Z.of_nat r)
    /\ Forall (fun a => Ascii.eqb a LF = false) (x :: xs)
    /\ Forall (fun a => Ascii.eqb a CR = false) (x :: xs).
Proof.
  destruct (str_of_int_nat c) as (x & xs & Hc & Hallc & Hpc).
  destruct (str_of_int_nat r) as (y & ys & Hr & Hallr & Hpr).
  destruct (cons_snoc y ys) as (s0 & y' & Hlast).
  assert (Hx : is_digit x = true) by (by inversion Hallc).
  assert (Hy' : is_digit y' = true).
  { rewrite Hlast in Hallr. apply Forall_app in Hallr as [_ Hl].
    by inversion Hl. }
  destruct (digits_plain _ Hallc) as (Hcomma_c & HLF_c & HCR_c).
  destruct (digits_plain _ Hallr) as (Hcomma_r & HLF_r & HCR_r).
  exists x, (xs ++ ","%char :: y :: ys).
  assert (Hentry : entry r c = (x :: xs ++ ","%char :: y :: ys) ++ [LF]).
  { unfold entry. rewrite Hc, Hr. simpl. by rewrite <- app_assoc. }
  split; [done|]. split.
  { apply (strip_with_line is_space x _ ((x :: xs) ++ ","%char :: s0) y').
    - by destruct (digit_is_plain x Hx) as (? & _).
    - by destruct (digit_is_plain y' Hy') as (? & _).
    - simpl. rewrite <- app_assoc. simpl. rewrite <- Hlast. done.
    - by repeat constructor. }
  split; [done|]. split.
  { unfold parse_pair.
    change (x :: xs ++ ","%char :: y :: ys)
      with ((x :: xs) ++ ","%char :: y :: ys).
    rewrite split_app by done. rewrite split_no_sep by done.
    simpl pair_of_parts.
    rewrite !parse_int_digits by done. rewrite Hpc, Hpr. done. }
  split.
  - change (x :: xs ++ ","%char :: y :: ys)
      with ((x :: xs) ++ ","%char :: y :: ys).
    apply Forall_app. split; [done|]. by constructor.
  - change (x :: xs ++ ","%char :: y :: ys)
      with ((x :: xs) ++ ","%char :: y :: ys).
    apply Forall_app. split; [done|]. by constructor.
Qed.

Lemma skipped_digit_line x xs :
  is_digit x = true -> strip ((x :: xs) ++ [LF]) = x :: xs ->
  skipped ((x :: xs) ++ [LF]) = false.
Proof.
  intros Hx Hstrip. unfold skipped. rewrite Hstrip.
  rewrite bool_decide_eq_false_2 by done. simpl.
  by destruct (digit_is_plain x Hx) as (_&_&_&_&_&_&_&?).
Qed.

Lemma names_cell_entry r c r' c' :
  names_cell r' c' (entry r c) <-> r' = r /\ c' = c.
Proof.
  destruct (entry_body r c) as (x & xs & -> & Hstrip & Hx & Hpair & _).
  unfold names_cell. rewrite (skipped_digit_line x xs Hx Hstrip).
  rewrite Hstrip, Hpair. split.
  - intros (_ & [= Hc Hr]). lia.
  - intros [-> ->]. done.
Qed.

Lemma malformed_entry r c : ~ malformed (entry r c).
Proof.
  destruct (entry_body r c) as (x & xs & -> & Hstrip & Hx & Hpair & _).
  unfold malformed. rewrite Hstrip, Hpair. intros (_ & ?). done.
Qed.

(** ** Loading a pattern *)

Lemma try_except_Ok {A} (m : M A) e handler w a w' :
  m w = Ok a w' -> try_except m e handler w = Ok a w'.
Proof. intros H. unfold try_except. by rewrite H. Qed.

Lemma try_except_caught {A} (m : M A) e handler w w' :
  m w = Raise e w' -> try_except m e handler w = handler w'.
Proof. intros H. unfold try_except. rewrite H. by rewrite decide_True. Qed.

Lemma for_each_inv {A} (xs : list A) (body : A -> M unit) :
  forall (I : nat -> world -> Prop) w,
    I O w ->
    (forall k x w1, xs !! k = Some x -> I k w1 ->
       exists w2, body x w1 = Ok tt w2 /\ I (S k) w2) ->
    exists w', for_each xs body w = Ok tt w' /\ I (length xs) w'.
Proof.
  induction xs as [|x xs IH]; intros I w HI Hstep.
  - by exists w.
  - destruct (Hstep O x w eq_refl HI) as (w2 & Hb & HI2).
    simpl. rewrite (bind_Ok _ _ _ _ _ Hb).
    apply (IH (fun k => I (S k))); [done|].
    intros k y w1 Hk. by apply (Hstep (S k)).
Qed.

Lemma unpack_two_ints_spec parts w :
  unpack_two_ints parts w
  = match pair_of_parts parts with
    | Some xy => Ok xy w
    | None => Raise ValueError w
    end.
Proof.
  unfold unpack_two_ints, pair_of_parts, int.
  destruct parts as [|p1 [|p2 [|p3 rest]]]; [done|..];
    unfold mbind, M_bind, bind; simpl;
    destruct (parse_int p1) as [x|]; simpl; try done;
    destruct (parse_int p2) as [y|]; simpl; try done;
    by destruct (parse_int p3).
Qed.

Lemma indicator_Exists_snoc {A} (P : A -> Prop) `{forall x, Decision (P x)}
    (l : list A) (x : A) :
  indicator (Exists P (l ++ [x]))
  = if decide (P x) then 1 else indicator (Exists P l).
Proof.
  unfold indicator.
  destruct (decide (P x)) as [Hx|Hx].
  - rewrite decide_True; [done|]. apply Exists_app. right. by constructor.
  - destruct (decide (Exists P l)) as [Hl|Hl].
    + rewrite decide_True; [done|]. apply Exists_app. by left.
    + rewrite decide_False; [done|].
      intros [Hl'|Hx']%Exists_app; [done|].
      by inversion Hx' as [?? Hx''|?? Hx'']; [|inversion Hx''].
Qed.

Lemma filter_snoc {A} (P : A -> Prop) `{forall x, Decision (P x)}
    (l : list A) (x : A) :
  filter P (l ++ [x]) = filter P l ++ (if decide (P x) then [x] else []).
Proof.
  rewrite list.filter_app. by f_equal.
Qed.

Section load.
Variables (w : world) (nb : list loc) (bw bh : Z) (lines : list str).
Hypothesis Hnd : NoDup nb.
Hypothesis Hlen : length nb = Z.to_nat bh.

Lemma load_line_step k line w1 :
  lines !! k = Some line ->
  load_inv w nb (Z.to_nat bw) (Z.to_nat bh) lines k w1 ->
  exists w2,
    (let line := strip line in
     if bool_decide (line = []) || startswith "#"%char line then ret tt
     else
       try_except
         (xy ← unpack_two_ints (split ","%char line);
          let '(x, y) := xy in
          if bool_decide (0 <= y < bh) && bool_decide (0 <= x < bw)
          then set_cell nb y x 1
          else ret tt)
         ValueError
         (print (lit "Warning: Could not parse line in pattern file: "
                   ++ line))) w1 = Ok tt w2
    /\ load_inv w nb (Z.to_nat bw) (Z.to_nat bh) lines (S k) w2.
Proof.
  intros Hline (h1 & acc & -> & Hrows & Hout & Hlens & Hcells).
  unfold load_inv. rewrite (take_S_r _ _ _ Hline).
  cbv zeta.
  change (bool_decide (strip line = []) || startswith "#"%char (strip line))
    with (skipped line).
  destruct (skipped line) eqn:Hskip.
  { (* a blank line or a comment *)
    eexists. split; [apply ret_Ok|].
    exists h1, acc. split; [|split; [done|split; [done|split; [done|]]]].
    - rewrite filter_snoc, decide_False, app_nil_r; [done|].
      unfold malformed. rewrite Hskip. by intros [? _].
    - intros r c Hr Hc. rewrite indicator_Exists_snoc, decide_False.
      + by apply Hcells.
      + unfold names_cell. rewrite Hskip. by intros [? _]. }
  destruct (parse_pair (strip line)) as [[x y]|] eqn:Hpair.
  - (* two integers *)
    assert (Hmal : ~ malformed line).
    { unfold malformed. rewrite Hpair. by intros [_ ?]. }
    assert (Hnames : forall r c,
              names_cell r c line <-> x = Z.of_nat c /\ y = Z.of_nat r).
    { intros r c. unfold names_cell. rewrite Hskip, Hpair.
      split; [intros (_ & [= -> ->]); done|intros [-> ->]; done]. }
    assert (Hunpack := unpack_two_ints_spec (split ","%char (strip line))
                         (set_stdout
                            (stdout w ++
                             (warning <$> filter malformed (take k lines)))
                            (set_heap h1 w))).
    fold (parse_pair (strip line)) in Hunpack. rewrite Hpair in Hunpack.
    destruct (decide (0 <= y < bh /\ 0 <= x < bw)) as [[Hy Hx]|Hnot].
    + (* inside the board *)
      assert (Hr0 : (Z.to_nat y < length acc)%nat).
      { rewrite <- (rows_of_length _ _ _ Hrows), Hlen. lia. }
      destruct (lookup_lt_is_Some_2 acc _ Hr0) as [row Hrow].
      pose proof (Forall_lookup_1 _ _ _ _ Hlens Hrow) as Hrowlen.
      simpl in Hrowlen.
      destruct (rows_of_lookup _ _ _ _ _ Hrows Hrow) as (l & Hl & Hh).
      exists (set_stdout
                (stdout w ++ (warning <$> filter malformed (take k lines)))
                (set_heap (<[l := <[Z.to_nat x := 1]> row]> h1) w)).
      split.
      { apply try_except_Ok. rewrite (bind_Ok _ _ _ _ _ Hunpack).
        rewrite (bool_decide_eq_true_2 _ Hy), (bool_decide_eq_true_2 _ Hx).
        change (true && true) with true. cbv iota.
        by rewrite (set_cell_Ok_Z nb y x l row) by (done || lia). }
      exists (<[l := <[Z.to_nat x := 1]> row]> h1),
             (<[Z.to_nat y := <[Z.to_nat x := 1]> row]> acc).
      split; [|split; [|split; [|split]]].
      * rewrite filter_snoc, decide_False, app_nil_r by done. done.
      * by eapply rows_of_insert.
      * intros l' Hl'. rewrite lookup_insert_ne; [by apply Hout|].
        intros <-. apply Hl'. by eapply list_elem_of_lookup_2.
      * apply Forall_insert; [done|]. by rewrite length_insert.
      * intros r c Hr Hc. rewrite cell_insert by (done || lia).
        rewrite indicator_Exists_snoc.
        destruct (decide (r = Z.to_nat y /\ c = Z.to_nat x)) as [[-> ->]|Hne].
        -- rewrite decide_True; [done|]. apply Hnames. lia.
        -- rewrite decide_False; [by apply Hcells|].
           intros [-> ->]%Hnames. apply Hne. lia.
    + (* outside the board *)
      eexists. split.
      { apply try_except_Ok. rewrite (bind_Ok _ _ _ _ _ Hunpack).
        cbv iota. cbv beta.
        assert (Hb : bool_decide (0 <= y < bh) && bool_decide (0 <= x < bw)
                     = false).
        { apply andb_false_iff.
          destruct (decide (0 <= y < bh)) as [Hy|Hy].
          - right. apply bool_decide_eq_false_2. tauto.
          - left. by apply bool_decide_eq_false_2. }
        rewrite Hb. apply ret_Ok. }
      exists h1, acc. split; [|split; [done|split; [done|split; [done|]]]].
      * rewrite filter_snoc, decide_False, app_nil_r by done. done.
      * intros r c Hr Hc. rewrite indicator_Exists_snoc, decide_False.
        -- by apply Hcells.
        -- intros [-> ->]%Hnames. apply Hnot. lia.
  - (* not two integers: a warning *)
    assert (Hmal : malformed line) by (by split).
    assert (Hunpack := unpack_two_ints_spec (split ","%char (strip line))
                         (set_stdout
                            (stdout w ++
                             (warning <$> filter malformed (take k lines)))
                            (set_heap h1 w))).
    fold (parse_pair (strip line)) in Hunpack. rewrite Hpair in Hunpack.
    eexists. split.
    { rewrite (try_except_caught _ _ _ _ _ (bind_Raise _ _ _ _ _ Hunpack)).
      reflexivity. }
    exists h1, acc. split; [|split; [done|split; [done|split; [done|]]]].
    + rewrite filter_snoc, decide_True by done.
      rewrite fmap_app. simpl. unfold print, set_stdout, set_heap. simpl.
      by rewrite <- app_assoc.
    + intros r c Hr Hc. rewrite indicator_Exists_snoc, decide_False.
      * by apply Hcells.
      * unfold names_cell. rewrite Hpair. by intros [_ ?].
Qed.
End load.

Lemma indicator_Exists_nil {A} (P : A -> Prop) `{forall x, Decision (P x)} :
  indicator (Exists P []) = 0.
Proof. apply indicator_False. by intros ?%Exists_nil. Qed.

Lemma cell_replicate (H W r c : nat) v :
  (r < H)%nat -> (c < W)%nat ->
  cell (replicate H (replicate W v)) r c = Some v.
Proof.
  intros Hr Hc. unfold cell. rewrite lookup_replicate_2 by done. simpl.
  by rewrite lookup_replicate_2.
Qed.

(** [load_pattern] on a file that exists. *)
Lemma load_pattern_found w f content bw bh :
  files w !! f = Some content ->
  exists b' h' G,
    load_pattern f bw bh w
    = Ok b' (set_stdout
               (stdout w
                ++ (warning <$> filter malformed (readlines content))
                ++ [loaded_message f])
               (set_heap h' w))
    /\ NoDup b'
    /\ (forall l, l ∈ b' -> l ∉ dom (heap w))
    /\ (forall l, l ∉ b' -> h' !! l = heap w !! l)
    /\ rows_of h' b' G
    /\ length G = Z.to_nat bh
    /\ Forall (fun row => length row = Z.to_nat bw) G
    /\ forall r c, (r < Z.to_nat bh)%nat -> (c < Z.to_nat bw)%nat ->
         cell G r c
         = Some (indicator (Exists (names_cell r c) (readlines content))).
Proof.
  intros Hfile. unfold load_pattern.
  destruct (create_board_Ok bw bh w)
    as (nb & h0 & Hcreate & Hnd & Hnew & Hout0 & Hrows0).
  rewrite (bind_Ok _ _ _ _ _ Hcreate).
  assert (Hlen : length nb = Z.to_nat bh).
  { rewrite (rows_of_length _ _ _ Hrows0). by rewrite length_replicate. }
  assert (Hopen : open_r f (set_heap h0 w) = Ok content (set_heap h0 w)).
  { unfold open_r. simpl. by rewrite Hfile. }
  set (lines := readlines content).
  assert (Hinv0 : load_inv w nb (Z.to_nat bw) (Z.to_nat bh) lines O
                    (set_heap h0 w)).
  { exists h0, (replicate (Z.to_nat bh) (replicate (Z.to_nat bw) 0)).
    split; [|split; [done|split; [done|split]]].
    - simpl. rewrite app_nil_r. by destruct w.
    - apply Forall_replicate. by rewrite length_replicate.
    - intros r c Hr Hc. rewrite take_0, indicator_Exists_nil.
      by apply cell_replicate. }
  destruct (for_each_inv lines
              (fun line =>
                 let line := strip line in
                 if bool_decide (line = []) || startswith "#"%char line
                 then ret tt
                 else
                   try_except
                     (xy ← unpack_two_ints (split ","%char line);
                      let '(x, y) := xy in
                      if bool_decide (0 <= y < bh)
                         && bool_decide (0 <= x < bw)
                      then set_cell nb y x 1
                      else ret tt)
                     ValueError
                     (print
                        (lit "Warning: Could not parse line in pattern file: "
                           ++ line)))
              (load_inv w nb (Z.to_nat bw) (Z.to_nat bh) lines)
              (set_heap h0 w) Hinv0) as (w' & Hloop & Hinv').
  { intros k line w1 Hline Hinv1. by apply load_line_step. }
  destruct Hinv' as (h' & G & -> & Hrows' & Hout' & Hlens & Hcells).
  rewrite firstn_all in Hcells. rewrite firstn_all in Hloop.
  exists nb, h', G. split.
  { apply try_except_Ok.
    rewrite (bind_Ok _ _ _ _ _ Hopen).
    fold lines. rewrite (bind_Ok _ _ _ _ _ Hloop).
    unfold loaded_message.
    unfold mbind, M_bind, bind, print, ret, set_stdout, set_heap. simpl.
    by rewrite <- app_assoc. }
  split; [done|]. split; [done|]. split; [done|]. split; [done|].
  split; [|done].
  by rewrite <- (rows_of_length _ _ _ Hrows').
Qed.

(** [load_pattern] on a path without a file. *)
Lemma load_pattern_missing w f bw bh :
  files w !! f = None ->
  exists b' h',
    load_pattern f bw bh w
    = Ok b' (set_stdout (stdout w ++ [not_found_message f]) (set_heap h' w))
    /\ NoDup b'
    /\ (forall l, l ∈ b' -> l ∉ dom (heap w))
    /\ heap_kept (heap w) h'
    /\ rows_of h' b' (replicate (Z.to_nat bh) (replicate (Z.to_nat bw) 0)).
Proof.
  intros Hfile. unfold load_pattern.
  destruct (create_board_Ok bw bh w)
    as (nb & h0 & Hcreate & Hnd & Hnew & Hout0 & Hrows0).
  rewrite (bind_Ok _ _ _ _ _ Hcreate).
  assert (Hopen : open_r f (set_heap h0 w)
                  = Raise FileNotFoundError (set_heap h0 w)).
  { unfold open_r. simpl. by rewrite Hfile. }
  rewrite (try_except_caught _ _ _ _ _ (bind_Raise _ _ _ _ _ Hopen)).
  set (w1 := set_stdout (stdout w ++ [not_found_message f]) (set_heap h0 w)).
  assert (Hprint : print (lit "Error: Pattern file not found: " ++ f)
                     (set_heap h0 w) = Ok tt w1) by reflexivity.
  rewrite (bind_Ok _ _ _ _ _ Hprint).
  destruct (create_board_Ok bw bh w1)
    as (b2 & h2 & Hcreate2 & Hnd2 & Hnew2 & Hout2 & Hrows2).
  assert (Hkept0 : heap_kept (heap w) h0) by (by eapply heap_kept_fresh).
  assert (Hkept2 : heap_kept h0 h2) by (by eapply heap_kept_fresh).
  assert (Hdom : forall l, l ∈ dom (heap w) -> l ∈ dom h0).
  { intros l Hl. apply elem_of_dom. rewrite (Hkept0 l Hl).
    by apply elem_of_dom. }
  exists b2, h2. split; [exact Hcreate2|]. split; [done|]. split.
  { intros l Hl Hold. apply (Hnew2 l Hl). simpl. by apply Hdom. }
  split; [|done].
  intros l Hl. rewrite (Hkept2 l) by (by apply Hdom). by apply Hkept0.
Qed.

Lemma cell_Some_lt G r c v H W :
  length G = H -> Forall (fun row => length row = W) G ->
  cell G r c = Some v -> (r < H)%nat /\ (c < W)%nat.
Proof.
  intros HH HW Hcell. unfold cell in Hcell.
  destruct (G !! r) as [row|] eqn:Hrow; [simpl in Hcell|done].
  split.
  - rewrite <- HH. by eapply lookup_lt_Some.
  - rewrite <- (Forall_lookup_1 _ _ _ _ HW Hrow). by eapply lookup_lt_Some.
Qed.

Lemma example_names r c :
  Exists (names_cell r c) (readlines example_content)
  <-> (Z.of_nat r = 4 /\ Z.of_nat c = 3)
      \/ (Z.of_nat r = 9999 /\ Z.of_nat c = 9999).
Proof.
  change (readlines example_content)
    with [lit "3,4" ++ [LF]; lit "abc" ++ [LF]; lit "9999,9999" ++ [LF]].
  rewrite !Exists_cons, Exists_nil. unfold names_cell.
  change (skipped (lit "3,4" ++ [LF])) with false.
  change (skipped (lit "abc" ++ [LF])) with false.
  change (skipped (lit "9999,9999" ++ [LF])) with false.
  change (parse_pair (strip (lit "3,4" ++ [LF]))) with (Some (3, 4)).
  change (parse_pair (strip (lit "abc" ++ [LF]))) with (@None (Z * Z)).
  change (parse_pair (strip (lit "9999,9999" ++ [LF])))
    with (Some (9999, 9999)).
  split.
  - intros [(_ & [= Hc Hr])|[(_ & ?)|[(_ & [= Hc Hr])|[]]]];
      [left|done|right]; lia.
  - intros [[Hr Hc]|[Hr Hc]]; [left|right; right; left];
      (split; [done|]); by rewrite Hr, Hc.
Qed.

Lemma example_malformed :
  filter malformed (readlines example_content) = [lit "abc" ++ [LF]].
Proof. reflexivity. Qed.

(** C5: whatever the lines of a pattern file that can be read as text,
    [load_pattern] returns a board, on which a cell is 1 when a line of at
    most 640 digits, neither blank nor a comment, is two integers that name
    it, and 0 when no line names it; a warning is printed for every line
    that is neither skipped nor two integers, and the message that the
    pattern was loaded comes last.  So a line that is not two integers, or
    a pair outside the board, changes nothing, and the lines after it are
    read.  (A number of more than 640 digits is left aside: whether [int]
    takes it depends on the limit of the interpreter.)  When no line has
    more than 640 digits this is all: a cell is 1 exactly when a line names
    it, and the warnings are those of the malformed lines, in their order.
    On the file of the test, for a board of 10 by 10, the cell of row 4 and
    column 3 alone is alive. *)
Theorem load_pattern_resilient :
  (forall w f content bw bh,
     files w !! f = Some content ->
     exists b' w' G ws,
       load_pattern f bw bh w = Ok b' w'
       /\ rows_of (heap w') b' G
       /\ length G = Z.to_nat bh
       /\ Forall (fun row => length row = Z.to_nat bw) G
       /\ (forall r c, (r < Z.to_nat bh)%nat -> (c < Z.to_nat bw)%nat ->
             Exists (fun line => digit_count line <= int_digits_taken
                                 /\ names_cell r c line)
                    (readlines content) ->
             cell G r c = Some 1)
       /\ (forall r c, (r < Z.to_nat bh)%nat -> (c < Z.to_nat bw)%nat ->
             ~ Exists (names_cell r c) (readlines content) ->
             cell G r c = Some 0)
       /\ stdout w' = stdout w ++ ws ++ [loaded_message f]
       /\ (warning <$> filter malformed (readlines content)) `sublist_of` ws)
  /\ (forall w f content bw bh,
        files w !! f = Some content ->
        within_digit_limit content ->
        exists b' w' G,
          load_pattern f bw bh w = Ok b' w'
          /\ rows_of (heap w') b' G
          /\ length G = Z.to_nat bh
          /\ Forall (fun row => length row = Z.to_nat bw) G
          /\ (forall r c, (r < Z.to_nat bh)%nat -> (c < Z.to_nat bw)%nat ->
                cell G r c
                = Some (indicator
                          (Exists (names_cell r c) (readlines content))))
          /\ stdout w'
             = stdout w ++ (warning <$> filter malformed (readlines content))
                        ++ [loaded_message f])
  /\ (forall w f,
        files w !! f = Some example_content ->
        exists b' w' G,
          load_pattern f 10 10 w = Ok b' w'
          /\ rows_of (heap w') b' G
          /\ (forall r c, cell G r c = Some 1 <-> r = 4%nat /\ c = 3%nat)
          /\ (forall r c, (r < 10)%nat -> (c < 10)%nat ->
                ~ (r = 4%nat /\ c = 3%nat) -> cell G r c = Some 0)
          /\ stdout w'
             = stdout w ++ [warning (lit "abc" ++ [LF]); loaded_message f]).
Proof.
  split; [|split].
  - intros w f content bw bh Hfile.
    destruct (load_pattern_found w f content bw bh Hfile)
      as (b' & h' & G & Hrun & _ & _ & _ & Hrows & HH & HW & Hcells).
    eexists b', _, G, (warning <$> filter malformed (readlines content)).
    split; [exact Hrun|]. split; [done|]. split; [done|]. split; [done|].
    split; [|split; [|done]].
    + intros r c Hr Hc Hex. rewrite (Hcells r c Hr Hc). f_equal.
      unfold indicator. rewrite decide_True; [done|].
      apply Exists_exists in Hex as (line & Hin & _ & Hname).
      apply Exists_exists. by exists line.
    + intros r c Hr Hc Hno. rewrite (Hcells r c Hr Hc). f_equal.
      by apply indicator_False.
  - intros w f content bw bh Hfile _.
    destruct (load_pattern_found w f content bw bh Hfile)
      as (b' & h' & G & Hrun & _ & _ & _ & Hrows & HH & HW & Hcells).
    eexists b', _, G. split; [exact Hrun|]. done.
  - intros w f Hfile.
    destruct (load_pattern_found w f example_content 10 10 Hfile)
      as (b' & h' & G & Hrun & _ & _ & _ & Hrows & HH & HW & Hcells).
    eexists b', _, G. split; [exact Hrun|]. split; [done|].
    change (Z.to_nat 10) with 10%nat in *.
    split; [|split].
    + intros r c. split.
      * intros Hcell.
        destruct (cell_Some_lt _ _ _ _ _ _ HH HW Hcell) as [Hr Hc].
        rewrite (Hcells r c Hr Hc) in Hcell. injection Hcell as Hind.
        unfold indicator in Hind.
        destruct (decide (Exists (names_cell r c) (readlines example_content)))
          as [Hex|]; [|done].
        apply example_names in Hex. lia.
      * intros [-> ->]. rewrite Hcells by lia. reflexivity.
    + intros r c Hr Hc Hne. rewrite (Hcells r c Hr Hc). f_equal.
      apply indicator_False. intros Hex%example_names. lia.
    + rewrite example_malformed. reflexivity.
Qed.

Lemma load_pattern_resilient_witness :
  (exists b' w' G ws,
     load_pattern example_path 10 10 example_world = Ok b' w'
     /\ rows_of (heap w') b' G
     /\ length G = Z.to_nat 10
     /\ Forall (fun row => length row = Z.to_nat 10) G
     /\ (forall r c, (r < Z.to_nat 10)%nat -> (c < Z.to_nat 10)%nat ->
           Exists (fun line => digit_count line <= int_digits_taken
                               /\ names_cell r c line)
                  (readlines example_content) ->
           cell G r c = Some 1)
     /\ (forall r c, (r < Z.to_nat 10)%nat -> (c < Z.to_nat 10)%nat ->
           ~ Exists (names_cell r c) (readlines example_content) ->
           cell G r c = Some 0)
     /\ stdout w' = stdout example_world ++ ws ++ [loaded_message example_path]
     /\ (warning <$> filter malformed (readlines example_content))
          `sublist_of` ws)
  /\ (exists b' w' G,
     load_pattern example_path 10 10 example_world = Ok b' w'
     /\ rows_of (heap w') b' G
     /\ length G = Z.to_nat 10
     /\ Forall (fun row => length row = Z.to_nat 10) G
     /\ (forall r c, (r < Z.to_nat 10)%nat -> (c < Z.to_nat 10)%nat ->
           cell G r c
           = Some (indicator
                     (Exists (names_cell r c) (readlines example_content))))
     /\ stdout w'
        = stdout example_world
          ++ (warning <$> filter malformed (readlines example_content))
          ++ [loaded_message example_path])
  /\ (exists b' w' G,
        load_pattern example_path 10 10 example_world = Ok b' w'
        /\ rows_of (heap w') b' G
        /\ (forall r c, cell G r c = Some 1 <-> r = 4%nat /\ c = 3%nat)
        /\ (forall r c, (r < 10)%nat -> (c < 10)%nat ->
              ~ (r = 4%nat /\ c = 3%nat) -> cell G r c = Some 0)
        /\ stdout w'
           = stdout example_world
             ++ [warning (lit "abc" ++ [LF]); loaded_message example_path]).
Proof.
  split; [|split].
  - apply (proj1 load_pattern_resilient
             example_world example_path example_content 10 10).
    reflexivity.
  - apply (proj1 (proj2 load_pattern_resilient)
             example_world example_path example_content 10 10).
    + reflexivity.
    + repeat constructor; vm_compute; discriminate.
  - apply (proj2 (proj2 load_pattern_resilient) example_world example_path).
    reflexivity.
Defined.

(** C6: when no file exists at the path, [load_pattern] raises nothing: it
    prints that the file was not found and returns a board of new rows, all
    dead, of the height and width asked for. *)
Theorem load_pattern_missing_file w f bw bh :
  files w !! f = None ->
  exists b' w',
    load_pattern f bw bh w = Ok b' w'
    /\ rows_of (heap w') b'
         (replicate (Z.to_nat bh) (replicate (Z.to_nat bw) 0))
    /\ stdout w' = stdout w ++ [not_found_message f]
    /\ NoDup b'
    /\ (forall l, l ∈ b' -> l ∉ dom (heap w))
    /\ heap_kept (heap w) (heap w').
Proof.
  intros Hfile.
  destruct (load_pattern_missing w f bw bh Hfile)
    as (b' & h' & Hrun & Hnd & Hnew & Hkept & Hrows).
  eexists b', _. split; [exact Hrun|]. done.
Qed.

Lemma load_pattern_missing_file_witness :
  exists b' w',
    load_pattern example_path 3 2 empty_world = Ok b' w'
    /\ rows_of (heap w') b'
         (replicate (Z.to_nat 2) (replicate (Z.to_nat 3) 0))
    /\ stdout w' = stdout empty_world ++ [not_found_message example_path]
    /\ NoDup b'
    /\ (forall l, l ∈ b' -> l ∉ dom (heap empty_world))
    /\ heap_kept (heap empty_world) (heap w').
Proof.
  apply (load_pattern_missing_file empty_world example_path 3 2).
  reflexivity.
Defined.

(** ** Saving a pattern *)

Lemma write_Ok (f s T : str) (F : gmap str str) (w0 : world) :
  write f s (set_files (<[f := T]> F) w0)
  = Ok tt (set_files (<[f := T ++ s]> F) w0).
Proof.
  unfold write, set_files. cbn [files heap rng_seq rng_idx stdout].
  rewrite lookup_insert_eq, insert_insert_eq. done.
Qed.

Lemma concat_entries_snoc coords r c :
  concat (entries (coords ++ [(r, c)])) = concat (entries coords) ++ entry r c.
Proof.
  unfold entries. rewrite fmap_app, concat_app.
  cbn [fmap list_fmap concat fst snd]. by rewrite app_nil_r.
Qed.

Section save.
Variables (w : world) (b : list loc) (g : list (list Z)) (f : str).
Hypothesis Hgrid : is_grid w b g.

Lemma save_cell_step k j w1 :
  (k < length g)%nat -> (j < width g)%nat ->
  save_inv w g f k j w1 ->
  exists w2,
    (v ← get_cell b (Z.of_nat k) (Z.of_nat j);
     if bool_decide (v = 1) then
       write f (str_of_int (Z.of_nat j) ++ lit ","
                  ++ str_of_int (Z.of_nat k) ++ [LF])
     else ret tt) w1 = Ok tt w2
    /\ save_inv w g f k (S j) w2.
Proof.
  intros Hk Hj (coords & -> & Hcoords).
  destruct Hgrid as (Hrows & _ & Hrect).
  destruct (cell_is_Some g k j Hrect Hk Hj) as [v Hv].
  assert (Hget : get_cell b (Z.of_nat k) (Z.of_nat j)
                   (set_files
                      (<[f := header ++ concat (entries coords)]> (files w))
                      w)
                 = Ok v (set_files
                           (<[f := header ++ concat (entries coords)]>
                              (files w)) w))
    by (by apply (get_cell_Ok b g)).
  rewrite (bind_Ok _ _ _ _ _ Hget).
  destruct (decide (v = 1)) as [->|Hv1].
  - rewrite bool_decide_eq_true_2 by done.
    eexists. split; [apply write_Ok|].
    exists (coords ++ [(k, j)]). split.
    + rewrite concat_entries_snoc. unfold entry. by rewrite <- app_assoc.
    + intros r c. rewrite elem_of_app, list_elem_of_singleton, Hcoords.
      split.
      * intros [[Hc Hlt]|[= -> ->]]; (split; [done|lia]).
      * intros [Hc Hlt].
        destruct (decide (r = k /\ c = j)) as [[-> ->]|Hne];
          [by right|left]. split; [done|lia].
  - rewrite bool_decide_eq_false_2 by done.
    eexists. split; [apply ret_Ok|].
    exists coords. split; [done|].
    intros r c. rewrite Hcoords. split.
    + intros [Hc Hlt]. split; [done|lia].
    + intros [Hc Hlt]. split; [done|].
      destruct (decide (r = k /\ c = j)) as [[-> ->]|Hne]; [|lia].
      rewrite Hv in Hc. by injection Hc.
Qed.

Lemma save_row_step k w1 :
  (k < length g)%nat ->
  save_inv w g f k O w1 ->
  exists w2,
    for_each (range (Z.of_nat (width g))) (fun c =>
      v ← get_cell b (Z.of_nat k) c;
      if bool_decide (v = 1) then
        write f (str_of_int c ++ lit "," ++ str_of_int (Z.of_nat k) ++ [LF])
      else ret tt) w1 = Ok tt w2
    /\ save_inv w g f (S k) O w2.
Proof.
  intros Hk Hinv.
  apply (for_range_post (save_inv w g f k)); [done| |].
  { intros j w' Hj Hinv'. by apply save_cell_step. }
  intros w2 (coords & -> & Hcoords).
  exists coords. split; [done|].
  intros r c. rewrite Hcoords. split.
  - intros [Hc Hlt]. split; [done|]. lia.
  - intros [Hc Hlt]. split; [done|].
    destruct (cell_Some_lt g r c 1 (length g) (width g) eq_refl) as [_ Hcw];
      [by destruct Hgrid as (_ & _ & ?)|done|]. lia.
Qed.

Lemma save_pattern_Ok :
  dirname f <> [] ->
  exists coords,
    save_pattern b f w
    = Ok tt (set_stdout (stdout w ++ [saved_message f])
               (set_files
                  (<[f := header ++ concat (entries coords)]> (files w)) w))
    /\ forall r c, (r, c) ∈ coords <-> cell g r c = Some 1.
Proof.
  intros Hdir. pose proof Hgrid as (Hrows & Hne & Hrect).
  unfold save_pattern.
  assert (Hmk : forall w0, makedirs (dirname f) w0 = Ok tt w0)
    by (by destruct (dirname f)).
  rewrite (bind_Ok _ _ _ _ _ (Hmk w)).
  set (w0 := set_files (<[f := header]> (files w)) w).
  assert (Hopen : open_w f w = Ok tt (set_files (<[f := []]> (files w)) w))
    by reflexivity.
  rewrite (bind_Ok _ _ _ _ _ Hopen).
  assert (Hwrite : write f header (set_files (<[f := []]> (files w)) w)
                   = Ok tt w0) by apply write_Ok.
  rewrite (bind_Ok _ _ _ _ _ Hwrite).
  assert (Hgrid0 : is_grid w0 b g) by done.
  assert (Hinv0 : save_inv w g f O O w0).
  { exists []. split; [by rewrite app_nil_r|].
    intros r c. rewrite elem_of_nil. split; [done|]. intros [_ ?]. lia. }
  assert (Hloops : exists w',
    (cols ← len_row0 b;
     for_each (range (len b)) (fun r =>
       for_each (range cols) (fun c =>
         v ← get_cell b r c;
         if bool_decide (v = 1) then
           write f (str_of_int c ++ lit "," ++ str_of_int r ++ [LF])
         else ret tt))) w0 = Ok tt w'
    /\ save_inv w g f (length g) O w').
  { rewrite (bind_Ok _ _ _ _ _ (len_row0_Ok _ _ _ Hgrid0)).
    unfold len. rewrite (rows_of_length _ _ _ Hrows).
    apply (for_range_inv (fun k => save_inv w g f k O)); [done|].
    intros k w1 Hk Hinv1. by apply save_row_step. }
  destruct Hloops as (w' & Hrun & (coords & -> & Hcoords)).
  rewrite (bind_Ok _ _ _ _ _ Hrun).
  exists coords. split; [reflexivity|].
  intros r c. rewrite Hcoords. split; [by intros [? _]|].
  intros Hc. split; [done|]. left.
  by destruct (cell_Some_lt g r c 1 (length g) (width g) eq_refl Hrect Hc).
Qed.
End save.

(** ** Saving and loading back *)

Lemma header_plain :
  Forall (fun c => Ascii.eqb c LF = false)
         (lit "# Pattern: Custom saved pattern")
  /\ Forall (fun c => Ascii.eqb c CR = false) header.
Proof. split; repeat constructor. Qed.

Lemma entry_no_CR r c : Forall (fun a => Ascii.eqb a CR = false) (entry r c).
Proof.
  destruct (entry_body r c) as (x & xs & -> & _ & _ & _ & _ & HCR).
  apply Forall_app. split; [done|]. by repeat constructor.
Qed.

Lemma keepends_entries coords :
  keepends (concat (entries coords)) = entries coords.
Proof.
  induction coords as [|[r c] coords IH]; [done|].
  unfold entries. cbn [fmap list_fmap concat fst snd]. fold (entries coords).
  destruct (entry_body r c) as (x & xs & -> & _ & _ & _ & HLF & _).
  rewrite <- app_assoc. cbn [app]. fold (app xs (LF :: concat (entries coords))).
  change (x :: xs ++ LF :: concat (entries coords))
    with ((x :: xs) ++ LF :: concat (entries coords)).
  rewrite keepends_line by done. by rewrite IH.
Qed.

Lemma readlines_saved coords :
  readlines (header ++ concat (entries coords)) = header :: entries coords.
Proof.
  destruct header_plain as [HLF HCR].
  unfold readlines. rewrite universal_newlines_id.
  - unfold header. rewrite <- app_assoc. cbn [app].
    rewrite keepends_line by done. by rewrite keepends_entries.
  - apply Forall_app. split; [done|]. apply Forall_concat.
    apply Forall_fmap, Forall_forall. intros [r c] _. apply entry_no_CR.
Qed.

Lemma skipped_header : skipped header = true.
Proof. vm_compute. reflexivity. Qed.

Lemma saved_names coords r c :
  Exists (names_cell r c) (header :: entries coords) <-> (r, c) ∈ coords.
Proof.
  rewrite Exists_cons. unfold entries. rewrite Exists_fmap, Exists_exists.
  split.
  - intros [[Hskip _]|([r' c'] & Hin & Hname)];
      [by rewrite skipped_header in Hskip|].
    apply names_cell_entry in Hname as [-> ->]. by apply list_elem_of_In.
  - intros Hin. right. exists (r, c). split; [by apply list_elem_of_In|].
    by apply names_cell_entry.
Qed.

Lemma filter_none {A} (P : A -> Prop) `{forall x, Decision (P x)}
    (l : list A) :
  Forall (fun x => ~ P x) l -> filter P l = [].
Proof.
  induction 1 as [|x l Hx Hl IH]; [done|].
  by rewrite filter_cons, decide_False.
Qed.

Lemma saved_malformed coords :
  filter malformed (header :: entries coords) = [].
Proof.
  rewrite filter_cons, decide_False
    by (intros [Hskip _]; by rewrite skipped_header in Hskip).
  apply filter_none, Forall_fmap, Forall_forall.
  intros [r c] _. apply malformed_entry.
Qed.

Lemma rectangular_as_bits g : rectangular g -> rectangular (as_bits g).
Proof.
  unfold rectangular. rewrite width_as_bits. intros Hrect.
  unfold as_bits. apply Forall_fmap. eapply Forall_impl; [|exact Hrect].
  intros row Hrow. simpl. by rewrite length_fmap.
Qed.

(** C3: a grid saved by [save_pattern] and loaded back by [load_pattern]
    with its own width and height gives a grid with the same live cells:
    the grid loaded holds 1 exactly where the grid saved did. *)
Theorem save_load_roundtrip w b g f :
  is_grid w b g -> dirname f <> [] ->
  exists w1,
    save_pattern b f w = Ok tt w1
    /\ is_grid w1 b g
    /\ exists b' w2 g',
         load_pattern f (Z.of_nat (width g)) (Z.of_nat (length g)) w1
         = Ok b' w2
         /\ is_grid w2 b' g'
         /\ length g' = length g
         /\ width g' = width g
         /\ (forall r c, cell g' r c = Some 1 <-> cell g r c = Some 1)
         /\ g' = as_bits g.
Proof.
  intros Hgrid Hdir. pose proof Hgrid as (Hrows & Hne & Hrect).
  destruct (save_pattern_Ok w b g f Hgrid Hdir) as (coords & Hsave & Hcoords).
  eexists. split; [exact Hsave|]. split; [done|].
  match goal with
  | |- context [load_pattern _ _ _ ?w1] =>
      destruct (load_pattern_found w1 f (header ++ concat (entries coords))
                  (Z.of_nat (width g)) (Z.of_nat (length g)))
        as (b' & h' & G & Hload & _ & _ & _ & Hrows' & HH & HW & Hcells)
  end.
  { cbn [files set_stdout set_files]. by rewrite lookup_insert_eq. }
  rewrite !Nat2Z.id in *. rewrite readlines_saved in Hcells.
  assert (HG : G = as_bits g).
  { apply grid_ext with (width g).
    - by rewrite length_as_bits.
    - done.
    - pose proof (rectangular_as_bits g Hrect) as Hrect'.
      unfold rectangular in Hrect'. by rewrite width_as_bits in Hrect'.
    - intros r c Hr Hc. rewrite HH in Hr.
      rewrite (Hcells r c Hr Hc), cell_as_bits.
      destruct (cell_is_Some g r c Hrect Hr Hc) as [v Hv]. rewrite Hv.
      simpl. f_equal. unfold indicator, as_bit.
      destruct (decide (v = 1)) as [->|Hv1].
      + rewrite decide_True; [done|]. by apply saved_names, Hcoords.
      + rewrite decide_False; [done|].
        intros Hin%saved_names%Hcoords. congruence. }
  subst G. eexists b', _, (as_bits g). split; [exact Hload|].
  split.
  { split; [done|]. split; [|by apply rectangular_as_bits].
    intros Hnil. apply Hne. apply length_zero_iff_nil.
    by rewrite <- length_as_bits, Hnil. }
  split; [apply length_as_bits|]. split; [apply width_as_bits|].
  split; [|done].
  intros r c. rewrite cell_as_bits.
  destruct (cell g r c) as [v|]; simpl; [|done].
  split; intros [= Hv]; f_equal; by apply as_bit_1.
Qed.

Lemma save_load_roundtrip_witness :
  exists w1,
    save_pattern mixed_board example_path mixed_world = Ok tt w1
    /\ is_grid w1 mixed_board mixed_grid
    /\ exists b' w2 g',
         load_pattern example_path (Z.of_nat (width mixed_grid))
           (Z.of_nat (length mixed_grid)) w1 = Ok b' w2
         /\ is_grid w2 b' g'
         /\ length g' = length mixed_grid
         /\ width g' = width mixed_grid
         /\ (forall r c, cell g' r c = Some 1 <-> cell mixed_grid r c = Some 1)
         /\ g' = as_bits mixed_grid.
Proof.
  apply (save_load_roundtrip mixed_world mixed_board mixed_grid example_path).
  - concrete_grid.
  - vm_compute. discriminate.
Defined.


(** ** Counting the live cells *)

Lemma count_row_Ok (row : list Z) :
  forall count w,
    for_fold row count (fun count cell =>
      if bool_decide (cell = 1) then ret (count + 1) else ret count) w
    = Ok (count + len (filter (fun v => v = 1) row)) w.
Proof.
  induction row as [|v row IH]; intros count w.
  - rewrite for_fold_nil, ret_Ok. f_equal. unfold len. simpl. lia.
  - rewrite for_fold_cons, filter_cons.
    destruct (decide (v = 1)) as [Hv|Hv].
    + rewrite (bool_decide_eq_true_2 _ Hv).
      rewrite (bind_Ok _ _ _ _ _ (ret_Ok _ _)), IH.
      f_equal. unfold len. simpl. lia.
    + rewrite (bool_decide_eq_false_2 _ Hv).
      by rewrite (bind_Ok _ _ _ _ _ (ret_Ok _ _)), IH.
Qed.

Lemma count_rows_Ok h b g :
  rows_of h b g ->
  forall count w, heap w = h ->
    for_fold b count (fun count l =>
      row ← load_row l;
      for_fold row count (fun count cell =>
        if bool_decide (cell = 1) then ret (count + 1) else ret count)) w
    = Ok (count + live_total g) w.
Proof.
  unfold rows_of, live_total.
  induction 1 as [|l row b g Hl Hrows IH]; intros count w Hw.
  - rewrite for_fold_nil, ret_Ok. f_equal. unfold len. simpl. lia.
  - rewrite for_fold_cons.
    assert (Hload : load_row l w = Ok row w)
      by (apply load_row_Ok; by rewrite Hw).
    assert (Hrow : (row ← load_row l;
                    for_fold row count (fun count cell =>
                      if bool_decide (cell = 1) then ret (count + 1)
                      else ret count)) w
                   = Ok (count + len (filter (fun v => v = 1) row)) w).
    { rewrite (bind_Ok _ _ _ _ _ Hload). apply count_row_Ok. }
    rewrite (bind_Ok _ _ _ _ _ Hrow), (IH _ _ Hw).
    f_equal. simpl. rewrite list.filter_app. unfold len.
    rewrite length_app. lia.
Qed.

Lemma count_total_live_cells_Ok w b g :
  rows_of (heap w) b g ->
  count_total_live_cells b w = Ok (live_total g) w.
Proof.
  intros Hrows. unfold count_total_live_cells.
  by rewrite (count_rows_Ok _ _ _ Hrows 0 w eq_refl).
Qed.

(** X1: whatever rows a board has, of equal lengths or not, and also when it
    has none, [count_total_live_cells] returns the number of its cells that
    hold 1 and changes nothing. *)
Theorem count_total_live_cells_counts w b g :
  rows_of (heap w) b g ->
  count_total_live_cells b w = Ok (live_total g) w
  /\ 0 <= live_total g <= len (concat g).
Proof.
  intros Hrows. split; [by apply count_total_live_cells_Ok|].
  unfold live_total, len. split; [lia|].
  apply inj_le, length_filter.
Qed.

Lemma count_total_live_cells_counts_witness :
  count_total_live_cells mixed_board mixed_world
  = Ok (live_total mixed_grid) mixed_world
  /\ 0 <= live_total mixed_grid <= len (concat mixed_grid).
Proof.
  apply (count_total_live_cells_counts mixed_world mixed_board mixed_grid).
  repeat constructor.
Defined.

(** ** More on the neighbours and on one generation *)

Lemma indicator_iff (P Q : Prop) `{Decision P} `{Decision Q} :
  (P <-> Q) -> indicator P = indicator Q.
Proof.
  intros HPQ. unfold indicator.
  destruct (decide P), (decide Q); tauto.
Qed.

Lemma indicator_bounds (P : Prop) `{Decision P} : 0 <= indicator P <= 1.
Proof. unfold indicator. destruct (decide P); lia. Qed.

Lemma live_neighbor_count_bounds g r c : 0 <= live_neighbor_count g r c <= 8.
Proof.
  unfold live_neighbor_count, len. split; [lia|].
  change 8 with (Z.of_nat (length neighbor_offsets)).
  apply inj_le, length_filter.
Qed.

Lemma live_in_grid_agree g1 g2 (R C : Z) :
  length g1 = length g2 -> width g1 = width g2 ->
  (0 <= R -> 0 <= C ->
   cell g1 (Z.to_nat R) (Z.to_nat C) = cell g2 (Z.to_nat R) (Z.to_nat C)) ->
  live_in_grid g1 R C <-> live_in_grid g2 R C.
Proof.
  intros Hlen Hwid Hcell. unfold live_in_grid, len. rewrite Hlen, Hwid.
  split; intros (HR & HC & Hlive); (split; [done|split; [done|]]).
  - rewrite <- Hcell; [done|lia|lia].
  - rewrite Hcell; [done|lia|lia].
Qed.

Lemma live_neighbor_count_agree g1 g2 (r c : nat) :
  length g1 = length g2 -> width g1 = width g2 ->
  (forall r' c' : nat,
     (r', c') <> (r, c) ->
     (r' <= r + 1)%nat -> (r <= r' + 1)%nat ->
     (c' <= c + 1)%nat -> (c <= c' + 1)%nat ->
     cell g1 r' c' = cell g2 r' c') ->
  live_neighbor_count g1 (Z.of_nat r) (Z.of_nat c)
  = live_neighbor_count g2 (Z.of_nat r) (Z.of_nat c).
Proof.
  intros Hlen Hwid Hagree. unfold live_neighbor_count.
  rewrite !len_filter_indicator. unfold neighbor_offsets.
  cbn [foldr fst snd].
  repeat (f_equal;
          [apply indicator_iff, live_in_grid_agree; [done|done|];
           intros HR HC; apply Hagree; [intros [= ? ?]; lia|lia..]|]).
  f_equal. apply indicator_iff, live_in_grid_agree; [done|done|].
  intros HR HC. apply Hagree; [intros [= ? ?]; lia|lia..].
Qed.

(** X2: on every grid and for every position, inside the grid or not,
    [count_live_neighbors] returns a number from 0 to 8 and changes
    nothing. *)
Theorem count_live_neighbors_range w b g (r c : Z) :
  is_grid w b g ->
  exists n, count_live_neighbors b r c w = Ok n w /\ 0 <= n <= 8.
Proof.
  intros Hgrid. exists (live_neighbor_count g r c).
  split; [by apply count_live_neighbors_Ok|apply live_neighbor_count_bounds].
Qed.

Lemma count_live_neighbors_range_witness :
  exists n,
    count_live_neighbors mixed_board 0 1 mixed_world = Ok n mixed_world
    /\ 0 <= n <= 8.
Proof.
  apply (count_live_neighbors_range mixed_world mixed_board mixed_grid 0 1).
  concrete_grid.
Defined.

(** X3: one generation is local, and a cell is not its own neighbour.  When
    two grids of the same height and width hold the same values in the cells
    next to [(r, c)], [count_live_neighbors] returns the same number at
    [(r, c)] on both, whatever [(r, c)] itself holds; when they also hold the
    same value at [(r, c)], the two boards [next_board_state] returns hold
    the same value there. *)
Theorem next_board_state_local w1 b1 g1 w2 b2 g2 (r c : nat) :
  is_grid w1 b1 g1 -> is_grid w2 b2 g2 ->
  length g1 = length g2 -> width g1 = width g2 ->
  (forall r' c' : nat,
     (r', c') <> (r, c) ->
     (r' <= r + 1)%nat -> (r <= r' + 1)%nat ->
     (c' <= c + 1)%nat -> (c <= c' + 1)%nat ->
     cell g1 r' c' = cell g2 r' c') ->
  (exists n,
     count_live_neighbors b1 (Z.of_nat r) (Z.of_nat c) w1 = Ok n w1
     /\ count_live_neighbors b2 (Z.of_nat r) (Z.of_nat c) w2 = Ok n w2)
  /\ exists b1' w1' g1' b2' w2' g2',
       next_board_state b1 w1 = Ok b1' w1'
       /\ rows_of (heap w1') b1' g1'
       /\ next_board_state b2 w2 = Ok b2' w2'
       /\ rows_of (heap w2') b2' g2'
       /\ (cell g1 r c = cell g2 r c -> cell g1' r c = cell g2' r c).
Proof.
  intros Hgrid1 Hgrid2 Hlen Hwid Hagree.
  pose proof (live_neighbor_count_agree g1 g2 r c Hlen Hwid Hagree) as Hcount.
  split.
  - exists (live_neighbor_count g1 (Z.of_nat r) (Z.of_nat c)). split.
    + by apply count_live_neighbors_Ok.
    + rewrite Hcount. by apply count_live_neighbors_Ok.
  - destruct (next_board_state_Ok w1 b1 g1 Hgrid1)
      as (b1' & h1' & Hrun1 & _ & _ & _ & Hrows1).
    destruct (next_board_state_Ok w2 b2 g2 Hgrid2)
      as (b2' & h2' & Hrun2 & _ & _ & _ & Hrows2).
    exists b1', (set_heap h1' w1), (next_grid g1),
           b2', (set_heap h2' w2), (next_grid g2).
    split; [done|]. split; [done|]. split; [done|]. split; [done|].
    intros Hcell. by rewrite !cell_next_grid, Hcount, Hcell.
Qed.

Lemma next_board_state_local_witness :
  (exists n,
     count_live_neighbors corner_board (Z.of_nat 0) (Z.of_nat 0) corner_world
     = Ok n corner_world
     /\ count_live_neighbors corner_board (Z.of_nat 0) (Z.of_nat 0) dead_world
        = Ok n dead_world)
  /\ exists b1' w1' g1' b2' w2' g2',
       next_board_state corner_board corner_world = Ok b1' w1'
       /\ rows_of (heap w1') b1' g1'
       /\ next_board_state corner_board dead_world = Ok b2' w2'
       /\ rows_of (heap w2') b2' g2'
       /\ (cell corner_grid 0 0 = cell dead_grid 0 0 ->
           cell g1' 0 0 = cell g2' 0 0).
Proof.
  apply (next_board_state_local corner_world corner_board corner_grid
           dead_world corner_board dead_grid 0 0).
  - concrete_grid.
  - concrete_grid.
  - reflexivity.
  - reflexivity.
  - intros r' c' Hne Hr1 Hr2 Hc1 Hc2.
    assert (Hr : r' = 0%nat \/ r' = 1%nat) by lia.
    assert (Hc : c' = 0%nat \/ c' = 1%nat) by lia.
    destruct Hr as [-> | ->], Hc as [-> | ->]; (reflexivity || done).
Defined.

(** X4: a grid without a live cell has none in the next generation either:
    when no cell of the board holds 1, every cell of the board
    [next_board_state] returns holds 0. *)
Theorem next_board_state_no_birth w b g :
  is_grid w b g ->
  (forall r c, cell g r c <> Some 1) ->
  exists b' w',
    next_board_state b w = Ok b' w'
    /\ rows_of (heap w') b'
         (replicate (length g) (replicate (width g) 0)).
Proof.
  intros Hgrid Hdead. pose proof Hgrid as (_ & _ & Hrect).
  destruct (next_board_state_Ok w b g Hgrid)
    as (b' & h' & Hrun & _ & _ & _ & Hrows').
  exists b', (set_heap h' w). split; [done|].
  replace (replicate (length g) (replicate (width g) 0)) with (next_grid g);
    [done|].
  apply grid_ext with (width g).
  - by rewrite length_next_grid, length_replicate.
  - by apply rows_next_grid.
  - apply Forall_replicate. by rewrite length_replicate.
  - intros r c Hr Hc. rewrite length_next_grid in Hr.
    rewrite cell_replicate by done. rewrite cell_next_grid.
    destruct (cell_is_Some g r c Hrect Hr Hc) as [v Hv]. rewrite Hv.
    simpl. f_equal.
    assert (Hcount : live_neighbor_count g (Z.of_nat r) (Z.of_nat c) = 0).
    { unfold live_neighbor_count. rewrite filter_none; [done|].
      apply Forall_forall. intros [i j] _ (_ & _ & Hlive).
      by apply (Hdead _ _ Hlive). }
    rewrite Hcount. unfold life_rule.
    rewrite decide_False; [done|].
    intros ->. by apply (Hdead r c).
Qed.

Lemma next_board_state_no_birth_witness :
  exists b' w',
    next_board_state corner_board dead_world = Ok b' w'
    /\ rows_of (heap w') b'
         (replicate (length dead_grid) (replicate (width dead_grid) 0)).
Proof.
  apply (next_board_state_no_birth dead_world corner_board dead_grid).
  - concrete_grid.
  - intros r c.
    destruct r as [|[|r]], c as [|[|c]]; discriminate.
Defined.

(** X5: a board without rows has no first row to take the width from:
    [next_board_state], [count_live_neighbors] and [random_fill_board] raise
    [IndexError] on it and change nothing, whereas [count_total_live_cells]
    returns 0. *)
Theorem empty_board_raises w (r c : Z) (density : pyfloat) :
  next_board_state [] w = Raise IndexError w
  /\ count_live_neighbors [] r c w = Raise IndexError w
  /\ random_fill_board [] density w = Raise IndexError w
  /\ count_total_live_cells [] w = Ok 0 w.
Proof. repeat split. Qed.

(** ** Filling a board whose rows are distinct *)

Section fill_exact.
Variables (w : world) (b : list loc) (g : list (list Z)).
Variable density : pyfloat.
Hypothesis Hgrid : is_grid w b g.
Hypothesis Hnd : NoDup b.

Lemma fill_exact_cell_step k j w1 :
  (k < length g)%nat -> (j < width g)%nat ->
  fill_exact_inv w g b density k j w1 ->
  exists w2,
    (x ← random;
     if float_lt x density then set_cell b (Z.of_nat k) (Z.of_nat j) 1
     else set_cell b (Z.of_nat k) (Z.of_nat j) 0) w1 = Ok tt w2
    /\ fill_exact_inv w g b density k (S j) w2.
Proof.
  intros Hk Hj (h1 & acc & -> & Hrows & Hout & Hlens & Hcells).
  assert (Hk' : (k < length acc)%nat).
  { rewrite <- (rows_of_length _ _ _ Hrows).
    destruct Hgrid as (Hrowsg & _). by rewrite (rows_of_length _ _ _ Hrowsg). }
  destruct (lookup_lt_is_Some_2 acc k Hk') as [row Hrow].
  pose proof (Forall_lookup_1 _ _ _ _ Hlens Hrow) as Hrowlen.
  simpl in Hrowlen.
  destruct (rows_of_lookup _ _ _ _ _ Hrows Hrow) as (l & Hl & Hh).
  set (idx := (rng_idx w + k * width g + j)%nat).
  set (v := bit_of (float_lt (rng_seq w idx) density)).
  assert (Hrand : random (set_rng_idx idx (set_heap h1 w))
                  = Ok (rng_seq w idx)
                       (set_rng_idx (S idx) (set_heap h1 w)))
    by reflexivity.
  rewrite (bind_Ok _ _ _ _ _ Hrand).
  assert (Hset : forall x,
    set_cell b (Z.of_nat k) (Z.of_nat j) x
      (set_rng_idx (S idx) (set_heap h1 w))
    = Ok tt (set_rng_idx (S idx)
               (set_heap (<[l := <[j := x]> row]> h1) w))).
  { intros x. by rewrite (set_cell_Ok b k j l row) by (done || lia). }
  exists (set_rng_idx (S idx) (set_heap (<[l := <[j := v]> row]> h1) w)).
  split.
  { unfold v. destruct (float_lt (rng_seq w idx) density); apply Hset. }
  exists (<[l := <[j := v]> row]> h1), (<[k := <[j := v]> row]> acc).
  split; [|split; [|split; [|split]]].
  - unfold idx. f_equal. lia.
  - by eapply rows_of_insert.
  - intros l' Hl'. rewrite lookup_insert_ne; [by apply Hout|].
    intros <-. apply Hl'. by eapply list_elem_of_lookup_2.
  - apply Forall_insert; [done|]. by rewrite length_insert.
  - intros r c Hr Hc. rewrite cell_insert by (done || lia).
    destruct (decide (r = k /\ c = j)) as [[-> ->]|Hne].
    + rewrite decide_True by lia. done.
    + rewrite (Hcells r c Hr Hc).
      destruct (decide ((r < k)%nat \/ (r = k /\ (c < j)%nat)));
        [rewrite decide_True by lia|rewrite decide_False by lia]; done.
Qed.

Lemma fill_exact_row_step k w1 :
  (k < length g)%nat ->
  fill_exact_inv w g b density k O w1 ->
  exists w2,
    for_each (range (Z.of_nat (width g))) (fun c =>
      x ← random;
      if float_lt x density then set_cell b (Z.of_nat k) c 1
      else set_cell b (Z.of_nat k) c 0) w1 = Ok tt w2
    /\ fill_exact_inv w g b density (S k) O w2.
Proof.
  intros Hk Hinv.
  apply (for_range_post (fill_exact_inv w g b density k)); [done| |].
  { intros j w' Hj Hinv'. by apply fill_exact_cell_step. }
  intros w2 (h1 & acc & -> & Hrows & Hout & Hlens & Hcells).
  exists h1, acc. split; [f_equal; lia|].
  split; [done|]. split; [done|]. split; [done|].
  intros r c Hr Hc. rewrite (Hcells r c Hr Hc).
  destruct (decide ((r < k)%nat \/ (r = k /\ (c < width g)%nat)));
    [rewrite decide_True by lia|rewrite decide_False by lia]; done.
Qed.

Lemma cell_random_grid (rows cols r c : nat) :
  (r < rows)%nat -> (c < cols)%nat ->
  cell (random_grid w density rows cols) r c
  = Some (bit_of (float_lt (rng_seq w (rng_idx w + r * cols + c)%nat)
                    density)).
Proof.
  intros Hr Hc. unfold cell, random_grid.
  rewrite list_lookup_fmap, lookup_seq_lt by done. simpl.
  by rewrite list_lookup_fmap, lookup_seq_lt by done.
Qed.

Lemma random_fill_exact :
  exists h',
    random_fill_board b density w
    = Ok tt (set_rng_idx (rng_idx w + length g * width g)%nat
               (set_heap h' w))
    /\ rows_of h' b (random_grid w density (length g) (width g))
    /\ (forall l, l ∉ b -> h' !! l = heap w !! l).
Proof.
  pose proof Hgrid as (Hrowsg & Hne & Hrect).
  unfold random_fill_board.
  rewrite (bind_Ok _ _ _ _ _ (len_row0_Ok _ _ _ Hgrid)).
  unfold len. rewrite (rows_of_length _ _ _ Hrowsg).
  assert (Hinv0 : fill_exact_inv w g b density O O w).
  { exists (heap w), g. split; [|split; [done|split; [done|split; [done|]]]].
    - replace (rng_idx w + 0 * width g + 0)%nat with (rng_idx w) by lia.
      by destruct w.
    - intros r c Hr Hc. by rewrite decide_False by lia. }
  destruct (for_range_inv (fun k => fill_exact_inv w g b density k O)
              (fun r =>
                 for_each (range (Z.of_nat (width g))) (fun c =>
                   x ← random;
                   if float_lt x density then set_cell b r c 1
                   else set_cell b r c 0))
              (length g) _ Hinv0) as (w' & Hrun & Hinv').
  { intros k w1 Hk Hinv1. by apply fill_exact_row_step. }
  destruct Hinv' as (h' & acc & -> & Hrows & Hout & Hlens & Hcells).
  exists h'. split.
  { rewrite Hrun. do 2 f_equal. lia. }
  split; [|done].
  replace (random_grid w density (length g) (width g)) with acc; [done|].
  assert (Hlenacc : length acc = length g).
  { by rewrite <- (rows_of_length _ _ _ Hrows), (rows_of_length _ _ _ Hrowsg). }
  apply grid_ext with (width g).
  - unfold random_grid. by rewrite length_fmap, length_seq.
  - done.
  - unfold random_grid. apply Forall_fmap, Forall_forall. intros r _.
    simpl. by rewrite length_fmap, length_seq.
  - intros r c Hr Hc. rewrite Hlenacc in Hr.
    rewrite (Hcells r c Hr Hc), decide_True by lia.
    by rewrite cell_random_grid.
Qed.
End fill_exact.

(** X6: on a grid whose rows are distinct objects, [random_fill_board]
    draws one value for each cell, row after row, [rows * cols] values in
    all, and leaves 1 in a cell when the value drawn for it is below the
    density and 0 otherwise; it changes no row outside the board, no file
    and prints nothing. *)
Theorem random_fill_board_draws w b g density :
  is_grid w b g -> NoDup b ->
  exists w',
    random_fill_board b density w = Ok tt w'
    /\ rows_of (heap w') b (random_grid w density (length g) (width g))
    /\ (forall r c, (r < length g)%nat -> (c < width g)%nat ->
          cell (random_grid w density (length g) (width g)) r c
          = Some (if float_lt (rng_seq w (rng_idx w + r * width g + c)%nat)
                       density
                  then 1 else 0))
    /\ rng_idx w' = (rng_idx w + length g * width g)%nat
    /\ (forall l, l ∉ b -> heap w' !! l = heap w !! l)
    /\ files w' = files w
    /\ stdout w' = stdout w.
Proof.
  intros Hgrid Hnd.
  destruct (random_fill_exact w b g density Hgrid Hnd)
    as (h' & Hrun & Hrows & Hout).
  eexists. split; [exact Hrun|]. split; [done|]. split; [|done].
  intros r c Hr Hc. by rewrite cell_random_grid.
Qed.

Lemma random_fill_board_draws_witness :
  exists w',
    random_fill_board mixed_board default_density mixed_world = Ok tt w'
    /\ rows_of (heap w') mixed_board
         (random_grid mixed_world default_density
            (length mixed_grid) (width mixed_grid))
    /\ (forall r c,
          (r < length mixed_grid)%nat -> (c < width mixed_grid)%nat ->
          cell (random_grid mixed_world default_density
                  (length mixed_grid) (width mixed_grid)) r c
          = Some (if float_lt
                       (rng_seq mixed_world
                          (rng_idx mixed_world + r * width mixed_grid + c)%nat)
                       default_density
                  then 1 else 0))
    /\ rng_idx w'
       = (rng_idx mixed_world + length mixed_grid * width mixed_grid)%nat
    /\ (forall l, l ∉ mixed_board -> heap w' !! l = heap mixed_world !! l)
    /\ files w' = files mixed_world
    /\ stdout w' = stdout mixed_world.
Proof.
  apply (random_fill_board_draws mixed_world mixed_board mixed_grid
           default_density).
  - concrete_grid.
  - concrete_nodup.
Defined.

(** X7: a density that is no number, or an infinity, is not refused
    either: whatever values the random source returns, [random_fill_board]
    leaves every cell dead for a NaN or minus infinity and every cell alive
    for plus infinity. *)
Theorem random_fill_board_not_finite w b g :
  is_grid w b g ->
  (exists w',
     random_fill_board b NaN w = Ok tt w'
     /\ rows_of (heap w') b (replicate (length g) (replicate (width g) 0)))
  /\ (exists w',
        random_fill_board b NInf w = Ok tt w'
        /\ rows_of (heap w') b
             (replicate (length g) (replicate (width g) 0)))
  /\ (exists w',
        random_fill_board b PInf w = Ok tt w'
        /\ rows_of (heap w') b
             (replicate (length g) (replicate (width g) 1))).
Proof.
  intros Hgrid. split; [|split].
  - destruct (random_fill_const w b g NaN false Hgrid)
      as (h' & idx & Hrun & Hrows & _); [done|].
    by exists (set_rng_idx idx (set_heap h' w)).
  - destruct (random_fill_const w b g NInf false Hgrid)
      as (h' & idx & Hrun & Hrows & _); [done|].
    by exists (set_rng_idx idx (set_heap h' w)).
  - destruct (random_fill_const w b g PInf true Hgrid)
      as (h' & idx & Hrun & Hrows & _); [done|].
    by exists (set_rng_idx idx (set_heap h' w)).
Qed.

Lemma random_fill_board_not_finite_witness :
  (exists w',
     random_fill_board mixed_board NaN mixed_world = Ok tt w'
     /\ rows_of (heap w') mixed_board
          (replicate (length mixed_grid) (replicate (width mixed_grid) 0)))
  /\ (exists w',
        random_fill_board mixed_board NInf mixed_world = Ok tt w'
        /\ rows_of (heap w') mixed_board
             (replicate (length mixed_grid) (replicate (width mixed_grid) 0)))
  /\ (exists w',
        random_fill_board mixed_board PInf mixed_world = Ok tt w'
        /\ rows_of (heap w') mixed_board
             (replicate (length mixed_grid) (replicate (width mixed_grid) 1))).
Proof.
  apply (random_fill_board_not_finite mixed_world mixed_board mixed_grid).
  concrete_grid.
Defined.

(** ** The text a saved file holds *)

Lemma positions_S k cols :
  positions (S k) cols = positions k cols ++ (pair k <$> seq 0 cols).
Proof.
  unfold positions. rewrite seq_S, fmap_app, concat_app.
  cbn [fmap list_fmap concat]. by rewrite app_nil_r.
Qed.

Lemma elem_of_positions rows cols r c :
  (r, c) ∈ positions rows cols <-> (r < rows)%nat /\ (c < cols)%nat.
Proof.
  induction rows as [|k IH].
  - unfold positions. simpl. rewrite elem_of_nil. lia.
  - rewrite positions_S, elem_of_app, IH, list_elem_of_fmap.
    setoid_rewrite elem_of_seq. split.
    + intros [[Hr Hc]|(c' & [= -> ->] & Hc)]; lia.
    + intros [Hr Hc]. destruct (decide (r = k)) as [->|Hne].
      * right. exists c. split; [done|lia].
      * left. lia.
Qed.

Section save_exact.
Variables (w : world) (b : list loc) (g : list (list Z)) (f : str).
Hypothesis Hgrid : is_grid w b g.

Lemma save_exact_cell_step k j w1 :
  (k < length g)%nat -> (j < width g)%nat ->
  save_exact_inv w g f k j w1 ->
  exists w2,
    (v ← get_cell b (Z.of_nat k) (Z.of_nat j);
     if bool_decide (v = 1) then
       write f (str_of_int (Z.of_nat j) ++ lit ","
                  ++ str_of_int (Z.of_nat k) ++ [LF])
     else ret tt) w1 = Ok tt w2
    /\ save_exact_inv w g f k (S j) w2.
Proof.
  intros Hk Hj ->. unfold save_exact_inv.
  destruct Hgrid as (Hrows & _ & Hrect).
  destruct (cell_is_Some g k j Hrect Hk Hj) as [v Hv].
  set (done_ := positions k (width g) ++ (pair k <$> seq 0 j)).
  assert (Hnext : positions k (width g) ++ (pair k <$> seq 0 (S j))
                  = done_ ++ [(k, j)]).
  { rewrite seq_S, fmap_app, app_assoc. done. }
  rewrite Hnext, filter_snoc.
  assert (Hget : get_cell b (Z.of_nat k) (Z.of_nat j)
                   (set_files
                      (<[f := header
                              ++ concat (entries (filter (is_live_at g) done_))]>
                         (files w)) w)
                 = Ok v (set_files
                           (<[f := header
                                   ++ concat
                                        (entries (filter (is_live_at g) done_))]>
                              (files w)) w))
    by (by apply (get_cell_Ok b g)).
  rewrite (bind_Ok _ _ _ _ _ Hget).
  destruct (decide (v = 1)) as [->|Hv1].
  - rewrite bool_decide_eq_true_2 by done.
    rewrite decide_True by done.
    eexists. split; [apply write_Ok|].
    rewrite concat_entries_snoc. unfold entry. by rewrite <- app_assoc.
  - rewrite bool_decide_eq_false_2 by done.
    rewrite decide_False, app_nil_r.
    + eexists. split; [apply ret_Ok|done].
    + unfold is_live_at. simpl. rewrite Hv. by intros [= ?].
Qed.

Lemma save_exact_row_step k w1 :
  (k < length g)%nat ->
  save_exact_inv w g f k O w1 ->
  exists w2,
    for_each (range (Z.of_nat (width g))) (fun c =>
      v ← get_cell b (Z.of_nat k) c;
      if bool_decide (v = 1) then
        write f (str_of_int c ++ lit "," ++ str_of_int (Z.of_nat k) ++ [LF])
      else ret tt) w1 = Ok tt w2
    /\ save_exact_inv w g f (S k) O w2.
Proof.
  intros Hk Hinv.
  apply (for_range_post (save_exact_inv w g f k)); [done| |].
  { intros j w' Hj Hinv'. by apply save_exact_cell_step. }
  intros w2 ->. unfold save_exact_inv.
  rewrite positions_S. cbn [seq fmap list_fmap]. by rewrite app_nil_r.
Qed.

Lemma save_pattern_exact :
  dirname f <> [] ->
  save_pattern b f w
  = Ok tt (set_stdout (stdout w ++ [saved_message f])
             (set_files (<[f := saved_text g]> (files w)) w)).
Proof.
  intros Hdir. pose proof Hgrid as (Hrows & Hne & Hrect).
  unfold save_pattern.
  assert (Hmk : makedirs (dirname f) w = Ok tt w) by (by destruct (dirname f)).
  rewrite (bind_Ok _ _ _ _ _ Hmk).
  set (w0 := set_files (<[f := header]> (files w)) w).
  assert (Hopen : open_w f w = Ok tt (set_files (<[f := []]> (files w)) w))
    by reflexivity.
  rewrite (bind_Ok _ _ _ _ _ Hopen).
  assert (Hwrite : write f header (set_files (<[f := []]> (files w)) w)
                   = Ok tt w0) by apply write_Ok.
  rewrite (bind_Ok _ _ _ _ _ Hwrite).
  assert (Hgrid0 : is_grid w0 b g) by done.
  assert (Hinv0 : save_exact_inv w g f O O w0).
  { unfold save_exact_inv, w0. cbn [positions seq fmap list_fmap concat app].
    rewrite filter_nil. cbn [entries fmap list_fmap concat].
    by rewrite app_nil_r. }
  assert (Hloops : exists w',
    (cols ← len_row0 b;
     for_each (range (len b)) (fun r =>
       for_each (range cols) (fun c =>
         v ← get_cell b r c;
         if bool_decide (v = 1) then
           write f (str_of_int c ++ lit "," ++ str_of_int r ++ [LF])
         else ret tt))) w0 = Ok tt w'
    /\ save_exact_inv w g f (length g) O w').
  { rewrite (bind_Ok _ _ _ _ _ (len_row0_Ok _ _ _ Hgrid0)).
    unfold len. rewrite (rows_of_length _ _ _ Hrows).
    apply (for_range_inv (fun k => save_exact_inv w g f k O)); [done|].
    intros k w1 Hk Hinv1. by apply save_exact_row_step. }
  destruct Hloops as (w' & Hrun & ->).
  rewrite (bind_Ok _ _ _ _ _ Hrun).
  cbn [seq fmap list_fmap]. rewrite app_nil_r. reflexivity.
Qed.
End save_exact.

Lemma filter_ext_elem {A} (P Q : A -> Prop)
    `{forall x, Decision (P x)} `{forall x, Decision (Q x)} (l : list A) :
  (forall x, x ∈ l -> (P x <-> Q x)) -> filter P l = filter Q l.
Proof.
  induction l as [|x l IH]; intros Hext; [done|].
  rewrite !filter_cons.
  assert (Hx : P x <-> Q x) by (apply Hext; by left).
  rewrite IH by (intros y Hy; apply Hext; by right).
  destruct (decide (P x)), (decide (Q x)); tauto.
Qed.

Lemma length_filter_row (row : list Z) :
  length (filter (fun c : nat => row !! c = Some 1) (seq 0 (length row)))
  = length (filter (fun v => v = 1) row).
Proof.
  induction row as [|v row IH] using rev_ind; [done|].
  rewrite length_app. simpl length. rewrite Nat.add_1_r, seq_S.
  rewrite !list.filter_app, !length_app. f_equal.
  - rewrite <- IH. f_equal. apply filter_ext_elem.
    intros c Hc%elem_of_seq. by rewrite lookup_app_l by lia.
  - simpl. rewrite !filter_cons, !filter_nil.
    rewrite list_lookup_middle by done.
    destruct (decide (v = 1)) as [->|Hv].
    + by rewrite decide_True.
    + rewrite decide_False; [done|]. by intros [= ?].
Qed.

Lemma length_filter_pair g r (l : list nat) :
  length (filter (is_live_at g) (pair r <$> l))
  = length (filter (fun c : nat => cell g r c = Some 1) l).
Proof.
  induction l as [|c l IH]; [done|].
  cbn [fmap list_fmap]. rewrite !filter_cons.
  change (is_live_at g (r, c)) with (cell g r c = Some 1).
  destruct (decide (cell g r c = Some 1)); simpl; by rewrite <- IH.
Qed.

Lemma length_filter_positions g cols :
  Forall (fun row => length row = cols) g ->
  length (filter (is_live_at g) (positions (length g) cols))
  = length (filter (fun v => v = 1) (concat g)).
Proof.
  induction g as [|row g IH] using rev_ind; intros Hlens; [done|].
  apply Forall_app in Hlens as [Hg Hrow].
  assert (Hrowlen : length row = cols) by (by inversion Hrow).
  rewrite length_app. simpl length. rewrite Nat.add_1_r, positions_S.
  rewrite concat_app, !list.filter_app, !length_app. f_equal.
  - rewrite <- (IH Hg). f_equal. apply filter_ext_elem.
    intros [r c] [Hr _]%elem_of_positions. unfold is_live_at, cell. simpl.
    by rewrite lookup_app_l.
  - rewrite length_filter_pair. simpl concat. rewrite app_nil_r.
    rewrite <- length_filter_row. rewrite Hrowlen. f_equal.
    apply filter_ext_elem.
    intros c _. unfold cell. by rewrite list_lookup_middle.
Qed.

Lemma length_live_coords g :
  rectangular g -> len (live_coords g) = live_total g.
Proof.
  intros Hrect. unfold live_coords, live_total, len.
  by rewrite length_filter_positions.
Qed.

Lemma elem_of_live_coords g r c :
  rectangular g -> (r, c) ∈ live_coords g <-> cell g r c = Some 1.
Proof.
  intros Hrect. unfold live_coords.
  rewrite list_elem_of_filter, elem_of_positions. unfold is_live_at. simpl.
  split; [by intros [? _]|]. intros Hc. split; [done|].
  by apply (cell_Some_lt g r c 1).
Qed.

Lemma dirname_head_no_slash (p : str) :
  Forall (fun c => is_slash c = false) p -> dirname_head p = [].
Proof.
  induction 1 as [|c p Hc Hp IH]; [done|].
  simpl. rewrite IH. unfold is_slash in Hc. by rewrite Hc.
Qed.

Lemma dirname_no_slash (p : str) :
  Forall (fun c => is_slash c = false) p -> dirname p = [].
Proof.
  intros Hp. unfold dirname. by rewrite dirname_head_no_slash.
Qed.

(** X8: when [save_pattern] returns on a grid, it has replaced whatever
    the file held by the header line followed by one line ["col,row"] for
    each live cell, in the order of the rows and, within a row, of the
    columns; it has printed that the pattern was saved and changed nothing
    else: no row, no other file.  (It does not return for every path: see
    X9.) *)
Theorem save_pattern_text w b g f w' :
  is_grid w b g ->
  save_pattern b f w = Ok tt w' ->
  files w' = <[f := saved_text g]> (files w)
  /\ readlines (saved_text g) = header :: entries (live_coords g)
  /\ (forall r c, (r, c) ∈ live_coords g <-> cell g r c = Some 1)
  /\ heap w' = heap w
  /\ rng_idx w' = rng_idx w
  /\ stdout w' = stdout w ++ [saved_message f].
Proof.
  intros Hgrid Hrun.
  assert (Hdir : dirname f <> []).
  { intros Hd. unfold save_pattern in Hrun. rewrite Hd in Hrun.
    discriminate Hrun. }
  rewrite (save_pattern_exact w b g f Hgrid Hdir) in Hrun.
  injection Hrun as <-.
  split; [done|]. split; [apply readlines_saved|]. split; [|done].
  intros r c. apply elem_of_live_coords. by destruct Hgrid as (_ & _ & ?).
Qed.

Lemma save_pattern_text_witness :
  let w' := set_stdout (stdout mixed_world ++ [saved_message example_path])
              (set_files (<[example_path := saved_text mixed_grid]>
                            (files mixed_world)) mixed_world) in
  save_pattern mixed_board example_path mixed_world = Ok tt w'
  /\ files w' = <[example_path := saved_text mixed_grid]> (files mixed_world)
  /\ readlines (saved_text mixed_grid)
     = header :: entries (live_coords mixed_grid)
  /\ (forall r c, (r, c) ∈ live_coords mixed_grid
                  <-> cell mixed_grid r c = Some 1)
  /\ heap w' = heap mixed_world
  /\ rng_idx w' = rng_idx mixed_world
  /\ stdout w' = stdout mixed_world ++ [saved_message example_path].
Proof.
  intros w'.
  assert (Hrun : save_pattern mixed_board example_path mixed_world = Ok tt w')
    by (vm_compute; reflexivity).
  split; [exact Hrun|].
  apply (save_pattern_text mixed_world mixed_board mixed_grid example_path w').
  - concrete_grid.
  - exact Hrun.
Defined.

(** X9: a file name without any ["/"] has an empty directory part, which
    [os.makedirs] refuses: [save_pattern] raises [FileNotFoundError] before
    it opens the file, so that nothing is written and nothing printed. *)
Theorem save_pattern_bare_name w b f :
  Forall (fun c => is_slash c = false) f ->
  save_pattern b f w = Raise FileNotFoundError w.
Proof.
  intros Hf. unfold save_pattern. by rewrite dirname_no_slash.
Qed.

Lemma save_pattern_bare_name_witness :
  save_pattern mixed_board (lit "glider.txt") mixed_world
  = Raise FileNotFoundError mixed_world.
Proof.
  apply (save_pattern_bare_name mixed_world mixed_board (lit "glider.txt")).
  repeat constructor.
Defined.

(** X10: on a board without rows [save_pattern] raises [IndexError] when it
    asks for the first row, after it has opened the file and written the
    header: the file is left holding the header alone, and nothing is
    printed. *)
Theorem save_pattern_empty_board w f :
  dirname f <> [] ->
  save_pattern [] f w
  = Raise IndexError (set_files (<[f := header]> (files w)) w).
Proof.
  intros Hdir. unfold save_pattern.
  assert (Hmk : makedirs (dirname f) w = Ok tt w) by (by destruct (dirname f)).
  rewrite (bind_Ok _ _ _ _ _ Hmk).
  assert (Hopen : open_w f w = Ok tt (set_files (<[f := []]> (files w)) w))
    by reflexivity.
  rewrite (bind_Ok _ _ _ _ _ Hopen).
  rewrite (bind_Ok _ _ _ _ _ (write_Ok f header [] (files w) w)).
  reflexivity.
Qed.

Lemma save_pattern_empty_board_witness :
  save_pattern [] example_path empty_world
  = Raise IndexError
      (set_files (<[example_path := header]> (files empty_world)) empty_world).
Proof.
  apply (save_pattern_empty_board empty_world example_path).
  vm_compute. discriminate.
Defined.

(** X11: the file [save_pattern] writes has as many coordinate lines as
    [count_total_live_cells] counts live cells in the board saved. *)
Theorem save_pattern_line_count w b g f :
  is_grid w b g -> dirname f <> [] ->
  exists n w' content lines,
    count_total_live_cells b w = Ok n w
    /\ save_pattern b f w = Ok tt w'
    /\ files w' !! f = Some content
    /\ readlines content = header :: lines
    /\ len lines = n.
Proof.
  intros Hgrid Hdir. pose proof Hgrid as (Hrows & _ & Hrect).
  exists (live_total g). eexists. exists (saved_text g), (entries (live_coords g)).
  split; [by apply count_total_live_cells_Ok|].
  split; [by apply save_pattern_exact|].
  split; [cbn [files set_stdout set_files]; by rewrite lookup_insert_eq|].
  split; [apply readlines_saved|].
  unfold entries, len. rewrite length_fmap. by apply length_live_coords.
Qed.

Lemma save_pattern_line_count_witness :
  exists n w' content lines,
    count_total_live_cells mixed_board mixed_world = Ok n mixed_world
    /\ save_pattern mixed_board example_path mixed_world = Ok tt w'
    /\ files w' !! example_path = Some content
    /\ readlines content = header :: lines
    /\ len lines = n.
Proof.
  apply (save_pattern_line_count mixed_world mixed_board mixed_grid
           example_path).
  - concrete_grid.
  - vm_compute. discriminate.
Defined.

(** ** More on loading *)

Lemma indicator_is_bit (P : Prop) `{Decision P} : is_bit (indicator P).
Proof. unfold indicator, is_bit. destruct (decide P); auto. Qed.

Lemma grid_bits_of_cells G H W (v : nat -> nat -> Z) :
  length G = H -> Forall (fun row => length row = W) G ->
  (forall r c, (r < H)%nat -> (c < W)%nat -> cell G r c = Some (v r c)) ->
  (forall r c, is_bit (v r c)) ->
  Forall (Forall is_bit) G.
Proof.
  intros HH HW Hcells Hbits.
  apply Forall_lookup. intros r row Hrow. apply Forall_lookup. intros c x Hx.
  assert (Hcell : cell G r c = Some x) by (unfold cell; by rewrite Hrow).
  destruct (cell_Some_lt _ _ _ _ _ _ HH HW Hcell) as [Hr Hc].
  rewrite (Hcells r c Hr Hc) in Hcell. injection Hcell as <-. apply Hbits.
Qed.

(** X12: the order of the lines of a pattern file, and how often a line
    occurs, make no difference: two files with the same lines, loaded for
    the same width and height, give the same grid. *)
Theorem load_pattern_order w1 f1 c1 w2 f2 c2 bw bh :
  files w1 !! f1 = Some c1 -> files w2 !! f2 = Some c2 ->
  (forall line, line ∈ readlines c1 <-> line ∈ readlines c2) ->
  exists b1 w1' b2 w2' G,
    load_pattern f1 bw bh w1 = Ok b1 w1'
    /\ rows_of (heap w1') b1 G
    /\ load_pattern f2 bw bh w2 = Ok b2 w2'
    /\ rows_of (heap w2') b2 G.
Proof.
  intros Hf1 Hf2 Hsame.
  destruct (load_pattern_found w1 f1 c1 bw bh Hf1)
    as (b1 & h1 & G1 & Hrun1 & _ & _ & _ & Hrows1 & HH1 & HW1 & Hcells1).
  destruct (load_pattern_found w2 f2 c2 bw bh Hf2)
    as (b2 & h2 & G2 & Hrun2 & _ & _ & _ & Hrows2 & HH2 & HW2 & Hcells2).
  assert (HG : G1 = G2).
  { apply grid_ext with (Z.to_nat bw); [congruence|done|done|].
    intros r c Hr Hc. rewrite HH1 in Hr.
    rewrite (Hcells1 r c Hr Hc), (Hcells2 r c Hr Hc). f_equal.
    apply indicator_iff. rewrite !Exists_exists.
    split; intros (line & Hin & Hname); exists line; (split; [|done]);
      apply list_elem_of_In, Hsame, list_elem_of_In, Hin. }
  subst G2. eexists b1, _, b2, _, G1.
  split; [exact Hrun1|]. split; [done|]. split; [exact Hrun2|]. done.
Qed.

Lemma load_pattern_order_witness :
  exists b1 w1' b2 w2' G,
    load_pattern (lit "a.txt") 2 2 shuffle_world = Ok b1 w1'
    /\ rows_of (heap w1') b1 G
    /\ load_pattern (lit "b.txt") 2 2 shuffle_world = Ok b2 w2'
    /\ rows_of (heap w2') b2 G.
Proof.
  apply (load_pattern_order
           shuffle_world (lit "a.txt")
           (lit "1,0" ++ [LF] ++ lit "0,1" ++ [LF])
           shuffle_world (lit "b.txt")
           (lit "0,1" ++ [LF] ++ lit "1,0" ++ [LF] ++ lit "1,0" ++ [LF])).
  - reflexivity.
  - reflexivity.
  - intros line.
    change (readlines (lit "1,0" ++ [LF] ++ lit "0,1" ++ [LF]))
      with [lit "1,0" ++ [LF]; lit "0,1" ++ [LF]].
    change (readlines
              (lit "0,1" ++ [LF] ++ lit "1,0" ++ [LF] ++ lit "1,0" ++ [LF]))
      with [lit "0,1" ++ [LF]; lit "1,0" ++ [LF]; lit "1,0" ++ [LF]].
    rewrite !elem_of_cons, !elem_of_nil. tauto.
Defined.

(** [load_pattern], whether the file exists or not. *)
Lemma load_pattern_any w f bw bh :
  exists b' w' G,
    load_pattern f bw bh w = Ok b' w'
    /\ rows_of (heap w') b' G
    /\ length G = Z.to_nat bh
    /\ Forall (fun row => length row = Z.to_nat bw) G
    /\ Forall (Forall is_bit) G
    /\ NoDup b'
    /\ (forall l, l ∈ b' -> l ∉ dom (heap w))
    /\ heap_kept (heap w) (heap w')
    /\ files w' = files w
    /\ rng_idx w' = rng_idx w.
Proof.
  destruct (files w !! f) as [content|] eqn:Hfile.
  - destruct (load_pattern_found w f content bw bh Hfile)
      as (b' & h' & G & Hrun & Hnd & Hnew & Hout & Hrows & HH & HW & Hcells).
    eexists b', _, G. split; [exact Hrun|].
    split; [done|]. split; [done|]. split; [done|]. split.
    { eapply grid_bits_of_cells; [exact HH|exact HW|exact Hcells|].
      intros r c. apply indicator_is_bit. }
    split; [done|]. split; [done|]. split; [|done].
    by eapply heap_kept_fresh.
  - destruct (load_pattern_missing w f bw bh Hfile)
      as (b' & h' & Hrun & Hnd & Hnew & Hkept & Hrows).
    eexists b', _, _. split; [exact Hrun|].
    split; [exact Hrows|]. split; [by rewrite length_replicate|].
    split; [apply Forall_replicate; by rewrite length_replicate|].
    split; [|done].
    apply Forall_replicate, Forall_replicate. by left.
Qed.

(** X13: whenever [load_pattern] returns, what it returns is a board of
    new rows, [board_height] of them of [board_width] cells each, every
    cell 0 or 1, and it has changed no row that existed and no file,
    whether there was a file at the path or not and whatever its lines
    were. *)
Theorem load_pattern_fresh_board w f bw bh b' w' :
  load_pattern f bw bh w = Ok b' w' ->
  exists G,
    rows_of (heap w') b' G
    /\ length G = Z.to_nat bh
    /\ Forall (fun row => length row = Z.to_nat bw) G
    /\ Forall (Forall is_bit) G
    /\ NoDup b'
    /\ (forall l, l ∈ b' -> l ∉ dom (heap w))
    /\ heap_kept (heap w) (heap w')
    /\ files w' = files w
    /\ rng_idx w' = rng_idx w.
Proof.
  intros Hrun.
  destruct (load_pattern_any w f bw bh) as (b0 & w0 & G & Hrun0 & HG).
  rewrite Hrun in Hrun0. injection Hrun0 as <- <-.
  by exists G.
Qed.

Lemma load_pattern_fresh_board_witness :
  exists b' w',
    load_pattern example_path 10 10 example_world = Ok b' w'
    /\ exists G,
         rows_of (heap w') b' G
         /\ length G = Z.to_nat 10
         /\ Forall (fun row => length row = Z.to_nat 10) G
         /\ Forall (Forall is_bit) G
         /\ NoDup b'
         /\ (forall l, l ∈ b' -> l ∉ dom (heap example_world))
         /\ heap_kept (heap example_world) (heap w')
         /\ files w' = files example_world
         /\ rng_idx w' = rng_idx example_world.
Proof.
  destruct (load_pattern example_path 10 10 example_world)
    as [b' w'|e w'] eqn:Hrun; [|vm_compute in Hrun; discriminate Hrun].
  exists b', w'. split; [reflexivity|].
  apply (load_pattern_fresh_board example_world example_path 10 10 b' w').
  exact Hrun.
Defined.

(** ** The game loop *)

Lemma dirname_head_slash q : dirname_head ("/"%char :: q) <> [].
Proof. simpl. by destruct (dirname_head q). Qed.

Lemma dirname_head_cons c p :
  dirname_head p <> [] -> dirname_head (c :: p) = c :: dirname_head p.
Proof. intros Hp. simpl. by destruct (dirname_head p). Qed.

Lemma dirname_head_cons_ne c p :
  dirname_head p <> [] -> dirname_head (c :: p) <> [].
Proof. intros Hp. by rewrite dirname_head_cons. Qed.

Lemma lstrip_with_snoc sp l c :
  sp c = false -> lstrip_with sp (l ++ [c]) <> [].
Proof.
  intros Hc. induction l as [|x l IH]; simpl.
  - by rewrite Hc.
  - by destruct (sp x).
Qed.

Lemma dirname_cons c p :
  is_slash c = false -> dirname_head p <> [] -> dirname (c :: p) <> [].
Proof.
  intros Hc Hp. unfold dirname. rewrite (dirname_head_cons c p Hp).
  cbn [forallb]. rewrite Hc. cbn [andb]. cbn [rev].
  intros Hnil. apply (f_equal (@length ascii)) in Hnil.
  rewrite length_rev in Hnil. apply length_zero_iff_nil in Hnil.
  by apply (lstrip_with_snoc is_slash (rev (dirname_head p)) c).
Qed.

Lemma dirname_save_name generation count :
  dirname (save_name generation count) <> [].
Proof.
  unfold save_name.
  change (lit "patterns/gen_" ++ str_of_int generation ++ lit "_cells_"
            ++ str_of_int count ++ lit ".txt")
    with ("p"%char :: lit "atterns"
            ++ "/"%char :: lit "gen_" ++ str_of_int generation
            ++ lit "_cells_" ++ str_of_int count ++ lit ".txt").
  apply dirname_cons; [done|].
  cbn [lit list_ascii_of_string app].
  do 7 apply dirname_head_cons_ne. apply dirname_head_slash.
Qed.

Lemma game_ok_grid bw bh w st :
  0 < bh -> game_ok bw bh w st ->
  exists g,
    is_grid w (board st) g
    /\ NoDup (board st)
    /\ length g = Z.to_nat bh
    /\ width g = Z.to_nat bw
    /\ Forall (Forall is_bit) g
    /\ 0 <= generation st.
Proof.
  intros Hbh (g & Hrows & Hnd & HH & HW & Hbits & Hgen).
  exists g. destruct g as [|row g]; [simpl in HH; lia|].
  assert (Hwid : width (row :: g) = Z.to_nat bw) by (by inversion HW).
  repeat split; try done. unfold rectangular. by rewrite Hwid.
Qed.

Lemma get_cell_Ok_Z b g (r c : Z) v w :
  rows_of (heap w) b g -> 0 <= r -> 0 <= c ->
  cell g (Z.to_nat r) (Z.to_nat c) = Some v ->
  get_cell b r c w = Ok v w.
Proof.
  intros Hrows Hr Hc Hv.
  rewrite <- (get_cell_Ok b g (Z.to_nat r) (Z.to_nat c) v w) by done.
  by rewrite !Z2Nat.id by done.
Qed.

Lemma draw_grid_Ok w b g : is_grid w b g -> draw_grid b w = Ok tt w.
Proof.
  intros Hgrid. pose proof Hgrid as (Hrows & _ & Hrect).
  unfold draw_grid.
  rewrite (bind_Ok _ _ _ _ _ (len_row0_Ok _ _ _ Hgrid)).
  unfold len. rewrite (rows_of_length _ _ _ Hrows).
  destruct (for_range_inv (fun _ w1 => w1 = w)
              (fun r =>
                 for_each (range (Z.of_nat (width g))) (fun c =>
                   v ← get_cell b r c; ret tt))
              (length g) w eq_refl) as (w' & Hrun & ->); [|done].
  intros k w1 Hk ->.
  apply (for_range_inv (fun _ w1 => w1 = w)); [done|].
  intros j w1 Hj ->. exists w. split; [|done].
  destruct (cell_is_Some g k j Hrect Hk Hj) as [v Hv].
  by rewrite (bind_Ok _ _ _ _ _ (get_cell_Ok _ _ _ _ _ _ Hrows Hv)).
Qed.

Lemma random_grid_shape w density rows cols :
  length (random_grid w density rows cols) = rows
  /\ Forall (fun row => length row = cols) (random_grid w density rows cols)
  /\ Forall (Forall is_bit) (random_grid w density rows cols).
Proof.
  unfold random_grid. split; [by rewrite length_fmap, length_seq|]. split.
  - apply Forall_fmap, Forall_forall. intros r _. simpl.
    by rewrite length_fmap, length_seq.
  - apply Forall_fmap, Forall_forall. intros r _. simpl.
    apply Forall_fmap, Forall_forall. intros c _. simpl.
    unfold bit_of, is_bit. destruct (float_lt _ _); auto.
Qed.

(** A left click below the panel, on a cell of the board. *)
Lemma click_Ok bw bh w st g (x y : Z) l rowl v :
  rows_of (heap w) (board st) g ->
  y > HUD_HEIGHT ->
  0 <= (y - HUD_HEIGHT) / CELL_SIZE < bh -> 0 <= x / CELL_SIZE < bw ->
  board st !! Z.to_nat ((y - HUD_HEIGHT) / CELL_SIZE) = Some l ->
  heap w !! l = Some rowl ->
  rowl !! Z.to_nat (x / CELL_SIZE) = Some v ->
  handle_event bw bh (MOUSEBUTTONDOWN 1 (x, y)) st w
  = Ok (Game (board st) (running st) true (generation st))
       (set_heap (<[l := <[Z.to_nat (x / CELL_SIZE) := 1 - v]> rowl]> (heap w))
          w).
Proof.
  intros Hrows Hy Hrow Hcol Hl Hh Hv. unfold handle_event.
  rewrite (bool_decide_eq_true_2 (1 = 1)) by done.
  rewrite (bool_decide_eq_true_2 _ Hy).
  cbv zeta.
  rewrite (bool_decide_eq_true_2 _ Hrow), (bool_decide_eq_true_2 _ Hcol).
  change (true && true) with true. cbv iota.
  set (row := (y - HUD_HEIGHT) / CELL_SIZE) in *.
  set (col := x / CELL_SIZE) in *.
  assert (Hget : get_cell (board st) row col w = Ok v w).
  { assert (Hg : g !! Z.to_nat row = Some rowl).
    { destruct (Forall2_lookup_l _ _ _ _ _ Hrows Hl) as (rowg & Hg & Hh').
      congruence. }
    apply (get_cell_Ok_Z (board st) g); [done|lia|lia|].
    unfold cell. by rewrite Hg. }
  rewrite (bind_Ok _ _ _ _ _ Hget).
  assert (Hset : set_cell (board st) row col (1 - v) w
                 = Ok tt (set_heap
                            (<[l := <[Z.to_nat col := 1 - v]> rowl]> (heap w))
                            w)).
  { apply set_cell_Ok_Z; [lia|lia|done|done|by eapply lookup_lt_Some]. }
  by rewrite (bind_Ok _ _ _ _ _ Hset).
Qed.

Lemma click_outside bw bh w st (button x y : Z) :
  button <> 1 \/ y <= HUD_HEIGHT
  \/ ~ (0 <= (y - HUD_HEIGHT) / CELL_SIZE < bh)
  \/ ~ (0 <= x / CELL_SIZE < bw) ->
  handle_event bw bh (MOUSEBUTTONDOWN button (x, y)) st w = Ok st w.
Proof.
  intros Hcase. unfold handle_event.
  destruct (decide (button = 1)) as [Hb|Hb];
    [rewrite (bool_decide_eq_true_2 _ Hb)
    |by rewrite (bool_decide_eq_false_2 _ Hb)].
  destruct (decide (y > HUD_HEIGHT)) as [Hy|Hy];
    [rewrite (bool_decide_eq_true_2 _ Hy)
    |by rewrite (bool_decide_eq_false_2 _ Hy)].
  cbv zeta.
  destruct (decide (0 <= (y - HUD_HEIGHT) / CELL_SIZE < bh)) as [Hr|Hr];
    [rewrite (bool_decide_eq_true_2 _ Hr)
    |by rewrite (bool_decide_eq_false_2 _ Hr)].
  destruct (decide (0 <= x / CELL_SIZE < bw)) as [Hc|Hc];
    [|by rewrite (bool_decide_eq_false_2 _ Hc)].
  exfalso. destruct Hcase as [?|[?|[?|?]]]; (done || lia).
Qed.

(** X14: a click that is not a left click, or at the height of the panel
    or above ([mouse_y <= 60], which takes in the first line of pixels of
    the first row of cells), or beside the board, changes nothing at all. *)
Theorem click_ignored bw bh w st (button x y : Z) :
  button <> 1 \/ y <= HUD_HEIGHT
  \/ ~ (0 <= (y - HUD_HEIGHT) / CELL_SIZE < bh)
  \/ ~ (0 <= x / CELL_SIZE < bw) ->
  handle_event bw bh (MOUSEBUTTONDOWN button (x, y)) st w = Ok st w.
Proof. apply click_outside. Qed.

Lemma click_ignored_witness :
  handle_event 2 2 (MOUSEBUTTONDOWN 1 (7, 60))
    (Game corner_board true false 3) corner_world
  = Ok (Game corner_board true false 3) corner_world.
Proof.
  apply (click_ignored 2 2 corner_world (Game corner_board true false 3) 1 7 60).
  right. left. unfold HUD_HEIGHT. lia.
Defined.

Lemma click_game bw bh w st (x y : Z) :
  game_ok bw bh w st ->
  y > HUD_HEIGHT ->
  0 <= (y - HUD_HEIGHT) / CELL_SIZE < bh -> 0 <= x / CELL_SIZE < bw ->
  exists g l rowl v,
    rows_of (heap w) (board st) g
    /\ g !! Z.to_nat ((y - HUD_HEIGHT) / CELL_SIZE) = Some rowl
    /\ rowl !! Z.to_nat (x / CELL_SIZE) = Some v
    /\ board st !! Z.to_nat ((y - HUD_HEIGHT) / CELL_SIZE) = Some l
    /\ heap w !! l = Some rowl
    /\ handle_event bw bh (MOUSEBUTTONDOWN 1 (x, y)) st w
       = Ok (Game (board st) (running st) true (generation st))
            (set_heap
               (<[l := <[Z.to_nat (x / CELL_SIZE) := 1 - v]> rowl]> (heap w))
               w)
    /\ rows_of (<[l := <[Z.to_nat (x / CELL_SIZE) := 1 - v]> rowl]> (heap w))
         (board st)
         (<[Z.to_nat ((y - HUD_HEIGHT) / CELL_SIZE)
            := <[Z.to_nat (x / CELL_SIZE) := 1 - v]> rowl]> g)
    /\ game_ok bw bh
         (set_heap
            (<[l := <[Z.to_nat (x / CELL_SIZE) := 1 - v]> rowl]> (heap w)) w)
         (Game (board st) (running st) true (generation st)).
Proof.
  intros (g & Hrows & Hnd & HH & HW & Hbits & Hgen) Hy Hrow Hcol.
  set (row := (y - HUD_HEIGHT) / CELL_SIZE) in *.
  set (col := x / CELL_SIZE) in *.
  assert (Hr : (Z.to_nat row < length g)%nat) by lia.
  destruct (lookup_lt_is_Some_2 g _ Hr) as [rowl Hrowl].
  pose proof (Forall_lookup_1 _ _ _ _ HW Hrowl) as Hlen. simpl in Hlen.
  assert (Hc : (Z.to_nat col < length rowl)%nat) by lia.
  destruct (lookup_lt_is_Some_2 rowl _ Hc) as [v Hv].
  destruct (rows_of_lookup _ _ _ _ _ Hrows Hrowl) as (l & Hl & Hh).
  assert (Hv_bit : is_bit v).
  { pose proof (Forall_lookup_1 _ _ _ _ Hbits Hrowl) as Hrowbits.
    by apply (Forall_lookup_1 _ _ _ _ Hrowbits Hv). }
  assert (Hrows' : rows_of (<[l := <[Z.to_nat col := 1 - v]> rowl]> (heap w))
                     (board st)
                     (<[Z.to_nat row := <[Z.to_nat col := 1 - v]> rowl]> g))
    by (by eapply rows_of_insert).
  exists g, l, rowl, v.
  split; [done|]. split; [done|]. split; [done|]. split; [done|].
  split; [done|]. split; [by eapply click_Ok|]. split; [done|].
  exists (<[Z.to_nat row := <[Z.to_nat col := 1 - v]> rowl]> g).
  split; [done|]. split; [done|]. split; [by rewrite length_insert|].
  split; [apply Forall_insert; [done|]; by rewrite length_insert|].
  split; [|done].
  apply Forall_insert; [done|]. apply Forall_insert.
  - by apply (Forall_lookup_1 _ _ _ _ Hbits Hrowl).
  - unfold is_bit in *. lia.
Qed.

(** X15: a left click below the panel, at a pixel of a cell of the board,
    turns that cell over, from 1 to 0 or from 0 to 1, leaves every other
    cell as it was, pauses the game and keeps the generation; the cell is
    the one of row [(mouse_y - 60) // 15] and column [mouse_x // 15]. *)
Theorem click_toggles bw bh w st (x y : Z) :
  game_ok bw bh w st ->
  y > HUD_HEIGHT ->
  0 <= (y - HUD_HEIGHT) / CELL_SIZE < bh -> 0 <= x / CELL_SIZE < bw ->
  exists w' g g',
    handle_event bw bh (MOUSEBUTTONDOWN 1 (x, y)) st w
    = Ok (Game (board st) (running st) true (generation st)) w'
    /\ rows_of (heap w) (board st) g
    /\ rows_of (heap w') (board st) g'
    /\ (forall r c,
          cell g' r c
          = if decide (r = Z.to_nat ((y - HUD_HEIGHT) / CELL_SIZE)
                       /\ c = Z.to_nat (x / CELL_SIZE))
            then (fun v => 1 - v) <$> cell g r c
            else cell g r c)
    /\ game_ok bw bh w' (Game (board st) (running st) true (generation st)).
Proof.
  intros Hok Hy Hrow Hcol.
  destruct (click_game bw bh w st x y Hok Hy Hrow Hcol)
    as (g & l & rowl & v & Hrows & Hg & Hv & Hl & Hh & Hrun & Hrows' & Hok').
  eexists _, g, _. split; [exact Hrun|]. split; [done|].
  split; [exact Hrows'|]. split; [|done].
  intros r c. rewrite cell_insert; [|done|by eapply lookup_lt_Some].
  destruct (decide (r = Z.to_nat ((y - HUD_HEIGHT) / CELL_SIZE)
                    /\ c = Z.to_nat (x / CELL_SIZE))) as [[-> ->]|Hne];
    [|done].
  unfold cell. by rewrite Hg; simpl; rewrite Hv.
Qed.

(** X16: the same click twice puts everything back: after the second click
    the world is the one before the first, the game only being paused. *)
Theorem click_twice bw bh w st (x y : Z) :
  game_ok bw bh w st ->
  y > HUD_HEIGHT ->
  0 <= (y - HUD_HEIGHT) / CELL_SIZE < bh -> 0 <= x / CELL_SIZE < bw ->
  exists st1 w1,
    handle_event bw bh (MOUSEBUTTONDOWN 1 (x, y)) st w = Ok st1 w1
    /\ handle_event bw bh (MOUSEBUTTONDOWN 1 (x, y)) st1 w1
       = Ok (Game (board st) (running st) true (generation st)) w.
Proof.
  intros Hok Hy Hrow Hcol.
  destruct (click_game bw bh w st x y Hok Hy Hrow Hcol)
    as (g & l & rowl & v & Hrows & Hg & Hv & Hl & Hh & Hrun & Hrows' & Hok').
  eexists _, _. split; [exact Hrun|].
  set (col := Z.to_nat (x / CELL_SIZE)) in *.
  erewrite (click_Ok bw bh _ _ _ x y l (<[col := 1 - v]> rowl) (1 - v));
    [|exact Hrows'|done|done|done|done| |].
  - cbn [board running generation heap set_heap].
    rewrite insert_insert_eq, list_insert_insert_eq.
    replace (1 - (1 - v)) with v by lia.
    rewrite (list_insert_id _ _ _ Hv), (insert_id _ _ _ Hh).
    by destruct w.
  - cbn [heap set_heap]. by rewrite lookup_insert_eq.
  - apply list_lookup_insert_eq. by eapply lookup_lt_Some.
Qed.

Lemma click_toggles_witness :
  exists w' g g',
    handle_event 2 2 (MOUSEBUTTONDOWN 1 (20, 61)) corner_game corner_world
    = Ok (Game (board corner_game) (running corner_game) true
            (generation corner_game)) w'
    /\ rows_of (heap corner_world) (board corner_game) g
    /\ rows_of (heap w') (board corner_game) g'
    /\ (forall r c,
          cell g' r c
          = if decide (r = Z.to_nat ((61 - HUD_HEIGHT) / CELL_SIZE)
                       /\ c = Z.to_nat (20 / CELL_SIZE))
            then (fun v => 1 - v) <$> cell g r c
            else cell g r c)
    /\ game_ok 2 2 w'
         (Game (board corner_game) (running corner_game) true
            (generation corner_game)).
Proof.
  apply (click_toggles 2 2 corner_world corner_game 20 61).
  - concrete_game corner_grid.
  - unfold HUD_HEIGHT. lia.
  - vm_compute. split; [discriminate|reflexivity].
  - vm_compute. split; [discriminate|reflexivity].
Defined.

Lemma click_twice_witness :
  exists st1 w1,
    handle_event 2 2 (MOUSEBUTTONDOWN 1 (20, 61)) corner_game corner_world
    = Ok st1 w1
    /\ handle_event 2 2 (MOUSEBUTTONDOWN 1 (20, 61)) st1 w1
       = Ok (Game (board corner_game) (running corner_game) true
               (generation corner_game)) corner_world.
Proof.
  apply (click_twice 2 2 corner_world corner_game 20 61).
  - concrete_game corner_grid.
  - unfold HUD_HEIGHT. lia.
  - vm_compute. split; [discriminate|reflexivity].
  - vm_compute. split; [discriminate|reflexivity].
Defined.

(** ** What the game loop keeps *)

Lemma game_ok_heap bw bh w w' b run1 run2 p1 p2 gen1 gen2 :
  heap w' = heap w -> 0 <= gen2 ->
  game_ok bw bh w (Game b run1 p1 gen1) ->
  game_ok bw bh w' (Game b run2 p2 gen2).
Proof.
  intros Hheap Hgen (g & Hrows & Hnd & HH & HW & Hbits & _).
  exists g. simpl in *. by rewrite Hheap.
Qed.

(** One generation from the state of the game. *)
Lemma step_game bw bh w st :
  0 < bh -> game_ok bw bh w st ->
  exists b' h' g,
    is_grid w (board st) g
    /\ next_board_state (board st) w = Ok b' (set_heap h' w)
    /\ rows_of h' b' (next_grid g)
    /\ forall run p,
         game_ok bw bh (set_heap h' w) (Game b' run p (generation st + 1)).
Proof.
  intros Hbh Hok.
  destruct (game_ok_grid bw bh w st Hbh Hok)
    as (g & Hgrid & Hnd & HH & HW & Hbits & Hgen).
  destruct (next_board_state_Ok w (board st) g Hgrid)
    as (b' & h' & Hrun & Hnd' & _ & _ & Hrows').
  exists b', h', g. split; [done|]. split; [done|]. split; [done|].
  intros run p. exists (next_grid g). simpl.
  split; [done|]. split; [done|]. split; [by rewrite length_next_grid|].
  split.
  { apply rows_next_grid. rewrite <- HW. by destruct Hgrid as (_ & _ & ?). }
  split; [apply next_grid_bits|lia].
Qed.

Lemma key_c_game bw bh w st :
  exists b' w',
    handle_event bw bh (KEYDOWN K_c) st w = Ok (Game b' (running st) true 0) w'
    /\ rows_of (heap w') b'
         (replicate (Z.to_nat bh) (replicate (Z.to_nat bw) 0))
    /\ game_ok bw bh w' (Game b' (running st) true 0).
Proof.
  destruct (create_board_Ok bw bh w)
    as (b' & h' & Hrun & Hnd & _ & _ & Hrows).
  exists b', (set_heap h' w). unfold handle_event.
  rewrite (bind_Ok _ _ _ _ _ Hrun). split; [done|]. split; [done|].
  exists (replicate (Z.to_nat bh) (replicate (Z.to_nat bw) 0)). simpl.
  split; [done|]. split; [done|]. split; [by rewrite length_replicate|].
  split; [apply Forall_replicate; by rewrite length_replicate|].
  split; [|done]. apply Forall_replicate, Forall_replicate. by left.
Qed.

Lemma key_r_game bw bh w st :
  0 < bh -> game_ok bw bh w st ->
  exists w',
    handle_event bw bh (KEYDOWN K_r) st w
    = Ok (Game (board st) (running st) true 0) w'
    /\ rows_of (heap w') (board st)
         (random_grid w default_density (Z.to_nat bh) (Z.to_nat bw))
    /\ game_ok bw bh w' (Game (board st) (running st) true 0).
Proof.
  intros Hbh Hok.
  destruct (game_ok_grid bw bh w st Hbh Hok)
    as (g & Hgrid & Hnd & HH & HW & Hbits & Hgen).
  destruct (random_fill_exact w (board st) g default_density Hgrid Hnd)
    as (h' & Hrun & Hrows & _).
  rewrite HH, HW in Hrows.
  eexists. unfold handle_event. rewrite (bind_Ok _ _ _ _ _ Hrun).
  split; [reflexivity|]. split; [done|].
  destruct (random_grid_shape w default_density (Z.to_nat bh) (Z.to_nat bw))
    as (Hlen & Hlens & Hbits').
  by exists (random_grid w default_density (Z.to_nat bh) (Z.to_nat bw)).
Qed.

Lemma key_s_game bw bh w st :
  0 < bh -> game_ok bw bh w st ->
  exists g,
    is_grid w (board st) g
    /\ handle_event bw bh (KEYDOWN K_s) st w
       = Ok st
           (set_stdout
              (stdout w
               ++ [saved_message (save_name (generation st) (live_total g))])
              (set_files
                 (<[save_name (generation st) (live_total g) := saved_text g]>
                    (files w)) w)).
Proof.
  intros Hbh Hok.
  destruct (game_ok_grid bw bh w st Hbh Hok)
    as (g & Hgrid & Hnd & HH & HW & Hbits & Hgen).
  exists g. split; [done|]. unfold handle_event.
  pose proof Hgrid as (Hrows & _).
  rewrite (bind_Ok _ _ _ _ _ (count_total_live_cells_Ok _ _ _ Hrows)).
  rewrite (bind_Ok _ _ _ _ _
             (save_pattern_exact w (board st) g _ Hgrid
                (dirname_save_name _ _))).
  reflexivity.
Qed.

Lemma key_l_game bw bh w st :
  0 < bh ->
  exists b' w' G,
    load_pattern load_name bw bh w = Ok b' w'
    /\ handle_event bw bh (KEYDOWN K_l) st w
       = Ok (Game b' (running st) true 0) w'
    /\ rows_of (heap w') b' G
    /\ game_ok bw bh w' (Game b' (running st) true 0).
Proof.
  intros Hbh.
  destruct (load_pattern_any w load_name bw bh)
    as (b' & w' & G & Hrun & Hrows & HH & HW & Hbits & Hnd & _).
  exists b', w', G. split; [done|]. unfold handle_event.
  rewrite (bind_Ok _ _ _ _ _ Hrun).
  assert (Htruthy : truthy b' = true).
  { destruct b' as [|l b']; [|done].
    apply rows_of_length in Hrows. simpl in Hrows. lia. }
  rewrite Htruthy. split; [done|]. split; [done|].
  by exists G.
Qed.

Lemma same_io_refl w : same_io w w.
Proof. by split. Qed.

Lemma same_io_heap h w : same_io w (set_heap h w).
Proof. by split. Qed.

Lemma same_io_trans w1 w2 w3 : same_io w1 w2 -> same_io w2 w3 -> same_io w1 w3.
Proof. intros [H1 H2] [H3 H4]. split; congruence. Qed.

Lemma handle_event_ok bw bh ev w st :
  0 < bh -> game_ok bw bh w st ->
  exists st' w',
    handle_event bw bh ev st w = Ok st' w' /\ game_ok bw bh w' st'
    /\ (no_file_key ev -> same_io w w').
Proof.
  intros Hbh Hok.
  assert (Hgen : 0 <= generation st) by (by destruct Hok as (? & ? & ? & ? & ? & ? & ?)).
  destruct ev as [|k|button [x y]|].
  - eexists _, w. split; [reflexivity|].
    split; [destruct st; by eapply game_ok_heap|intros _; apply same_io_refl].
  - destruct k.
    + eexists _, w. split; [reflexivity|].
      split; [destruct st; by eapply game_ok_heap|intros _; apply same_io_refl].
    + destruct (paused st) eqn:Hp.
      * destruct (step_game bw bh w st Hbh Hok)
          as (b' & h' & g & _ & Hrun & _ & Hok').
        eexists _, _. unfold handle_event. rewrite Hp.
        rewrite (bind_Ok _ _ _ _ _ Hrun). split; [reflexivity|].
        split; [apply Hok'|intros _; apply same_io_heap].
      * exists st, w. unfold handle_event. rewrite Hp.
        split; [done|]. split; [done|intros _; apply same_io_refl].
    + destruct (key_c_game bw bh w st) as (b' & w' & Hrun & _ & Hok').
      exists (Game b' (running st) true 0), w'.
      split; [done|]. split; [done|]. intros _.
      destruct (create_board_Ok bw bh w) as (b0 & h0 & Hrun0 & _).
      unfold handle_event in Hrun. rewrite (bind_Ok _ _ _ _ _ Hrun0) in Hrun.
      injection Hrun as _ <-. apply same_io_heap.
    + destruct (key_r_game bw bh w st Hbh Hok) as (w' & Hrun & _ & Hok').
      exists (Game (board st) (running st) true 0), w'.
      split; [done|]. split; [done|]. intros _.
      destruct (game_ok_grid bw bh w st Hbh Hok)
        as (g & Hgrid & Hnd & _).
      destruct (random_fill_exact w (board st) g default_density Hgrid Hnd)
        as (h' & Hrun0 & _).
      unfold handle_event in Hrun. rewrite (bind_Ok _ _ _ _ _ Hrun0) in Hrun.
      injection Hrun as <-. by split.
    + destruct (key_s_game bw bh w st Hbh Hok) as (g & _ & Hrun).
      eexists _, _. split; [exact Hrun|].
      split; [destruct st; by eapply game_ok_heap|].
      by intros [Hs _].
    + destruct (key_l_game bw bh w st Hbh) as (b' & w' & G & _ & Hrun & _ & Hok').
      eexists _, _. split; [exact Hrun|]. split; [done|]. by intros [_ Hl].
    + eexists _, w. split; [reflexivity|].
      split; [destruct st; by eapply game_ok_heap|intros _; apply same_io_refl].
    + exists st, w. split; [done|]. split; [done|intros _; apply same_io_refl].
  - destruct (decide (button = 1 /\ y > HUD_HEIGHT
                      /\ 0 <= (y - HUD_HEIGHT) / CELL_SIZE < bh
                      /\ 0 <= x / CELL_SIZE < bw))
      as [(-> & Hy & Hrow & Hcol)|Hnot].
    + destruct (click_game bw bh w st x y Hok Hy Hrow Hcol)
        as (g & l & rowl & v & _ & _ & _ & _ & _ & Hrun & _ & Hok').
      eexists _, _. split; [exact Hrun|]. split; [done|].
      intros _. apply same_io_heap.
    + exists st, w. split; [|split; [done|intros _; apply same_io_refl]].
      apply click_outside.
      destruct (decide (button = 1)); [|tauto].
      destruct (decide (y > HUD_HEIGHT)); [|right; left; lia].
      destruct (decide (0 <= (y - HUD_HEIGHT) / CELL_SIZE < bh)); [|tauto].
      destruct (decide (0 <= x / CELL_SIZE < bw)); tauto.
  - exists st, w. split; [done|]. split; [done|intros _; apply same_io_refl].
Qed.

Lemma events_ok bw bh (events : list event) :
  0 < bh ->
  forall w st, game_ok bw bh w st ->
  exists st' w',
    for_fold events st (fun st ev => handle_event bw bh ev st) w = Ok st' w'
    /\ game_ok bw bh w' st'
    /\ (Forall no_file_key events -> same_io w w').
Proof.
  intros Hbh. induction events as [|ev events IH]; intros w st Hok.
  - exists st, w. split; [done|]. split; [done|intros _; apply same_io_refl].
  - destruct (handle_event_ok bw bh ev w st Hbh Hok)
      as (st1 & w1 & Hrun & Hok1 & Hio1).
    destruct (IH w1 st1 Hok1) as (st' & w' & Hrun' & Hok' & Hio').
    exists st', w'. split; [|split; [done|]].
    + by rewrite for_fold_cons, (bind_Ok _ _ _ _ _ Hrun).
    + intros Hall. inversion Hall as [|? ? Hev Hevs]; subst.
      eapply same_io_trans; [by apply Hio1|by apply Hio'].
Qed.

Lemma frame_end_ok bw bh w st :
  0 < bh -> game_ok bw bh w st ->
  exists st' w',
    (st2 ← (if negb (paused st) then
              new ← next_board_state (board st);
              ret (Game new (running st) (paused st) (generation st + 1))
            else ret st);
     live_cells_count ← count_total_live_cells (board st2);
     draw_grid (board st2) ;;
     ret st2) w = Ok st' w'
    /\ game_ok bw bh w' st'
    /\ running st' = running st
    /\ paused st' = paused st
    /\ same_io w w'.
Proof.
  intros Hbh Hok.
  assert (Hrest : forall st2 w2, game_ok bw bh w2 st2 ->
    (live_cells_count ← count_total_live_cells (board st2);
     draw_grid (board st2) ;; ret st2) w2 = Ok st2 w2).
  { intros st2 w2 Hok2.
    destruct (game_ok_grid bw bh w2 st2 Hbh Hok2) as (g2 & Hgrid2 & _).
    pose proof Hgrid2 as (Hrows2 & _).
    rewrite (bind_Ok _ _ _ _ _ (count_total_live_cells_Ok _ _ _ Hrows2)).
    by rewrite (bind_Ok _ _ _ _ _ (draw_grid_Ok _ _ _ Hgrid2)). }
  destruct (paused st) eqn:Hp; simpl negb; cbv iota.
  - exists st, w. rewrite (bind_Ok _ _ _ _ _ (ret_Ok _ _)).
    rewrite Hrest by done. split; [done|]. split; [done|].
    split; [done|]. split; [done|apply same_io_refl].
  - destruct (step_game bw bh w st Hbh Hok)
      as (b' & h' & g & _ & Hrun & _ & Hok').
    eexists _, _.
    assert (Hstep : (new ← next_board_state (board st);
                     ret (Game new (running st) false (generation st + 1))) w
                    = Ok (Game b' (running st) false (generation st + 1))
                         (set_heap h' w))
      by (by rewrite (bind_Ok _ _ _ _ _ Hrun)).
    rewrite (bind_Ok _ _ _ _ _ Hstep).
    rewrite (Hrest _ _ (Hok' _ _)). split; [reflexivity|].
    split; [apply Hok'|]. split; [done|]. split; [done|apply same_io_heap].
Qed.

Lemma frame_ok bw bh events w st :
  0 < bh -> game_ok bw bh w st ->
  exists st' w',
    frame bw bh events st w = Ok st' w' /\ game_ok bw bh w' st'
    /\ (Forall no_file_key events -> same_io w w').
Proof.
  intros Hbh Hok. unfold frame.
  destruct (events_ok bw bh events Hbh w st Hok)
    as (st1 & w1 & Hrun & Hok1 & Hio1).
  rewrite (bind_Ok _ _ _ _ _ Hrun).
  destruct (frame_end_ok bw bh w1 st1 Hbh Hok1)
    as (st' & w' & Hend & Hok' & _ & _ & Hio').
  exists st', w'. split; [done|]. split; [done|].
  intros Hall. eapply same_io_trans; [by apply Hio1|done].
Qed.

Lemma main_loop_ok bw bh frames :
  0 < bh ->
  forall w st, game_ok bw bh w st ->
  exists st' w',
    main_loop bw bh frames st w = Ok st' w' /\ game_ok bw bh w' st'
    /\ (Forall (Forall no_file_key) frames -> same_io w w').
Proof.
  intros Hbh. induction frames as [|events frames IH]; intros w st Hok.
  - exists st, w. split; [done|]. split; [done|intros _; apply same_io_refl].
  - simpl. destruct (running st);
      [|exists st, w; split; [done|]; split; [done|intros _; apply same_io_refl]].
    destruct (frame_ok bw bh events w st Hbh Hok)
      as (st1 & w1 & Hrun & Hok1 & Hio1).
    rewrite (bind_Ok _ _ _ _ _ Hrun).
    destruct (IH w1 st1 Hok1) as (st' & w' & Hrun' & Hok' & Hio').
    exists st', w'. split; [done|]. split; [done|].
    intros Hall. inversion Hall as [|? ? Hev Hevs]; subst.
    eapply same_io_trans; [by apply Hio1|by apply Hio'].
Qed.

Lemma main_ok bw bh frames w :
  0 < bh ->
  exists st w',
    main bw bh frames w = Ok st w' /\ game_ok bw bh w' st
    /\ (Forall (Forall no_file_key) frames -> same_io w w').
Proof.
  intros Hbh. unfold main.
  destruct (create_board_Ok bw bh w)
    as (b' & h' & Hrun & Hnd & _ & _ & Hrows).
  rewrite (bind_Ok _ _ _ _ _ Hrun).
  destruct (main_loop_ok bw bh frames Hbh (set_heap h' w)
              (Game b' true true 0)) as (st & w' & Hloop & Hok & Hio).
  { exists (replicate (Z.to_nat bh) (replicate (Z.to_nat bw) 0)). simpl.
    split; [done|]. split; [done|]. split; [by rewrite length_replicate|].
    split; [apply Forall_replicate; by rewrite length_replicate|].
    split; [|done]. apply Forall_replicate, Forall_replicate. by left. }
  exists st, w'. split; [done|]. split; [done|].
  intros Hall. eapply same_io_trans; [apply same_io_heap|by apply Hio].
Qed.

(** X17: in the loop of [main], for a positive board height.  Whenever
    the loop ends without an exception, whatever the events were, the board
    is still made of [board_height] distinct rows of [board_width] cells
    that are 0 or 1, and the generation is not negative.  And when the keys
    S and L are not among the events, which are the two that reach for a
    file, the loop never raises: no click, key or generation finds the
    board in a state a function it calls cannot take; no file is changed
    and nothing is printed. *)
Theorem main_keeps_board bw bh (frames : list (list event)) w :
  0 < bh ->
  (forall st w', main bw bh frames w = Ok st w' -> game_ok bw bh w' st)
  /\ (Forall (Forall no_file_key) frames ->
      exists st w',
        main bw bh frames w = Ok st w'
        /\ game_ok bw bh w' st
        /\ files w' = files w
        /\ stdout w' = stdout w).
Proof.
  intros Hbh.
  destruct (main_ok bw bh frames w Hbh) as (st & w' & Hrun & Hok & Hio).
  split.
  - intros st0 w0 Hrun0. rewrite Hrun in Hrun0. by injection Hrun0 as <- <-.
  - intros Hall. exists st, w'. split; [done|]. split; [done|].
    by apply Hio.
Qed.

Lemma main_keeps_board_witness :
  exists st w',
    main 2 2
      [[KEYDOWN K_r; MOUSEBUTTONDOWN 1 (20, 61)];
       [KEYDOWN K_SPACE; KEYDOWN K_n];
       [KEYDOWN K_c; QUIT]] empty_world = Ok st w'
    /\ game_ok 2 2 w' st
    /\ files w' = files empty_world
    /\ stdout w' = stdout empty_world.
Proof.
  apply (main_keeps_board 2 2); [lia|].
  repeat constructor; discriminate.
Defined.

(** X18: a generation is computed by the key N only while the game is
    paused, and at the end of a frame only while it is not.  Either way the
    new board holds the grid of the rule for the old one and the generation
    goes up by one; otherwise the key N, or a frame without events, changes
    nothing. *)
Theorem generation_steps bw bh w st :
  0 < bh -> game_ok bw bh w st ->
  exists b' w' g,
    rows_of (heap w) (board st) g
    /\ rows_of (heap w') b' (next_grid g)
    /\ (if paused st then
          handle_event bw bh (KEYDOWN K_n) st w
          = Ok (Game b' (running st) true (generation st + 1)) w'
          /\ frame bw bh [] st w = Ok st w
        else
          handle_event bw bh (KEYDOWN K_n) st w = Ok st w
          /\ frame bw bh [] st w
             = Ok (Game b' (running st) false (generation st + 1)) w').
Proof.
  intros Hbh Hok.
  destruct (step_game bw bh w st Hbh Hok)
    as (b' & h' & g & Hgrid & Hrun & Hrows' & Hok').
  pose proof Hgrid as (Hrows & _).
  exists b', (set_heap h' w), g. split; [done|]. split; [done|].
  assert (Hrest : forall st2 w2, game_ok bw bh w2 st2 ->
    (live_cells_count ← count_total_live_cells (board st2);
     draw_grid (board st2) ;; ret st2) w2 = Ok st2 w2).
  { intros st2 w2 Hok2.
    destruct (game_ok_grid bw bh w2 st2 Hbh Hok2) as (g2 & Hgrid2 & _).
    pose proof Hgrid2 as (Hrows2 & _).
    rewrite (bind_Ok _ _ _ _ _ (count_total_live_cells_Ok _ _ _ Hrows2)).
    by rewrite (bind_Ok _ _ _ _ _ (draw_grid_Ok _ _ _ Hgrid2)). }
  unfold frame, handle_event. rewrite for_fold_nil.
  rewrite (bind_Ok _ _ _ _ _ (ret_Ok _ _)).
  destruct (paused st) eqn:Hp; simpl negb; cbv iota.
  - split.
    + by rewrite (bind_Ok _ _ _ _ _ Hrun).
    + rewrite (bind_Ok _ _ _ _ _ (ret_Ok _ _)). by apply Hrest.
  - split; [done|].
    assert (Hstep : (new ← next_board_state (board st);
                     ret (Game new (running st) false (generation st + 1))) w
                    = Ok (Game b' (running st) false (generation st + 1))
                         (set_heap h' w))
      by (by rewrite (bind_Ok _ _ _ _ _ Hrun)).
    rewrite (bind_Ok _ _ _ _ _ Hstep). apply Hrest, Hok'.
Qed.

Lemma generation_steps_witness :
  exists b' w' g,
    rows_of (heap corner_world) (board corner_game) g
    /\ rows_of (heap w') b' (next_grid g)
    /\ (if paused corner_game then
          handle_event 2 2 (KEYDOWN K_n) corner_game corner_world
          = Ok (Game b' (running corner_game) true
                  (generation corner_game + 1)) w'
          /\ frame 2 2 [] corner_game corner_world
             = Ok corner_game corner_world
        else
          handle_event 2 2 (KEYDOWN K_n) corner_game corner_world
          = Ok corner_game corner_world
          /\ frame 2 2 [] corner_game corner_world
             = Ok (Game b' (running corner_game) false
                     (generation corner_game + 1)) w').
Proof.
  apply (generation_steps 2 2 corner_world corner_game).
  - lia.
  - concrete_game corner_grid.
Defined.

(** X19: the key S never fails for want of a directory: the name it saves
    under, ["patterns/gen_<generation>_cells_<count>.txt"], has one.  The
    file then holds the header and as many coordinate lines as the count in
    its name, and the game goes on as it was. *)
Theorem save_key bw bh w st :
  0 < bh -> game_ok bw bh w st ->
  exists g w' lines,
    rows_of (heap w) (board st) g
    /\ handle_event bw bh (KEYDOWN K_s) st w = Ok st w'
    /\ files w'
       = <[save_name (generation st) (live_total g) := saved_text g]> (files w)
    /\ readlines (saved_text g) = header :: lines
    /\ len lines = live_total g
    /\ heap w' = heap w
    /\ stdout w'
       = stdout w
         ++ [saved_message (save_name (generation st) (live_total g))].
Proof.
  intros Hbh Hok.
  destruct (key_s_game bw bh w st Hbh Hok) as (g & Hgrid & Hrun).
  pose proof Hgrid as (Hrows & _ & Hrect).
  eexists g, _, (entries (live_coords g)).
  split; [done|]. split; [exact Hrun|]. split; [done|].
  split; [apply readlines_saved|]. split; [|done].
  unfold entries, len. rewrite length_fmap. by apply length_live_coords.
Qed.

Lemma save_key_witness :
  exists g w' lines,
    rows_of (heap corner_world) (board corner_game) g
    /\ handle_event 2 2 (KEYDOWN K_s) corner_game corner_world
       = Ok corner_game w'
    /\ files w'
       = <[save_name (generation corner_game) (live_total g) := saved_text g]>
           (files corner_world)
    /\ readlines (saved_text g) = header :: lines
    /\ len lines = live_total g
    /\ heap w' = heap corner_world
    /\ stdout w'
       = stdout corner_world
         ++ [saved_message
               (save_name (generation corner_game) (live_total g))].
Proof.
  apply (save_key 2 2 corner_world corner_game).
  - lia.
  - concrete_game corner_grid.
Defined.

(** X20: the key L replaces the board by the one [load_pattern] returns for
    ["patterns/glider.txt"], sets the generation to 0 and pauses.  When that
    file does not exist the board the game had is given up for an all-dead
    one, the message that the file was not found being printed. *)
Theorem load_key bw bh w st :
  0 < bh ->
  exists b' w' G,
    handle_event bw bh (KEYDOWN K_l) st w = Ok (Game b' (running st) true 0) w'
    /\ load_pattern load_name bw bh w = Ok b' w'
    /\ rows_of (heap w') b' G
    /\ (files w !! load_name = None ->
        G = replicate (Z.to_nat bh) (replicate (Z.to_nat bw) 0)
        /\ stdout w' = stdout w ++ [not_found_message load_name]).
Proof.
  intros Hbh.
  destruct (key_l_game bw bh w st Hbh) as (b' & w' & G & Hload & Hrun & Hrows & _).
  exists b', w', G. split; [done|]. split; [done|]. split; [done|].
  intros Hfile.
  destruct (load_pattern_missing w load_name bw bh Hfile)
    as (b2 & h2 & Hrun2 & _ & _ & _ & Hrows2).
  rewrite Hload in Hrun2. injection Hrun2 as -> ->.
  split; [by eapply rows_of_inj|done].
Qed.

Lemma load_key_witness :
  exists b' w' G,
    handle_event 2 2 (KEYDOWN K_l) corner_game corner_world
    = Ok (Game b' (running corner_game) true 0) w'
    /\ load_pattern load_name 2 2 corner_world = Ok b' w'
    /\ rows_of (heap w') b' G
    /\ (files corner_world !! load_name = None ->
        G = replicate (Z.to_nat 2) (replicate (Z.to_nat 2) 0)
        /\ stdout w' = stdout corner_world ++ [not_found_message load_name]).
Proof.
  apply (load_key 2 2 corner_world corner_game).
  lia.
Defined.

(** ** Patterns *)

Section patterns.
Variable P : Z -> Z -> Prop.
Context `{HP : forall r c, Decision (P r c)}.
Variable g : list (list Z).
Hypothesis Hrect : rectangular g.
Hypothesis Hshows : shows g P.
Hypothesis Hinside :
  forall r c, P r c -> 0 <= r < len g /\ 0 <= c < Z.of_nat (width g).

Lemma live_in_grid_shows (R C : Z) : live_in_grid g R C <-> P R C.
Proof.
  unfold live_in_grid. split.
  - intros (HR & HC & Hcell). unfold len in HR.
    rewrite Hshows in Hcell by lia. injection Hcell as Hind.
    rewrite !Z2Nat.id in Hind by lia.
    unfold indicator in Hind. by destruct (decide (P R C)).
  - intros HPRC. destruct (Hinside R C HPRC) as [HR HC].
    split; [done|]. split; [done|]. unfold len in HR.
    rewrite Hshows by lia. rewrite !Z2Nat.id by lia.
    unfold indicator. by rewrite decide_True.
Qed.

Lemma live_neighbor_count_shows (r c : Z) :
  live_neighbor_count g r c = neighbor_sum P r c.
Proof.
  unfold live_neighbor_count, neighbor_sum. rewrite len_filter_indicator.
  unfold neighbor_offsets. cbn [foldr fst snd].
  repeat (f_equal; [apply indicator_iff, live_in_grid_shows|]).
  f_equal. apply indicator_iff, live_in_grid_shows.
Qed.

Lemma next_grid_shows (Q : Z -> Z -> Prop) `{forall r c, Decision (Q r c)} :
  (forall r c, life_rule (indicator (P r c)) (neighbor_sum P r c)
               = indicator (Q r c)) ->
  shows (next_grid g) Q.
Proof.
  intros Hrule r c Hr Hc.
  rewrite length_next_grid in Hr. rewrite width_next_grid in Hc.
  rewrite cell_next_grid, (Hshows r c Hr Hc). simpl.
  by rewrite live_neighbor_count_shows, Hrule.
Qed.
End patterns.

Ltac pattern_cases :=
  unfold neighbor_sum, neighbor_offsets; cbn [foldr fst snd];
  unfold indicator;
  repeat match goal with
         | |- context [decide ?Q] => destruct (decide Q)
         end;
  unfold life_rule;
  repeat match goal with
         | |- context [decide ?Q] => destruct (decide Q)
         end;
  unfold in_block, in_row3, in_col3 in *; lia.

Lemma block_rule r0 c0 r c :
  life_rule (indicator (in_block r0 c0 r c))
            (neighbor_sum (in_block r0 c0) r c)
  = indicator (in_block r0 c0 r c).
Proof. pattern_cases. Qed.

Lemma row3_rule r0 c0 r c :
  life_rule (indicator (in_row3 r0 c0 r c))
            (neighbor_sum (in_row3 r0 c0) r c)
  = indicator (in_col3 r0 c0 r c).
Proof. pattern_cases. Qed.

Lemma col3_rule r0 c0 r c :
  life_rule (indicator (in_col3 r0 c0 r c))
            (neighbor_sum (in_col3 r0 c0) r c)
  = indicator (in_row3 r0 c0 r c).
Proof. pattern_cases. Qed.

Lemma shows_inj g1 g2 (P : Z -> Z -> Prop) `{forall r c, Decision (P r c)} :
  length g1 = length g2 -> width g1 = width g2 ->
  rectangular g1 -> rectangular g2 ->
  shows g1 P -> shows g2 P -> g1 = g2.
Proof.
  intros Hlen Hwid Hrect1 Hrect2 Hs1 Hs2.
  apply grid_ext with (width g1); [done|done|by rewrite Hwid|].
  intros r c Hr Hc. rewrite (Hs1 r c Hr Hc).
  rewrite Hs2; [done|by rewrite <- Hlen|by rewrite <- Hwid].
Qed.

Ltac concrete_shows :=
  let r := fresh "r" in
  let c := fresh "c" in
  let Hr := fresh "Hr" in
  let Hc := fresh "Hc" in
  intros r c Hr Hc; vm_compute in Hr; vm_compute in Hc;
  do 4 (destruct r as [|r]; [do 4 (destruct c as [|c]; [reflexivity|]); lia|]);
  lia.

(** X21: a block of two by two live cells in a grid that is otherwise dead
    is a still life, wherever it lies in the grid, at its edge too:
    [next_board_state] returns a board holding the same grid. *)
Theorem block_still_life w b g (r0 c0 : Z) :
  is_grid w b g ->
  shows g (in_block r0 c0) ->
  0 <= r0 -> r0 + 1 < len g -> 0 <= c0 -> c0 + 1 < Z.of_nat (width g) ->
  exists b' w', next_board_state b w = Ok b' w' /\ rows_of (heap w') b' g.
Proof.
  intros Hgrid Hshows Hr0 Hr1 Hc0 Hc1. pose proof Hgrid as (_ & _ & Hrect).
  destruct (next_board_state_Ok w b g Hgrid)
    as (b' & h' & Hrun & _ & _ & _ & Hrows').
  exists b', (set_heap h' w). split; [done|].
  assert (Heq : next_grid g = g).
  { apply (shows_inj _ _ (in_block r0 c0)).
    - apply length_next_grid.
    - apply width_next_grid.
    - by apply rectangular_next_grid.
    - done.
    - apply (next_grid_shows (in_block r0 c0) g Hshows).
      + unfold in_block. lia.
      + apply block_rule.
    - done. }
  by rewrite Heq in Hrows'.
Qed.

Lemma block_still_life_witness :
  exists b' w',
    next_board_state pattern_board (world_of block_grid) = Ok b' w'
    /\ rows_of (heap w') b' block_grid.
Proof.
  apply (block_still_life (world_of block_grid) pattern_board block_grid 1 1).
  - concrete_grid.
  - concrete_shows.
  - lia.
  - vm_compute. reflexivity.
  - lia.
  - vm_compute. reflexivity.
Defined.

(** X22: three live cells in a row, in a grid that is otherwise dead and
    leaves a row free above and below them, become three live cells in a
    column around the same middle cell in the next generation, and the row
    they were in the generation after that. *)
Theorem blinker_oscillates w b g (r0 c0 : Z) :
  is_grid w b g ->
  shows g (in_row3 r0 c0) ->
  1 <= r0 -> r0 + 1 < len g -> 1 <= c0 -> c0 + 1 < Z.of_nat (width g) ->
  exists b1 w1 g1 b2 w2,
    next_board_state b w = Ok b1 w1
    /\ rows_of (heap w1) b1 g1
    /\ shows g1 (in_col3 r0 c0)
    /\ next_board_state b1 w1 = Ok b2 w2
    /\ rows_of (heap w2) b2 g.
Proof.
  intros Hgrid Hshows Hr0 Hr1 Hc0 Hc1. pose proof Hgrid as (_ & _ & Hrect).
  destruct (next_board_state_Ok w b g Hgrid)
    as (b1 & h1 & Hrun1 & _ & _ & _ & Hrows1).
  assert (Hshows1 : shows (next_grid g) (in_col3 r0 c0)).
  { apply (next_grid_shows (in_row3 r0 c0) g Hshows).
    - unfold in_row3. lia.
    - apply row3_rule. }
  assert (Hgrid1 : is_grid (set_heap h1 w) b1 (next_grid g))
    by (by eapply is_grid_next).
  destruct (next_board_state_Ok _ b1 _ Hgrid1)
    as (b2 & h2 & Hrun2 & _ & _ & _ & Hrows2).
  exists b1, (set_heap h1 w), (next_grid g), b2, (set_heap h2 (set_heap h1 w)).
  split; [done|]. split; [done|]. split; [done|]. split; [done|].
  assert (Heq : next_grid (next_grid g) = g).
  { apply (shows_inj _ _ (in_row3 r0 c0)).
    - by rewrite !length_next_grid.
    - by rewrite !width_next_grid.
    - by apply rectangular_next_grid, rectangular_next_grid.
    - done.
    - apply (next_grid_shows (in_col3 r0 c0) (next_grid g) Hshows1).
      + unfold in_col3, len. rewrite length_next_grid, width_next_grid.
        unfold len in Hr1. lia.
      + apply col3_rule.
    - done. }
  by rewrite Heq in Hrows2.
Qed.

Lemma blinker_oscillates_witness :
  exists b1 w1 g1 b2 w2,
    next_board_state pattern_board (world_of blinker_grid) = Ok b1 w1
    /\ rows_of (heap w1) b1 g1
    /\ shows g1 (in_col3 1 1)
    /\ next_board_state b1 w1 = Ok b2 w2
    /\ rows_of (heap w2) b2 blinker_grid.
Proof.
  apply (blinker_oscillates (world_of blinker_grid) pattern_board
           blinker_grid 1 1).
  - concrete_grid.
  - concrete_shows.
  - lia.
  - vm_compute. reflexivity.
  - lia.
  - vm_compute. reflexivity.
Defined.
